(** * Tenant-scoped authentication and user administration

    A shallow embedding of the two routers of the hospital-management
    backend, [backend/app/routers/auth.py] and
    [backend/app/routers/users.py], together with the session dependency of
    [backend/app/database.py].

    Handlers are written in a small state-and-exception monad over a
    [World]: the committed datastore, the transaction view of the request's
    session, the objects handed to [db.add], the id sequences, the log of
    calls made to the password-hashing context and the clock.  One request
    is served at a time.

    The datastore is PostgreSQL reached through asyncpg
    ([backend/app/config.py]).  Three of its traits are part of the model:
    it may stop answering, it refuses a text value that holds U+0000 and an
    integer argument outside the type of the column, and its [lower()]
    function is its own, not Python's. *)

From Stdlib Require Import ZArith List String Ascii Bool Lia.
Import ListNotations.
Open Scope string_scope.
Open Scope Z_scope.

(** ** Python strings

    A [str] is modelled by a [string] whose characters are the code points
    U+0000..U+00FF. *)

Module Py.

Definition code (c : ascii) : N := N_of_ascii c.

(** [len(s.encode("utf-8"))]: one byte below U+0080, two bytes up to
    U+00FF. *)
Definition utf8_width (c : ascii) : Z :=
  if (code c <? 128)%N then 1 else 2.

Fixpoint utf8_len (s : string) : Z :=
  match s with
  | EmptyString => 0
  | String c s' => utf8_width c + utf8_len s'
  end.

(** [str.isspace] on one character: TAB..CR, FS..US, SPACE, NEL, NBSP. *)
Definition isspace (c : ascii) : bool :=
  let n := code c in
  ((9 <=? n) && (n <=? 13) || (28 <=? n) && (n <=? 32)
   || (n =? 133) || (n =? 160))%N.

(** [str.lower] on one character: A..Z and the Latin-1 capitals
    U+00C0..U+00DE, the multiplication sign U+00D7 apart. *)
Definition lower_char (c : ascii) : ascii :=
  let n := code c in
  if ((65 <=? n) && (n <=? 90)
      || (192 <=? n) && (n <=? 222) && negb (n =? 215))%N
  then ascii_of_N (n + 32) else c.

Fixpoint lower (s : string) : string :=
  match s with
  | EmptyString => EmptyString
  | String c s' => String (lower_char c) (lower s')
  end.

Fixpoint lstrip_chars (l : list ascii) : list ascii :=
  match l with
  | [] => []
  | c :: l' => if isspace c then lstrip_chars l' else l
  end.

Definition lstrip (s : string) : string :=
  string_of_list_ascii (lstrip_chars (list_ascii_of_string s)).

Definition rstrip (s : string) : string :=
  string_of_list_ascii
    (rev (lstrip_chars (rev (list_ascii_of_string s)))).

(** [str.strip()] *)
Definition strip (s : string) : string := rstrip (lstrip s).

(** Truthiness of an optional string: [None] and [""] are falsy. *)
Definition truthy (o : option string) : bool :=
  match o with
  | None => false
  | Some s => negb (s =? "")%string
  end.

(** [x is False] on a nullable boolean. *)
Definition is_False (o : option bool) : bool :=
  match o with
  | Some false => true
  | _ => false
  end.

(** [not x] on a nullable boolean: [None] is falsy. *)
Definition not_ (o : option bool) : bool :=
  match o with
  | Some true => false
  | _ => true
  end.

End Py.

(** ** Rows

    [app/models.py] is not part of the sources at hand; the three row types
    are taken from the data model of the specification and from the keyword
    arguments the routers pass to the constructors. *)

Module Hospital.
(** Modelled from the spec: the columns of [app.models.Hospital]:
    internal numeric id, unique external identifier, name, email,
    address, active flag (nullable). *)
Record t := mk {
  id : Z;
  hospital_id : string;
  name : string;
  email : string;
  address : option string;
  is_active : option bool
}.
End Hospital.

Module User.
(** Modelled from the spec: the columns of [app.models.User]: internal
    numeric id, owning hospital (numeric foreign key), username, optional
    email, password hash, role, full name, status flag (nullable),
    last-login timestamp. *)
Record t := mk {
  id : Z;
  hospital_id : Z;
  username : string;
  email : option string;
  password_hash : string;
  role : string;
  full_name : option string;
  status : option bool;
  last_login : option Z
}.

Definition set_status (v : option bool) (u : t) : t :=
  mk (id u) (hospital_id u) (username u) (email u) (password_hash u)
     (role u) (full_name u) v (last_login u).

Definition set_last_login (v : option Z) (u : t) : t :=
  mk (id u) (hospital_id u) (username u) (email u) (password_hash u)
     (role u) (full_name u) (status u) v.

Definition set_id (v : Z) (u : t) : t :=
  mk v (hospital_id u) (username u) (email u) (password_hash u)
     (role u) (full_name u) (status u) (last_login u).
End User.

Module AuditLog.
(** Modelled from the spec: the columns of [app.models.AuditLog]:
    optional user reference, action tag, structured detail payload (a
    list of key/value pairs), client IP address, creation timestamp. *)
Record t := mk {
  id : Z;
  user_id : option Z;
  action : string;
  details : option (list (string * string));
  ip_address : string;
  created_at : Z
}.
End AuditLog.

Inductive Row :=
| RowHospital (h : Hospital.t)
| RowUser (u : User.t)
| RowAuditLog (a : AuditLog.t).

(** ** Values PostgreSQL takes

    A value of type [text] is any string without U+0000: a statement that
    carries one, as an argument or in a row to insert, is refused.  The
    detail payload of an audit row is a JSON document, in which the
    character travels escaped.  The lengths the columns may declare
    ([app/models.py] is not at hand) are not modelled: strings are taken to
    fit. *)

Module Pg.

Fixpoint text (s : string) : bool :=
  match s with
  | EmptyString => true
  | String c s' => negb (Py.code c =? 0)%N && text s'
  end.

Definition text_opt (o : option string) : bool :=
  match o with
  | Some s => text s
  | None => true
  end.

Definition hospital (h : Hospital.t) : bool :=
  text (Hospital.hospital_id h) && text (Hospital.name h)
  && text (Hospital.email h) && text_opt (Hospital.address h).

Definition user (u : User.t) : bool :=
  text (User.username u) && text_opt (User.email u)
  && text (User.password_hash u) && text (User.role u)
  && text_opt (User.full_name u).

Definition audit_log (a : AuditLog.t) : bool :=
  text (AuditLog.action a) && text (AuditLog.ip_address a).

(** [lower()] in a database whose locale is C: the letters A..Z only. *)
Definition lower_char_C (c : ascii) : ascii :=
  let n := Py.code c in
  if ((65 <=? n) && (n <=? 90))%N then ascii_of_N (n + 32) else c.

Fixpoint lower_C (s : string) : string :=
  match s with
  | EmptyString => EmptyString
  | String c s' => String (lower_char_C c) (lower_C s')
  end.

(** The type INTEGER. *)
Definition int4 (z : Z) : bool := (-2147483648 <=? z) && (z <=? 2147483647).

End Pg.

(** ** The datastore and the session *)

Record Tables := mkTables {
  hospitals : list Hospital.t;
  users : list User.t;
  audit_logs : list AuditLog.t
}.

Inductive PwdCall :=
| HashCall (secret : string)
| VerifyCall (secret : string) (hash : string).

Record World := mkWorld {
  committed : Tables;        (* what every session can see *)
  in_txn : Tables;           (* what the open transaction of the session sees *)
  pending : list Row;        (* objects given to db.add, not yet flushed *)
  hospitals_id_seq : Z;      (* the id sequences are never rolled back *)
  users_id_seq : Z;
  audit_logs_id_seq : Z;
  uptime : option nat;       (* round trips the datastore still answers;
                                None: it never fails *)
  pwd_calls : list PwdCall;  (* calls made to pwd_ctx, oldest first *)
  utcnow : Z                 (* datetime.utcnow() *)
}.

Definition with_session (t : Tables) (p : list Row) (w : World) : World :=
  mkWorld (committed w) t p (hospitals_id_seq w) (users_id_seq w)
          (audit_logs_id_seq w) (uptime w) (pwd_calls w) (utcnow w).

Definition with_committed (t : Tables) (w : World) : World :=
  mkWorld t (in_txn w) (pending w) (hospitals_id_seq w) (users_id_seq w)
          (audit_logs_id_seq w) (uptime w) (pwd_calls w) (utcnow w).

Definition with_uptime (n : option nat) (w : World) : World :=
  mkWorld (committed w) (in_txn w) (pending w) (hospitals_id_seq w)
          (users_id_seq w) (audit_logs_id_seq w) n (pwd_calls w) (utcnow w).

Definition with_pwd_calls (l : list PwdCall) (w : World) : World :=
  mkWorld (committed w) (in_txn w) (pending w) (hospitals_id_seq w)
          (users_id_seq w) (audit_logs_id_seq w) (uptime w) l (utcnow w).

(** ** Exceptions and the handler monad *)

Inductive exn :=
| HTTPException (status_code : Z) (detail : string)
| IntegrityError          (* sqlalchemy.exc.IntegrityError *)
| MultipleResultsFound    (* raised by scalar_one_or_none *)
| OperationalError        (* the datastore did not answer *)
| DBAPIError              (* the datastore refused a value of a statement *)
| InvalidRequestError     (* refresh of an object that has no row *)
| HashingError.           (* raised by pwd_ctx: a password it does not take,
                             a hash it does not know, a backend out of
                             order *)

Inductive outcome (A : Type) :=
| Return (a : A)
| Raise (e : exn).
Arguments Return {A} a.
Arguments Raise {A} e.

Definition M (A : Type) : Type := World -> outcome A * World.

Definition ret {A} (a : A) : M A := fun w => (Return a, w).

Definition raise {A} (e : exn) : M A := fun w => (Raise e, w).

Definition bind {A B} (m : M A) (k : A -> M B) : M B :=
  fun w =>
    match m w with
    | (Return a, w') => k a w'
    | (Raise e, w') => (Raise e, w')
    end.

(** [try: body except ...: handler] *)
Definition try_except {A} (body : M A) (handler : exn -> M A) : M A :=
  fun w =>
    match body w with
    | (Return a, w') => (Return a, w')
    | (Raise e, w') => handler e w'
    end.

Declare Scope handler_scope.
Delimit Scope handler_scope with handler.
Notation "x <- m ;; k" := (bind m (fun x => k))
  (at level 61, m at next level, right associativity) : handler_scope.
Notation "m ;;; k" := (bind m (fun _ => k))
  (at level 61, right associativity) : handler_scope.
Open Scope handler_scope.

Definition get {A} (f : World -> A) : M A := fun w => (Return (f w), w).

Definition modify (f : World -> World) : M unit := fun w => (Return tt, f w).

(** ** The session ([AsyncSession]) *)

Definition set_hospitals (l : list Hospital.t) (t : Tables) : Tables :=
  mkTables l (users t) (audit_logs t).

Definition set_users (l : list User.t) (t : Tables) : Tables :=
  mkTables (hospitals t) l (audit_logs t).

Definition set_audit_logs (l : list AuditLog.t) (t : Tables) : Tables :=
  mkTables (hospitals t) (users t) l.

Definition with_in_txn (t : Tables) (w : World) : World :=
  with_session t (pending w) w.

Definition with_pending (p : list Row) (w : World) : World :=
  with_session (in_txn w) p w.

Definition next_hospital_id (w : World) : World :=
  mkWorld (committed w) (in_txn w) (pending w) (hospitals_id_seq w + 1)
          (users_id_seq w) (audit_logs_id_seq w) (uptime w) (pwd_calls w)
          (utcnow w).

Definition next_user_id (w : World) : World :=
  mkWorld (committed w) (in_txn w) (pending w) (hospitals_id_seq w)
          (users_id_seq w + 1) (audit_logs_id_seq w) (uptime w) (pwd_calls w)
          (utcnow w).

Definition next_audit_log_id (w : World) : World :=
  mkWorld (committed w) (in_txn w) (pending w) (hospitals_id_seq w)
          (users_id_seq w) (audit_logs_id_seq w + 1) (uptime w) (pwd_calls w)
          (utcnow w).

(** One exchange with the datastore.  It raises once the datastore has
    stopped answering. *)
Definition round_trip : M unit :=
  fun w =>
    match uptime w with
    | None => (Return tt, w)
    | Some O => (Raise OperationalError, w)
    | Some (S n) => (Return tt, with_uptime (Some n) w)
    end.

(** [db.add(obj)] *)
Definition db_add (r : Row) : M unit :=
  modify (fun w => with_pending (pending w ++ [r]) w).

(** [result.scalars().first()] *)
Definition first {A} (l : list A) : option A := hd_error l.

(** [result.scalar_one_or_none()] *)
Definition scalar_one_or_none {A} (l : list A) : M (option A) :=
  match l with
  | [] => ret None
  | [a] => ret (Some a)
  | _ => raise MultipleResultsFound
  end.

(** ** Request and response bodies

    [app/schemas.py] is not part of the sources at hand.  The fields are the
    ones the routers read.  A password field holds [None] when the value
    sent is not a [str]. *)

Module LoginRequest.
Record t := mk {
  hospital_id : string;
  username : string;
  password : option string
}.
End LoginRequest.

Module TokenResponse.
Record t := mk {
  access_token : string;
  role : string;
  full_name : option string;
  hospital_id : string
}.
End TokenResponse.

Module HospitalCreate.
Record t := mk {
  register_secret : string;
  hospital_id : string;
  name : string;
  email : string;
  address : option string;
  admin_username : string;
  admin_password : option string;
  admin_full_name : option string
}.
End HospitalCreate.

Module Registered.
(** The dictionary returned by [register_hospital]. *)
Record t := mk {
  message : string;
  hospital_id : string
}.
End Registered.

Module UserCreate.
Record t := mk {
  username : string;
  email : option string;
  password : option string;
  role : string;
  full_name : option string
}.
End UserCreate.

(** ** [backend/update_reqs.py]

    The script rewrites [requirements.txt].  Reading the file and guessing
    its encoding are left to the caller: the model starts from the decoded
    [content] and ends with the text that is written back. *)

Module UpdateReqs.

Definition newline : ascii := "010".
Definition nul : ascii := "000".

(** [content.split('\n')] *)
Fixpoint split_lines (s : string) : list string :=
  match s with
  | EmptyString => [EmptyString]
  | String c s' =>
      if (c =? newline)%char then EmptyString :: split_lines s'
      else match split_lines s' with
           | [] => [String c EmptyString]
           | l :: ls => String c l :: ls
           end
  end.

(** [s.replace('\x00', '')] *)
Fixpoint remove_nul (s : string) : string :=
  match s with
  | EmptyString => EmptyString
  | String c s' =>
      if (c =? nul)%char then remove_nul s' else String c (remove_nul s')
  end.

(** The loop over the lines: what is appended to [new_lines]. *)
Fixpoint kept_lines (lines : list string) : list string :=
  match lines with
  | [] => []
  | line :: rest =>
      let clean_line := remove_nul (Py.strip line) in
      if (clean_line =? "")%string then kept_lines rest
      else if String.prefix "bcrypt" (Py.lower clean_line)
      then kept_lines rest
      else if String.prefix "passlib" (Py.lower clean_line)
      then kept_lines rest
      else clean_line :: kept_lines rest
  end.

Definition pins : list string := ["bcrypt==4.0.1"; "passlib[bcrypt]==1.7.4"].

Definition new_lines (content : string) : list string :=
  (kept_lines (split_lines content) ++ pins)%list.

(** ['\n'.join(new_lines) + '\n'], the text written back. *)
Definition rewritten (content : string) : string :=
  String.concat (String newline EmptyString) (new_lines content)
  ++ String newline EmptyString.

(** The character does not occur in the string. *)
Fixpoint free_of (c : ascii) (s : string) : bool :=
  match s with
  | EmptyString => true
  | String a s' => negb (a =? c)%char && free_of c s'
  end.

(** The three tests of the loop on a cleaned line: it is kept when it is
    not empty and does not start, in lower case, with "bcrypt" or with
    "passlib". *)
Definition kept (clean_line : string) : bool :=
  if (clean_line =? "")%string then false
  else if String.prefix "bcrypt" (Py.lower clean_line) then false
  else if String.prefix "passlib" (Py.lower clean_line) then false
  else true.

(** [strip] on the list of the characters. *)
Definition strip_chars (l : list ascii) : list ascii :=
  rev (Py.lstrip_chars (rev (Py.lstrip_chars l))).

End UpdateReqs.

(** ** A concrete deployment

    Collaborators and datastore contents the statements below are run on:
    a hashing context that prefixes the secret and, like bcrypt's, takes no
    secret that holds U+0000, a database of locale C with keys of type
    INTEGER, the uniqueness constraints named by the data model (external
    id of a hospital, username within a hospital, both up to letter case),
    flags without a column default, and the bootstrap secret
    [app/config.py] falls back to. *)

Module Demo.

Definition hash (secret : string) : option string :=
  if Pg.text secret then Some ("$2b$" ++ secret) else None.

Definition verify (secret hashed : string) : option bool :=
  if Pg.text secret then Some (hashed =? "$2b$" ++ secret)%string else None.

Definition hospital_ok (l : list Hospital.t) (h : Hospital.t) : bool :=
  negb (existsb
          (fun x => (Py.lower (Hospital.hospital_id x)
                     =? Py.lower (Hospital.hospital_id h))%string) l).

Definition user_ok (l : list User.t) (u : User.t) : bool :=
  negb (existsb
          (fun x => (User.hospital_id x =? User.hospital_id u)
                    && (Py.lower (User.username x)
                        =? Py.lower (User.username u))%string) l).

Definition secret : string := "vitasage-bootstrap-secret".

Definition token (user_id : Z) (role hospital_id : string) : string :=
  "jwt." ++ role ++ "." ++ hospital_id.

(** Nothing stored yet. *)
Definition empty : World :=
  mkWorld (mkTables [] [] []) (mkTables [] [] []) [] 1 1 1 None [] 1700000000.

(** The registration of hospital "h1" with admin "admin". *)
Definition reg : HospitalCreate.t :=
  HospitalCreate.mk "vitasage-bootstrap-secret" "h1" "General Hospital"
    "Office@H1.example" None "admin" (Some "correct horse") None.

Definition h1 : Hospital.t :=
  Hospital.mk 1 "h1" "General Hospital" "office@h1.example" None None.

Definition admin1 : User.t :=
  User.mk 1 1 "admin" (Some "office@h1.example") "$2b$correct horse" "admin"
    (Some "Administrator") None None.

(** The datastore once [reg] has been served. *)
Definition registered : World :=
  mkWorld (mkTables [h1] [admin1] []) (mkTables [h1] [admin1] []) [] 2 2 1
          None [HashCall "correct horse"] 1700000000.

(** A second hospital, switched off, with an admin and a doctor. *)
Definition h2 : Hospital.t :=
  Hospital.mk 2 "H2" "Lakeside Clinic" "desk@h2.example" None (Some false).

Definition admin2 : User.t :=
  User.mk 2 2 "root" (Some "desk@h2.example") "$2b$hunter2" "admin"
    (Some "Administrator") (Some true) None.

Definition doctor2 : User.t :=
  User.mk 3 2 "dr.smith" None "$2b$stethoscope" "doctor" (Some "Dr Smith")
    (Some true) None.

Definition two_hospitals : World :=
  mkWorld (mkTables [h1; h2] [admin1; admin2; doctor2] [])
          (mkTables [h1; h2] [admin1; admin2; doctor2] []) [] 3 4 1
          None [] 1700000000.

(** Hospital "h1" with a doctor next to its admin. *)
Definition doctor1 : User.t :=
  User.mk 2 1 "dr.jones" None "$2b$scalpel" "doctor" (Some "Dr Jones")
    (Some true) None.

Definition staffed : World :=
  mkWorld (mkTables [h1] [admin1; doctor1] [])
          (mkTables [h1] [admin1; doctor1] []) [] 2 3 1
          None [] 1700000000.

(** A constraint of [users] on the email: no two users share one. *)
Definition unique_email (l : list User.t) (u : User.t) : bool :=
  negb (existsb
          (fun x => match User.email x, User.email u with
                    | Some a, Some b => (a =? b)%string
                    | _, _ => false
                    end) l).

(** A hashing backend that is out of order. *)
Definition broken_hash (secret : string) : option string := None.

(** Seventy-three bytes. *)
Definition long_password : string :=
  "0123456789012345678901234567890123456789012345678901234567890123456789012".

(** U+00C9 (E with acute accent) followed by the digit one. *)
Definition accented_id : string := String (ascii_of_N 201) "1".

(** The letter a, U+0000, the letter b. *)
Definition with_nul : string := String "a" (String (ascii_of_N 0) "b").

End Demo.

Section Backend.

(** *** Collaborators

    The hashing context [pwd_ctx] (either call may raise: [None]), the
    [lower()] function of the database under its locale, the type of the
    key column [users.id], the integrity constraints and column defaults
    declared by [app/models.py], the configured bootstrap secret and
    [app.dependencies.create_access_token]. *)

Variable pwd_hash : string -> option string.
Variable pwd_verify : string -> string -> option bool.
Variable db_lower : string -> string.
Variable id_column : Z -> bool.
Variable hospital_insert_ok : list Hospital.t -> Hospital.t -> bool.
Variable user_insert_ok : list User.t -> User.t -> bool.
Variable default_is_active : option bool.
Variable default_status : option bool.
Variable settings_register_secret : string.
Variable create_access_token : Z -> string -> string -> string.

(** [pwd_ctx.hash(secret)] *)
Definition pwd_ctx_hash (secret : string) : M string :=
  modify (fun w => with_pwd_calls (pwd_calls w ++ [HashCall secret]) w) ;;;
  match pwd_hash secret with
  | Some h => ret h
  | None => raise HashingError
  end.

(** [pwd_ctx.verify(secret, hash)] *)
Definition pwd_ctx_verify (secret hash : string) : M bool :=
  modify
    (fun w => with_pwd_calls (pwd_calls w ++ [VerifyCall secret hash]) w) ;;;
  match pwd_verify secret hash with
  | Some verified => ret verified
  | None => raise HashingError
  end.

(** The INSERT of one pending object.  The datastore refuses a row with a
    text it does not take; otherwise it draws the primary key from the
    table's sequence, fills the defaulted columns and checks the table's
    constraints. *)
Definition insert_row (r : Row) : M Row :=
  match r with
  | RowHospital h =>
      if Pg.hospital h then
        pk <- get hospitals_id_seq ;;
        modify next_hospital_id ;;;
        let h' := Hospital.mk pk (Hospital.hospital_id h) (Hospital.name h)
                    (Hospital.email h) (Hospital.address h)
                    (Hospital.is_active h) in
        t <- get in_txn ;;
        if hospital_insert_ok (hospitals t) h'
        then modify (with_in_txn (set_hospitals (hospitals t ++ [h']) t)) ;;;
             ret (RowHospital h')
        else raise IntegrityError
      else raise DBAPIError
  | RowUser u =>
      if Pg.user u then
        pk <- get users_id_seq ;;
        modify next_user_id ;;;
        let u' := User.set_id pk u in
        t <- get in_txn ;;
        if user_insert_ok (users t) u'
        then modify (with_in_txn (set_users (users t ++ [u']) t)) ;;;
             ret (RowUser u')
        else raise IntegrityError
      else raise DBAPIError
  | RowAuditLog a =>
      if Pg.audit_log a then
        pk <- get audit_logs_id_seq ;;
        modify next_audit_log_id ;;;
        now <- get utcnow ;;
        let a' := AuditLog.mk pk (AuditLog.user_id a) (AuditLog.action a)
                    (AuditLog.details a) (AuditLog.ip_address a) now in
        t <- get in_txn ;;
        modify (with_in_txn (set_audit_logs (audit_logs t ++ [a']) t)) ;;;
        ret (RowAuditLog a')
      else raise DBAPIError
  end.

Fixpoint insert_rows (rs : list Row) : M (list Row) :=
  match rs with
  | [] => ret []
  | r :: rs' =>
      r' <- insert_row r ;;
      rs'' <- insert_rows rs' ;;
      ret (r' :: rs'')
  end.

(** [await db.flush()]: the pending objects are written inside the open
    transaction.  The result is the state of these objects after the
    flush, primary keys included. *)
Definition db_flush : M (list Row) :=
  round_trip ;;;
  rs <- get pending ;;
  modify (with_pending []) ;;;
  insert_rows rs.

(** [await db.commit()] *)
Definition db_commit : M (list Row) :=
  rs <- db_flush ;;
  round_trip ;;;
  modify (fun w => with_committed (in_txn w) w) ;;;
  ret rs.

(** [await db.rollback()] *)
Definition db_rollback : M unit :=
  modify (fun w => with_session (committed w) [] w).

(** [await db.execute(select(...))], with the session's autoflush.
    [accepted] tells whether the datastore takes the values the client
    sent that the statement carries as arguments; values read from a row
    of the datastore fit their columns. *)
Definition db_execute {A} (accepted : bool) (query : Tables -> A) : M A :=
  rs <- get pending ;;
  match rs with
  | [] => ret []
  | _ => db_flush
  end ;;;
  round_trip ;;;
  if accepted then get (fun w => query (in_txn w)) else raise DBAPIError.

(** An attribute assignment on a loaded user; the UPDATE it causes is
    keyed by the primary key and goes out with the next flush. *)
Definition set_attr_user (pk : Z) (f : User.t -> User.t) : M unit :=
  modify
    (fun w =>
       let t := in_txn w in
       with_in_txn
         (set_users
            (map (fun u => if User.id u =? pk then f u else u) (users t)) t)
         w).

(** [await db.refresh(obj)] *)
Definition db_refresh_hospital (h : Hospital.t) : M Hospital.t :=
  round_trip ;;;
  t <- get in_txn ;;
  match find (fun x => Hospital.id x =? Hospital.id h) (hospitals t) with
  | Some x => ret x
  | None => raise InvalidRequestError
  end.

Definition db_refresh_user (u : User.t) : M User.t :=
  round_trip ;;;
  t <- get in_txn ;;
  match find (fun x => User.id x =? User.id u) (users t) with
  | Some x => ret x
  | None => raise InvalidRequestError
  end.

(** [get_db] of [app/database.py]: the handler runs in a session of its
    own, closed when the request is over; closing drops whatever was not
    committed. *)
Definition opened (w : World) : World := with_session (committed w) [] w.

Definition get_db {A} (handler : M A) : M A :=
  fun w =>
    let '(r, w') := handler (opened w) in
    (r, opened w').


(** *** [routers/auth.py] *)

Definition invalid_credentials : exn :=
  HTTPException 401 "Invalid credentials".

(** The hospitals whose external id, lowercased by the datastore, equals
    [ident]. *)
Definition select_hospital (ident : string) (t : Tables)
  : list Hospital.t :=
  filter (fun h => (db_lower (Hospital.hospital_id h) =? ident)%string)
         (hospitals t).

(** The users of hospital [hospital_pk] whose username, lowercased by the
    datastore, is [name]. *)
Definition select_user (name : string) (hospital_pk : Z) (t : Tables)
  : list User.t :=
  filter (fun u => (db_lower (User.username u) =? name)%string
                   && (User.hospital_id u =? hospital_pk))
         (users t).

Definition login (payload : LoginRequest.t) (client_host : string)
  : M TokenResponse.t :=
  let norm_hosp_id := Py.strip (LoginRequest.hospital_id payload) in
  let norm_username :=
    Py.lower (Py.strip (LoginRequest.username payload)) in
  match LoginRequest.password payload with
  | None => raise invalid_credentials
  | Some raw_password =>
  if 72 <? Py.utf8_len raw_password then raise invalid_credentials else
  hosp_result <-
    db_execute (Pg.text (Py.lower norm_hosp_id))
      (select_hospital (Py.lower norm_hosp_id)) ;;
  match first hosp_result with
  | None => raise invalid_credentials
  | Some hospital =>
  if Py.is_False (Hospital.is_active hospital)
  then raise invalid_credentials else
  user_result <-
    db_execute (Pg.text norm_username)
      (select_user norm_username (Hospital.id hospital)) ;;
  let login_failed : M TokenResponse.t :=
    db_add (RowAuditLog
              (AuditLog.mk 0 None "LOGIN_FAILED"
                 (Some [("username", norm_username);
                        ("hospital_id", norm_hosp_id)])
                 client_host 0)) ;;;
    db_commit ;;;
    raise invalid_credentials in
  match first user_result with
  | None => login_failed
  | Some user =>
  if Py.is_False (User.status user) then login_failed else
  verified <- pwd_ctx_verify raw_password (User.password_hash user) ;;
  if negb verified then login_failed else
  now <- get utcnow ;;
  set_attr_user (User.id user) (User.set_last_login (Some now)) ;;;
  db_add (RowAuditLog
            (AuditLog.mk 0 (Some (User.id user)) "LOGIN_SUCCESS" None
               client_host 0)) ;;;
  db_commit ;;;
  let token :=
    create_access_token (User.id user) (User.role user) norm_hosp_id in
  ret (TokenResponse.mk token (User.role user) (User.full_name user)
         norm_hosp_id)
  end
  end
  end.

Definition flushed_hospital (rs : list Row) : M Hospital.t :=
  match rs with
  | [RowHospital h] => ret h
  | _ => raise InvalidRequestError
  end.

Definition flushed_user (rs : list Row) : M User.t :=
  match rs with
  | [RowUser u] => ret u
  | _ => raise InvalidRequestError
  end.

Definition register_hospital (payload : HospitalCreate.t)
  : M Registered.t :=
  if negb (HospitalCreate.register_secret payload
           =? settings_register_secret)%string
  then raise (HTTPException 403 "Invalid register secret") else
  let norm_hosp_id := Py.strip (HospitalCreate.hospital_id payload) in
  let norm_username :=
    Py.lower (Py.strip (HospitalCreate.admin_username payload)) in
  match HospitalCreate.admin_password payload with
  | None =>
      raise (HTTPException 400
        "Invalid password type. Ensure 'admin_password' is included as a string.")
  | Some raw_password =>
  if 72 <? Py.utf8_len raw_password
  then raise (HTTPException 400
                "Password too long. Maximum length is 72 bytes.") else
  existing <-
    db_execute (Pg.text (Py.lower norm_hosp_id))
      (select_hospital (Py.lower norm_hosp_id)) ;;
  match first existing with
  | Some _ => raise (HTTPException 409 "Hospital ID already exists")
  | None =>
  try_except
    (hashed_password <- pwd_ctx_hash raw_password ;;
     db_add (RowHospital
               (Hospital.mk 0 norm_hosp_id
                  (Py.strip (HospitalCreate.name payload))
                  (Py.lower (Py.strip (HospitalCreate.email payload)))
                  (if Py.truthy (HospitalCreate.address payload)
                   then option_map Py.strip (HospitalCreate.address payload)
                   else None)
                  default_is_active)) ;;;
     flushed <- db_flush ;;
     hospital <- flushed_hospital flushed ;;
     db_add (RowUser
               (User.mk 0 (Hospital.id hospital) norm_username
                  (Some (Py.lower (Py.strip (HospitalCreate.email payload))))
                  hashed_password "admin"
                  (if Py.truthy (HospitalCreate.admin_full_name payload)
                   then option_map Py.strip
                          (HospitalCreate.admin_full_name payload)
                   else Some "Administrator")
                  default_status None)) ;;;
     committed_rows <- db_commit ;;
     admin <- flushed_user committed_rows ;;
     db_refresh_hospital hospital ;;;
     db_refresh_user admin ;;;
     ret tt)
    (fun e =>
       match e with
       | IntegrityError =>
           db_rollback ;;;
           raise (HTTPException 409
             "A record with these details already exists (check email or username).")
       | _ =>
           db_rollback ;;;
           raise (HTTPException 500
             "An unexpected server error occurred during registration. Please verify field formatting.")
       end) ;;;
  ret (Registered.mk
         ("Hospital " ++ norm_hosp_id ++ " registered successfully")
         norm_hosp_id)
  end
  end.

(** *** [routers/users.py] *)

Definition list_users (current_user : User.t) : M (list User.t) :=
  db_execute true
    (fun t =>
       filter
         (fun u => User.hospital_id u =? User.hospital_id current_user)
         (users t)).

Definition valid_role (r : string) : bool :=
  ((r =? "admin") || (r =? "doctor") || (r =? "staff"))%string.

Definition create_user (payload : UserCreate.t) (current_user : User.t)
  : M User.t :=
  if negb (valid_role (UserCreate.role payload))
  then raise (HTTPException 400 "Invalid role") else
  let too_long : exn :=
    HTTPException 400 "Password too long. Maximum length is 72 bytes." in
  match UserCreate.password payload with
  | None => raise too_long
  | Some raw_password =>
  if 72 <? Py.utf8_len raw_password then raise too_long else
  hashed_password <- pwd_ctx_hash raw_password ;;
  db_add (RowUser
            (User.mk 0 (User.hospital_id current_user)
               (Py.lower (Py.strip (UserCreate.username payload)))
               (if Py.truthy (UserCreate.email payload)
                then option_map (fun e => Py.lower (Py.strip e))
                       (UserCreate.email payload)
                else None)
               hashed_password (UserCreate.role payload)
               (if Py.truthy (UserCreate.full_name payload)
                then option_map Py.strip (UserCreate.full_name payload)
                else None)
               default_status None)) ;;;
  committed_rows <- db_commit ;;
  user <- flushed_user committed_rows ;;
  db_refresh_user user
  end.

(** [user_id] is the integer of the path, any integer: of the values the
    statement carries it is the one the client sends. *)
Definition toggle_user_status (user_id : Z) (current_user : User.t)
  : M User.t :=
  result <-
    db_execute (id_column user_id)
      (fun t =>
         filter
           (fun u => (User.id u =? user_id)
                     && (User.hospital_id u =? User.hospital_id current_user))
           (users t)) ;;
  found <- scalar_one_or_none result ;;
  match found with
  | None => raise (HTTPException 404 "User not found")
  | Some user =>
      let flipped := Some (Py.not_ (User.status user)) in
      set_attr_user (User.id user) (User.set_status flipped) ;;;
      db_commit ;;;
      db_refresh_user user
  end.


(** [get_me]: the authenticated user, as the dependency resolved it. *)
Definition get_me (current_user : User.t) : M User.t := ret current_user.

(** *** Requests

    One request of the API, with what the dependencies of the route resolve
    ([request.client.host] for [login], the current user for the routes of
    [routers/users.py]). *)
Inductive request :=
| Login (payload : LoginRequest.t) (client_host : string)
| RegisterHospital (payload : HospitalCreate.t)
| ListUsers (current_user : User.t)
| CreateUser (payload : UserCreate.t) (current_user : User.t)
| ToggleUserStatus (user_id : Z) (current_user : User.t)
| GetMe (current_user : User.t).

(** The world once the request has been answered. *)
Definition serve (q : request) (w : World) : World :=
  match q with
  | Login payload client_host => snd (get_db (login payload client_host) w)
  | RegisterHospital payload => snd (get_db (register_hospital payload) w)
  | ListUsers current_user => snd (get_db (list_users current_user) w)
  | CreateUser payload current_user =>
      snd (get_db (create_user payload current_user) w)
  | ToggleUserStatus user_id current_user =>
      snd (get_db (toggle_user_status user_id current_user) w)
  | GetMe current_user => snd (get_me current_user w)
  end.

(** *** Notions used in the statements *)

(** The detail payload of a LOGIN_FAILED row. *)
Definition failed_details (payload : LoginRequest.t)
  : option (list (string * string)) :=
  Some [("username", Py.lower (Py.strip (LoginRequest.username payload)));
        ("hospital_id", Py.strip (LoginRequest.hospital_id payload))].

(** What the user stage of [login] decides: [Some user] when the user is
    found, is not disabled and the password verifies. *)
Definition authenticated (payload : LoginRequest.t) (pw : string)
           (hospital : Hospital.t) (t : Tables) : option User.t :=
  match first (select_user
                 (Py.lower (Py.strip (LoginRequest.username payload)))
                 (Hospital.id hospital) t) with
  | None => None
  | Some user =>
      if Py.is_False (User.status user) then None
      else match pwd_verify pw (User.password_hash user) with
           | Some true => Some user
           | _ => None
           end
  end.

Ltac world w :=
  destruct w as [store txn pend hseq useq aseq up calls now];
  simpl in *; subst up.

(** The two rows [register_hospital] stores for a payload, given the keys
    the datastore hands out and the hash of the admin password. *)
Definition hospital_row (payload : HospitalCreate.t) (pk : Z) : Hospital.t :=
  Hospital.mk pk
    (Py.strip (HospitalCreate.hospital_id payload))
    (Py.strip (HospitalCreate.name payload))
    (Py.lower (Py.strip (HospitalCreate.email payload)))
    (if Py.truthy (HospitalCreate.address payload)
     then option_map Py.strip (HospitalCreate.address payload)
     else None)
    default_is_active.

Definition admin_row (payload : HospitalCreate.t) (hashed : string)
           (pk hospital_pk : Z) : User.t :=
  User.mk pk hospital_pk
    (Py.lower (Py.strip (HospitalCreate.admin_username payload)))
    (Some (Py.lower (Py.strip (HospitalCreate.email payload))))
    hashed "admin"
    (if Py.truthy (HospitalCreate.admin_full_name payload)
     then option_map Py.strip (HospitalCreate.admin_full_name payload)
     else Some "Administrator")
    default_status None.

(** Registration requests served one after the other. *)
Fixpoint register_all (payloads : list HospitalCreate.t) (w : World)
  : list (outcome Registered.t) * World :=
  match payloads with
  | [] => ([], w)
  | payload :: rest =>
      let '(r, w1) := get_db (register_hospital payload) w in
      let '(rs, w2) := register_all rest w1 in
      (r :: rs, w2)
  end.

(** A registration request that passes the checks made before the
    duplicate lookup: the bootstrap secret is the configured one and the
    admin password is a string of at most 72 bytes. *)
Definition well_formed_registration (payload : HospitalCreate.t) : Prop :=
  HospitalCreate.register_secret payload = settings_register_secret
  /\ exists raw,
      HospitalCreate.admin_password payload = Some raw
      /\ Py.utf8_len raw <= 72.

(** Referential integrity of [users.hospital_id]: a user row never carries
    a hospital key the sequence has not handed out yet. *)
Definition foreign_keys_allocated (w : World) : Prop :=
  Forall (fun u => User.hospital_id u < hospitals_id_seq w)
         (users (committed w)).

(** The primary key of [users]: no two rows share an id. *)
Definition users_pk (t : Tables) : Prop := NoDup (map User.id (users t)).

(** The status a toggle writes. *)
Definition toggled (u : User.t) : User.t :=
  User.set_status (Some (Py.not_ (User.status u))) u.

(** The user whose stored hash [login] hands to [pwd_ctx.verify]: the
    first user of the hospital with the normalized username, unless its
    status is explicitly false. *)
Definition challenged (payload : LoginRequest.t) (hospital : Hospital.t)
           (t : Tables) : option User.t :=
  match first (select_user
                 (Py.lower (Py.strip (LoginRequest.username payload)))
                 (Hospital.id hospital) t) with
  | None => None
  | Some user => if Py.is_False (User.status user) then None else Some user
  end.

(** The audit rows of [login] as the datastore stores them. *)
Definition failed_row (payload : LoginRequest.t) (client_host : string)
           (pk now : Z) : AuditLog.t :=
  AuditLog.mk pk None "LOGIN_FAILED" (failed_details payload) client_host now.

Definition success_row (user : User.t) (client_host : string) (pk now : Z)
  : AuditLog.t :=
  AuditLog.mk pk (Some (User.id user)) "LOGIN_SUCCESS" None client_host now.

(** The body [login] answers for [user]. *)
Definition token_response (payload : LoginRequest.t) (user : User.t)
  : TokenResponse.t :=
  TokenResponse.mk
    (create_access_token (User.id user) (User.role user)
       (Py.strip (LoginRequest.hospital_id payload)))
    (User.role user) (User.full_name user)
    (Py.strip (LoginRequest.hospital_id payload)).

(** The row [create_user] stores for a payload, given the caller, the hash
    of the password and the key the datastore hands out. *)
Definition user_row (payload : UserCreate.t) (hashed : string)
           (current_user : User.t) (pk : Z) : User.t :=
  User.mk pk (User.hospital_id current_user)
    (Py.lower (Py.strip (UserCreate.username payload)))
    (if Py.truthy (UserCreate.email payload)
     then option_map (fun e => Py.lower (Py.strip e))
            (UserCreate.email payload)
     else None)
    hashed (UserCreate.role payload)
    (if Py.truthy (UserCreate.full_name payload)
     then option_map Py.strip (UserCreate.full_name payload)
     else None)
    default_status None.

(** Modelled from the spec: [app.dependencies.require_admin] and
    [get_current_user] are not part of the sources at hand; the current
    user they resolve is re-fetched from the datastore, hence a stored
    user. *)
Definition caller_known (q : request) (w : World) : Prop :=
  match q with
  | ListUsers current_user
  | CreateUser _ current_user
  | ToggleUserStatus _ current_user
  | GetMe current_user => In current_user (users (committed w))
  | _ => True
  end.

(** The integrity the datastore keeps: primary keys are unique and behind
    their sequences, and every user belongs to a stored hospital. *)
Definition consistent (w : World) : Prop :=
  Forall (fun h => Hospital.id h < hospitals_id_seq w)
         (hospitals (committed w))
  /\ Forall (fun u => User.id u < users_id_seq w) (users (committed w))
  /\ NoDup (map Hospital.id (hospitals (committed w)))
  /\ users_pk (committed w)
  /\ Forall (fun u => In (User.hospital_id u)
                         (map Hospital.id (hospitals (committed w))))
            (users (committed w)).

(** The worlds a run of requests leads to, each request made by a caller
    known to the world it is served in. *)
Inductive reachable (w0 : World) : World -> Prop :=
| reachable_start : reachable w0 w0
| reachable_serve (w : World) (q : request) :
    reachable w0 w -> caller_known q w -> reachable w0 (serve q w).

(** Two states of one account: everything but the status flag and the last
    login is the same. *)
Definition same_account (u u' : User.t) : Prop :=
  User.id u' = User.id u
  /\ User.hospital_id u' = User.hospital_id u
  /\ User.username u' = User.username u
  /\ User.email u' = User.email u
  /\ User.password_hash u' = User.password_hash u
  /\ User.role u' = User.role u
  /\ User.full_name u' = User.full_name u.

(** ** Facts about the string operations *)

Lemma lower_char_idem (c : ascii) :
  Py.lower_char (Py.lower_char c) = Py.lower_char c.
Proof. destruct c as [[] [] [] [] [] [] [] []]; reflexivity. Qed.

Lemma lower_idem (s : string) : Py.lower (Py.lower s) = Py.lower s.
Proof.
  induction s as [|c s IH]; simpl; [reflexivity|].
  now rewrite lower_char_idem, IH.
Qed.

Lemma utf8_width_bounds (c : ascii) : 1 <= Py.utf8_width c <= 2.
Proof. unfold Py.utf8_width; destruct (Py.code c <? 128)%N; lia. Qed.

Lemma utf8_len_bounds (s : string) :
  Z.of_nat (String.length s) <= Py.utf8_len s
  <= 2 * Z.of_nat (String.length s).
Proof.
  induction s as [|c s IH]; simpl String.length; simpl Py.utf8_len; [lia|].
  pose proof (utf8_width_bounds c). lia.
Qed.

(** Lowercasing and trimming neither bring U+0000 into a string nor take
    it out. *)
Lemma lower_char_nul (c : ascii) :
  (Py.code (Py.lower_char c) =? 0)%N = (Py.code c =? 0)%N.
Proof. destruct c as [[] [] [] [] [] [] [] []]; reflexivity. Qed.

Lemma text_lower (s : string) : Pg.text (Py.lower s) = Pg.text s.
Proof.
  induction s as [|c s IH]; simpl; [reflexivity|].
  now rewrite lower_char_nul, IH.
Qed.

Lemma text_chars (l : list ascii) :
  Pg.text (string_of_list_ascii l)
  = forallb (fun c => negb (Py.code c =? 0)%N) l.
Proof. induction l as [|c l IH]; simpl; [reflexivity|now rewrite IH]. Qed.

Lemma text_as_chars (s : string) :
  Pg.text s
  = forallb (fun c => negb (Py.code c =? 0)%N) (list_ascii_of_string s).
Proof. induction s as [|c s IH]; simpl; [reflexivity|now rewrite IH]. Qed.

Lemma isspace_not_nul (c : ascii) :
  Py.isspace c = true -> negb (Py.code c =? 0)%N = true.
Proof.
  destruct c as [[] [] [] [] [] [] [] []]; intros H;
    first [reflexivity | discriminate H].
Qed.

Lemma forallb_lstrip_chars (l : list ascii) :
  forallb (fun c => negb (Py.code c =? 0)%N) (Py.lstrip_chars l)
  = forallb (fun c => negb (Py.code c =? 0)%N) l.
Proof.
  induction l as [|c l IH]; simpl; [reflexivity|].
  destruct (Py.isspace c) eqn:Hc; [|reflexivity].
  now rewrite IH, (isspace_not_nul c Hc).
Qed.

Lemma forallb_rev {A} (f : A -> bool) (l : list A) :
  forallb f (rev l) = forallb f l.
Proof.
  induction l as [|a l IH]; simpl; [reflexivity|].
  rewrite forallb_app, IH. simpl. rewrite andb_true_r. apply andb_comm.
Qed.

Lemma text_strip (s : string) : Pg.text (Py.strip s) = Pg.text s.
Proof.
  unfold Py.strip, Py.rstrip, Py.lstrip.
  rewrite text_chars, list_ascii_of_string_of_list_ascii.
  rewrite forallb_rev, forallb_lstrip_chars, forallb_rev.
  rewrite forallb_lstrip_chars. symmetry. apply text_as_chars.
Qed.

Lemma text_normalized (s : string) :
  Pg.text (Py.lower (Py.strip s)) = Pg.text s.
Proof. now rewrite text_lower, text_strip. Qed.

(** ** Reasoning about handlers *)

Lemma round_trip_up (w : World) :
  uptime w = None -> round_trip w = (Return tt, w).
Proof. unfold round_trip; intros ->; reflexivity. Qed.

Lemma bind_Return {A B} (m : M A) (k : A -> M B) (w w' : World) (a : A) :
  m w = (Return a, w') -> bind m k w = k a w'.
Proof. unfold bind; intros ->; reflexivity. Qed.

Lemma bind_Raise {A B} (m : M A) (k : A -> M B) (w w' : World) (e : exn) :
  m w = (Raise e, w') -> bind m k w = (Raise e, w').
Proof. unfold bind; intros ->; reflexivity. Qed.

(** A query made while nothing is pending and the datastore answers reads
    the transaction view and leaves the world alone, or is refused. *)
Lemma db_execute_clean {A} (query : Tables -> A) (w : World) :
  pending w = [] -> uptime w = None ->
  db_execute true query w = (Return (query (in_txn w)), w).
Proof.
  intros Hp Hu. unfold db_execute, bind, get, ret.
  rewrite Hp. rewrite (round_trip_up w Hu). reflexivity.
Qed.

Lemma db_execute_refused {A} (query : Tables -> A) (w : World) :
  pending w = [] -> uptime w = None ->
  db_execute false query w = (Raise DBAPIError, w).
Proof.
  intros Hp Hu. unfold db_execute, bind, get, ret, raise.
  rewrite Hp. rewrite (round_trip_up w Hu). reflexivity.
Qed.

(** The two audit rows [login] writes are refused only for the client
    address. *)
Lemma audit_log_failed (pk now : Z) (details : option (list (string * string)))
      (host : string) :
  Pg.audit_log (AuditLog.mk pk None "LOGIN_FAILED" details host now)
  = Pg.text host.
Proof. reflexivity. Qed.

Lemma audit_log_success (pk now uid : Z) (host : string) :
  Pg.audit_log (AuditLog.mk pk (Some uid) "LOGIN_SUCCESS" None host now)
  = Pg.text host.
Proof. reflexivity. Qed.

Lemma get_db_unfold {A} (handler : M A) (w : World) :
  get_db handler w =
  (fst (handler (opened w)), opened (snd (handler (opened w)))).
Proof.
  unfold get_db, opened. destruct (handler _) as [r w']. reflexivity.
Qed.


Ltac run_in H :=
  cbv beta iota zeta delta
      [bind ret raise get modify try_except round_trip db_add db_flush
       db_commit db_rollback db_execute insert_rows insert_row set_attr_user
       db_refresh_hospital db_refresh_user pwd_ctx_hash pwd_ctx_verify
       flushed_hospital flushed_user scalar_one_or_none
       with_session with_committed with_uptime with_pwd_calls with_in_txn
       with_pending next_hospital_id next_user_id next_audit_log_id
       set_hospitals set_users set_audit_logs opened
       committed in_txn pending hospitals_id_seq users_id_seq
       audit_logs_id_seq uptime pwd_calls utcnow
       hospitals users audit_logs app negb first hd_error
       Hospital.id Hospital.hospital_id Hospital.name Hospital.email
       Hospital.address Hospital.is_active
       User.set_id User.set_status User.set_last_login
       User.id User.hospital_id User.username User.email User.password_hash
       User.role User.full_name User.status User.last_login
       AuditLog.user_id AuditLog.action AuditLog.details
       AuditLog.ip_address] in H.

Ltac run :=
  cbv beta iota zeta delta
      [bind ret raise get modify try_except round_trip db_add db_flush
       db_commit db_rollback db_execute insert_rows insert_row set_attr_user
       db_refresh_hospital db_refresh_user pwd_ctx_hash pwd_ctx_verify
       flushed_hospital flushed_user scalar_one_or_none
       with_session with_committed with_uptime with_pwd_calls with_in_txn
       with_pending next_hospital_id next_user_id next_audit_log_id
       set_hospitals set_users set_audit_logs opened
       committed in_txn pending hospitals_id_seq users_id_seq
       audit_logs_id_seq uptime pwd_calls utcnow
       hospitals users audit_logs app negb first hd_error
       Hospital.id Hospital.hospital_id Hospital.name Hospital.email
       Hospital.address Hospital.is_active
       User.set_id User.set_status User.set_last_login
       User.id User.hospital_id User.username User.email User.password_hash
       User.role User.full_name User.status User.last_login
       AuditLog.user_id AuditLog.action AuditLog.details
       AuditLog.ip_address].

Ltac step_in H :=
  match type of H with
  | context [match ?x with _ => _ end] =>
      lazymatch type of x with
      | prod _ _ => fail
      | _ => destruct x eqn:?; run_in H; try discriminate H
      end
  end.


(** ** The password-length guard *)

(** C4. A password whose UTF-8 encoding is longer than 72 bytes makes
    [login] fail with 401 "Invalid credentials" and [create_user] fail with
    a 400, whatever the rest of the request, the caller, the datastore and
    the hashing context are; in both cases no call to [pwd_ctx.hash] or
    [pwd_ctx.verify] has been made and nothing has been committed. *)
Theorem long_password_never_reaches_pwd_ctx (pw : string) :
  72 < Py.utf8_len pw ->
  (forall payload client_host w,
      LoginRequest.password payload = Some pw ->
      exists w',
        get_db (login payload client_host) w
        = (Raise (HTTPException 401 "Invalid credentials"), w')
        /\ pwd_calls w' = pwd_calls w
        /\ committed w' = committed w)
  /\
  (forall payload current_user w,
      UserCreate.password payload = Some pw ->
      exists detail w',
        get_db (create_user payload current_user) w
        = (Raise (HTTPException 400 detail), w')
        /\ pwd_calls w' = pwd_calls w
        /\ committed w' = committed w).
Proof.
  intros Hlong. apply Z.ltb_lt in Hlong. split.
  - intros payload client_host w Hpw.
    exists (opened (opened w)).
    unfold get_db, login. rewrite Hpw, Hlong. simpl. auto.
  - intros payload current_user w Hpw.
    unfold get_db, create_user.
    destruct (negb (valid_role (UserCreate.role payload))).
    + do 2 eexists. simpl. auto.
    + rewrite Hpw, Hlong. do 2 eexists. simpl. auto.
Qed.


(** ** Audit trail of [login] *)

(** C1 (as amended).  While the datastore answers: a login stopped by the
    password guard, the password being no string or a string of more than
    72 bytes, is answered 401 and writes no audit row.  A login that passes
    the guard with a tenant id, a username and a client address free of
    U+0000, finds a hospital that is not switched off and whose call to
    [pwd_ctx.verify], if it makes one, returns, commits exactly one audit
    row carrying the client address before it answers: a LOGIN_FAILED row
    (no user reference, detail = normalized username and trimmed tenant id)
    with the 401 when the user is absent, disabled or the password does not
    verify, and a LOGIN_SUCCESS row referring to the user when the login
    returns its token. *)
Theorem login_audit_rows (w : World) (payload : LoginRequest.t)
        (client_host : string) :
  uptime w = None ->
  ((LoginRequest.password payload = None
    \/ exists pw,
         LoginRequest.password payload = Some pw /\ 72 < Py.utf8_len pw) ->
   exists w',
     get_db (login payload client_host) w
     = (Raise (HTTPException 401 "Invalid credentials"), w')
     /\ audit_logs (committed w') = audit_logs (committed w))
  /\
  (forall pw hospital,
      LoginRequest.password payload = Some pw -> Py.utf8_len pw <= 72 ->
      Pg.text (LoginRequest.hospital_id payload) = true ->
      Pg.text (LoginRequest.username payload) = true ->
      Pg.text client_host = true ->
      first (select_hospital
               (Py.lower (Py.strip (LoginRequest.hospital_id payload)))
               (committed w)) = Some hospital ->
      Hospital.is_active hospital <> Some false ->
      (forall user,
          challenged payload hospital (committed w) = Some user ->
          pwd_verify pw (User.password_hash user) <> None) ->
      exists r w' entry,
        get_db (login payload client_host) w = (r, w')
        /\ audit_logs (committed w')
           = (audit_logs (committed w) ++ [entry])%list
        /\ AuditLog.ip_address entry = client_host
        /\ match authenticated payload pw hospital (committed w) with
           | None =>
               r = Raise (HTTPException 401 "Invalid credentials")
               /\ AuditLog.action entry = "LOGIN_FAILED"
               /\ AuditLog.user_id entry = None
               /\ AuditLog.details entry = failed_details payload
           | Some user =>
               (exists token, r = Return token)
               /\ AuditLog.action entry = "LOGIN_SUCCESS"
               /\ AuditLog.user_id entry = Some (User.id user)
           end).
Proof.
  intros Hup. split.
  - intros [Hpw|(pw & Hpw & Hlong)].
    + eexists. unfold get_db, login. rewrite Hpw. simpl. auto.
    + apply Z.ltb_lt in Hlong.
      eexists. unfold get_db, login. rewrite Hpw, Hlong. simpl. auto.
  - intros pw hospital Hpw Hlen Hhid Hname Hhost Hhosp Hact Hver.
    assert (Hguard : (72 <? Py.utf8_len pw) = false) by (apply Z.ltb_ge; lia).
    assert (Hflag : Py.is_False (Hospital.is_active hospital) = false).
    { destruct (Hospital.is_active hospital) as [[|]|]; simpl; congruence. }
    rewrite <- text_normalized in Hhid, Hname.
    unfold authenticated. unfold challenged in Hver.
    unfold get_db, login, opened. rewrite Hpw, Hguard, Hhid, Hname.
    world w.
    unfold bind at 1. rewrite db_execute_clean by reflexivity.
    cbn [in_txn with_session committed]. rewrite Hhosp, Hflag.
    unfold bind at 1. rewrite db_execute_clean by reflexivity.
    cbn [in_txn with_session committed].
    destruct (first (select_user _ _ _)) as [user|].
    + destruct (Py.is_False (User.status user)).
      * run. rewrite audit_log_failed, Hhost. run.
        do 3 eexists. repeat split; reflexivity.
      * specialize (Hver user eq_refl).
        destruct user as [uid uhosp uname umail uhash urole ufull ust ull].
        cbn [User.password_hash User.id] in *.
        destruct (pwd_verify pw uhash) as [[|]|] eqn:Hv; [| |congruence].
        -- run. rewrite Hv. run. rewrite audit_log_success, Hhost. run.
           do 3 eexists. repeat split; eauto.
        -- run. rewrite Hv. run. rewrite audit_log_failed, Hhost. run.
           do 3 eexists. repeat split; reflexivity.
    + run. rewrite audit_log_failed, Hhost. run.
      do 3 eexists. repeat split; reflexivity.
Qed.


(** ** The hospital stage of [login] *)

(** A login that goes through: the body answered and what is stored. *)
Lemma login_succeeds (w : World) (payload : LoginRequest.t)
      (client_host pw : string) (hospital : Hospital.t) (user : User.t) :
  uptime w = None ->
  LoginRequest.password payload = Some pw -> Py.utf8_len pw <= 72 ->
  Pg.text (LoginRequest.hospital_id payload) = true ->
  Pg.text (LoginRequest.username payload) = true ->
  Pg.text client_host = true ->
  first (select_hospital
           (Py.lower (Py.strip (LoginRequest.hospital_id payload)))
           (committed w)) = Some hospital ->
  Hospital.is_active hospital <> Some false ->
  authenticated payload pw hospital (committed w) = Some user ->
  exists w',
    get_db (login payload client_host) w
    = (Return (token_response payload user), w')
    /\ committed w'
       = mkTables
           (hospitals (committed w))
           (map (fun u =>
                   if User.id u =? User.id user
                   then User.set_last_login (Some (utcnow w)) u
                   else u)
                (users (committed w)))
           (audit_logs (committed w)
            ++ [success_row user client_host (audit_logs_id_seq w)
                  (utcnow w)])
    /\ uptime w' = None.
Proof.
  intros Hup Hpw Hlen Hhid Hname Hhost Hhosp Hact Hauth.
  assert (Hguard : (72 <? Py.utf8_len pw) = false) by (apply Z.ltb_ge; lia).
  assert (Hflag : Py.is_False (Hospital.is_active hospital) = false).
  { destruct (Hospital.is_active hospital) as [[|]|]; simpl; congruence. }
  rewrite <- text_normalized in Hhid, Hname.
  unfold authenticated in Hauth.
  unfold get_db, login, opened, token_response, success_row.
  rewrite Hpw, Hguard, Hhid, Hname.
  world w.
  unfold bind at 1. rewrite db_execute_clean by reflexivity.
  cbn [in_txn with_session committed]. rewrite Hhosp, Hflag.
  unfold bind at 1. rewrite db_execute_clean by reflexivity.
  cbn [in_txn with_session committed].
  destruct (first (select_user _ _ _)) as [found|]; [|discriminate].
  destruct (Py.is_False (User.status found)); [discriminate|].
  destruct found as [uid uhosp uname umail uhash urole ufull ust ull].
  cbn [User.password_hash] in Hauth.
  destruct (pwd_verify pw uhash) as [[|]|] eqn:Hv; try discriminate.
  injection Hauth as <-.
  run. rewrite Hv. run. rewrite audit_log_success, Hhost. run.
  destruct store as [hs us als].
  eexists. repeat split; reflexivity.
Qed.

(** C5. When the hospital the tenant id resolves to has its active flag
    explicitly false, [login] fails with 401 "Invalid credentials" whatever
    the username and the password are, and commits nothing.  When the flag
    is null the hospital stage lets the attempt through: with a user that
    is found, enabled and whose password verifies, the login returns its
    token.  The datastore answers, and what it is sent holds no U+0000. *)
Theorem inactive_hospital_blocks_login (w : World) (payload : LoginRequest.t)
        (client_host : string) (hospital : Hospital.t) :
  uptime w = None ->
  Pg.text (LoginRequest.hospital_id payload) = true ->
  first (select_hospital
           (Py.lower (Py.strip (LoginRequest.hospital_id payload)))
           (committed w)) = Some hospital ->
  (Hospital.is_active hospital = Some false ->
   exists w',
     get_db (login payload client_host) w
     = (Raise (HTTPException 401 "Invalid credentials"), w')
     /\ committed w' = committed w)
  /\
  (Hospital.is_active hospital = None ->
   forall pw user,
     LoginRequest.password payload = Some pw -> Py.utf8_len pw <= 72 ->
     Pg.text (LoginRequest.username payload) = true ->
     Pg.text client_host = true ->
     authenticated payload pw hospital (committed w) = Some user ->
     exists w',
       get_db (login payload client_host) w
       = (Return
            (TokenResponse.mk
               (create_access_token (User.id user) (User.role user)
                  (Py.strip (LoginRequest.hospital_id payload)))
               (User.role user) (User.full_name user)
               (Py.strip (LoginRequest.hospital_id payload))), w')).
Proof.
  intros Hup Hhid Hhosp. split.
  - intros Hoff. rewrite <- text_normalized in Hhid.
    unfold get_db, login, opened.
    destruct (LoginRequest.password payload) as [pw|];
      [|eexists; simpl; auto].
    destruct (72 <? Py.utf8_len pw); [eexists; simpl; auto|].
    rewrite Hhid. world w.
    unfold bind at 1. rewrite db_execute_clean by reflexivity.
    cbn [in_txn with_session committed]. rewrite Hhosp, Hoff.
    eexists. simpl. auto.
  - intros Hnull pw user Hpw Hlen Hname Hhost Hauth.
    destruct (login_succeeds w payload client_host pw hospital user)
      as (w' & Hrun & _); auto.
    + rewrite Hnull. discriminate.
    + exists w'. exact Hrun.
Qed.


(** ** [register_hospital] *)

(** Replaces the test of the goal that [H] settles by its value. *)
Ltac accept H :=
  match type of H with
  | _ = ?b =>
      match goal with
      | |- context [if ?c then _ else _] =>
          replace c with b by (symmetry; exact H)
      end
  end.

Lemma hospital_row_text (payload : HospitalCreate.t) (pk : Z) :
  Pg.hospital (hospital_row payload pk) = true ->
  Pg.text (HospitalCreate.hospital_id payload) = true.
Proof.
  unfold Pg.hospital, hospital_row. simpl. rewrite text_strip.
  intros H. repeat (apply andb_true_iff in H; destruct H as [H _]).
  exact H.
Qed.

Lemma admin_row_text (payload : HospitalCreate.t) (hashed : string)
      (pk hospital_pk : Z) :
  Pg.user (admin_row payload hashed pk hospital_pk) = true ->
  Pg.text (HospitalCreate.admin_username payload) = true.
Proof.
  unfold Pg.user, admin_row. simpl. rewrite text_normalized.
  intros H. repeat (apply andb_true_iff in H; destruct H as [H _]).
  exact H.
Qed.

(** What a successful registration has gone through, and what it has
    stored. *)
Lemma register_hospital_Return (w w' : World) (payload : HospitalCreate.t)
      (r : Registered.t) :
  get_db (register_hospital payload) w = (Return r, w') ->
  exists raw hashed,
    HospitalCreate.register_secret payload = settings_register_secret
    /\ HospitalCreate.admin_password payload = Some raw
    /\ Py.utf8_len raw <= 72
    /\ first (select_hospital
                (Py.lower (Py.strip (HospitalCreate.hospital_id payload)))
                (committed w)) = None
    /\ pwd_hash raw = Some hashed
    /\ committed w'
       = mkTables
           (hospitals (committed w)
            ++ [hospital_row payload (hospitals_id_seq w)])%list
           (users (committed w)
            ++ [admin_row payload hashed (users_id_seq w)
                  (hospitals_id_seq w)])%list
           (audit_logs (committed w))
    /\ (uptime w = None -> uptime w' = None)
    /\ Pg.hospital (hospital_row payload (hospitals_id_seq w)) = true
    /\ Pg.user (admin_row payload hashed (users_id_seq w)
                  (hospitals_id_seq w)) = true.
Proof.
  unfold get_db, register_hospital, opened. intros H.
  destruct (HospitalCreate.register_secret payload
            =? settings_register_secret)%string eqn:Hsecret;
    [|discriminate H].
  apply String.eqb_eq in Hsecret.
  destruct (HospitalCreate.admin_password payload) as [raw|];
    [|discriminate H].
  destruct (72 <? Py.utf8_len raw) eqn:Hguard; [discriminate H|].
  apply Z.ltb_ge in Hguard.
  unfold hospital_row, admin_row.
  remember (if Py.truthy (HospitalCreate.address payload)
            then option_map Py.strip (HospitalCreate.address payload)
            else None) as addr eqn:Eaddr in *.
  remember (if Py.truthy (HospitalCreate.admin_full_name payload)
            then option_map Py.strip (HospitalCreate.admin_full_name payload)
            else Some "Administrator") as fname eqn:Efname in *.
  destruct w as [[hs us als] txn pend hseq useq aseq up calls now].
  run_in H.
  repeat step_in H.
  all: injection H as <- <-; exists raw; eexists.
  all: repeat split; eauto; try discriminate; assumption.
Qed.


Lemma first_filter_In {A} (f : A -> bool) (l : list A) (a : A) :
  In a l -> f a = true -> exists x, first (filter f l) = Some x.
Proof.
  induction l as [|b l IH]; simpl; [tauto|].
  intros [->|Hin] Ha.
  - rewrite Ha. simpl. eauto.
  - destruct (f b); simpl; eauto.
Qed.

Lemma first_None {A} (l : list A) : first l = None -> l = [].
Proof. destruct l; simpl; [reflexivity|discriminate]. Qed.

Lemma filter_none {A} (f : A -> bool) (l : list A) :
  Forall (fun a => f a = false) l -> filter f l = [].
Proof.
  induction 1 as [|a l Ha _ IH]; simpl; [reflexivity|].
  now rewrite Ha.
Qed.

(** C9. A successful registration stores one hospital row and one admin
    row; the admin belongs to that hospital and its email is the
    hospital's: both are the trimmed, lowercased email of the payload,
    which has no other email field. *)
Theorem admin_email_is_hospital_email (w w' : World)
        (payload : HospitalCreate.t) (r : Registered.t) :
  get_db (register_hospital payload) w = (Return r, w') ->
  exists hospital admin,
    hospitals (committed w') = (hospitals (committed w) ++ [hospital])%list
    /\ users (committed w') = (users (committed w) ++ [admin])%list
    /\ User.hospital_id admin = Hospital.id hospital
    /\ User.role admin = "admin"
    /\ Hospital.email hospital
       = Py.lower (Py.strip (HospitalCreate.email payload))
    /\ User.email admin = Some (Hospital.email hospital).
Proof.
  intros H.
  destruct (register_hospital_Return _ _ _ _ H)
    as (raw & hashed & _ & _ & _ & _ & _ & Hstore & _).
  exists (hospital_row payload (hospitals_id_seq w)).
  exists (admin_row payload hashed (users_id_seq w) (hospitals_id_seq w)).
  rewrite Hstore. simpl. repeat split; reflexivity.
Qed.

Lemma find_hospital_last (l : list Hospital.t) (row : Hospital.t) :
  find (fun x => Hospital.id x =? Hospital.id row) (l ++ [row]) <> None.
Proof.
  induction l as [|a l IH]; simpl.
  - rewrite Z.eqb_refl. discriminate.
  - destruct (Hospital.id a =? Hospital.id row); [discriminate|exact IH].
Qed.

Lemma find_user_last (l : list User.t) (row : User.t) :
  find (fun x => User.id x =? User.id row) (l ++ [row]) <> None.
Proof.
  induction l as [|a l IH]; simpl.
  - rewrite Z.eqb_refl. discriminate.
  - destruct (User.id a =? User.id row); [discriminate|exact IH].
Qed.

(** The row a [db.refresh] reads back after a commit is there. *)
Ltac refreshed :=
  match goal with
  | |- context [match find ?f ?l with _ => _ end] =>
      let E := fresh "E" in
      destruct (find f l) eqn:E;
      [|exfalso;
        match type of E with
        | find _ (_ ?l0 [?row]) = None =>
            first [ exact (find_hospital_last l0 row E)
                  | exact (find_user_last l0 row E) ]
        end]
  end.

(** A registration that nothing stops: the secret is the configured one,
    the password is a string of at most 72 bytes that [pwd_ctx.hash]
    takes, the external id is free, and the datastore answers and accepts
    both rows. *)
Lemma register_hospital_succeeds (w : World) (payload : HospitalCreate.t)
      (raw hashed : string) :
  uptime w = None ->
  HospitalCreate.register_secret payload = settings_register_secret ->
  HospitalCreate.admin_password payload = Some raw ->
  Py.utf8_len raw <= 72 ->
  first (select_hospital
           (Py.lower (Py.strip (HospitalCreate.hospital_id payload)))
           (committed w)) = None ->
  pwd_hash raw = Some hashed ->
  Pg.hospital (hospital_row payload (hospitals_id_seq w)) = true ->
  hospital_insert_ok (hospitals (committed w))
    (hospital_row payload (hospitals_id_seq w)) = true ->
  Pg.user (admin_row payload hashed (users_id_seq w) (hospitals_id_seq w))
  = true ->
  user_insert_ok (users (committed w))
    (admin_row payload hashed (users_id_seq w) (hospitals_id_seq w)) = true ->
  exists w',
    get_db (register_hospital payload) w
    = (Return
         (Registered.mk
            ("Hospital " ++ Py.strip (HospitalCreate.hospital_id payload)
             ++ " registered successfully")
            (Py.strip (HospitalCreate.hospital_id payload))), w')
    /\ committed w'
       = mkTables
           (hospitals (committed w)
            ++ [hospital_row payload (hospitals_id_seq w)])%list
           (users (committed w)
            ++ [admin_row payload hashed (users_id_seq w)
                  (hospitals_id_seq w)])%list
           (audit_logs (committed w))
    /\ uptime w' = None.
Proof.
  intros Hup Hsecret Hpw Hlen Hnone Hhash Hhtext Hhosp Hutext Huser.
  pose proof (hospital_row_text _ _ Hhtext) as Hid.
  rewrite <- text_normalized in Hid.
  apply String.eqb_eq in Hsecret.
  assert (Hguard : (72 <? Py.utf8_len raw) = false) by (apply Z.ltb_ge; lia).
  apply first_None in Hnone.
  unfold get_db, register_hospital, opened.
  rewrite Hsecret, Hpw, Hguard, Hid. simpl negb. cbv iota.
  unfold hospital_row, admin_row in *.
  remember (if Py.truthy (HospitalCreate.address payload)
            then option_map Py.strip (HospitalCreate.address payload)
            else None) as addr eqn:Eaddr in *.
  remember (if Py.truthy (HospitalCreate.admin_full_name payload)
            then option_map Py.strip (HospitalCreate.admin_full_name payload)
            else Some "Administrator") as fname eqn:Efname in *.
  destruct w as [[hs us als] txn pend hseq useq aseq up calls now].
  simpl in Hup, Hnone, Hhosp, Huser, Hhtext, Hutext. subst up.
  run.
  rewrite Hnone. run. rewrite Hhash. run. accept Hhtext. run.
  rewrite Hhosp. run. accept Hutext. run. rewrite Huser. run.
  refreshed. run. refreshed. run.
  eexists. repeat split; reflexivity.
Qed.

(** A registration whose external id is taken: the gates speak first, then
    the lookup; nothing is written. *)
Lemma register_hospital_taken (w : World) (payload : HospitalCreate.t)
      (existing : Hospital.t) :
  uptime w = None ->
  Pg.text (HospitalCreate.hospital_id payload) = true ->
  In existing (hospitals (committed w)) ->
  db_lower (Hospital.hospital_id existing)
  = Py.lower (Py.strip (HospitalCreate.hospital_id payload)) ->
  exists e w',
    get_db (register_hospital payload) w = (Raise e, w')
    /\ committed w' = committed w
    /\ uptime w' = None
    /\ (well_formed_registration payload ->
        e = HTTPException 409 "Hospital ID already exists")
    /\ (HospitalCreate.register_secret payload <> settings_register_secret ->
        e = HTTPException 403 "Invalid register secret")
    /\ (HospitalCreate.register_secret payload = settings_register_secret ->
        HospitalCreate.admin_password payload = None
        \/ (exists raw,
               HospitalCreate.admin_password payload = Some raw
               /\ 72 < Py.utf8_len raw) ->
        exists detail, e = HTTPException 400 detail).
Proof.
  intros Hup Hid Hin Hsame. rewrite <- text_normalized in Hid.
  destruct (first_filter_In
              (fun h => (db_lower (Hospital.hospital_id h)
                         =? Py.lower
                              (Py.strip (HospitalCreate.hospital_id payload)))
                        %string)
              (hospitals (committed w)) existing Hin) as [x Hx].
  { apply String.eqb_eq. exact Hsame. }
  unfold get_db, register_hospital, opened, well_formed_registration.
  destruct (HospitalCreate.register_secret payload
            =? settings_register_secret)%string eqn:Hsecret.
  - apply String.eqb_eq in Hsecret.
    destruct (HospitalCreate.admin_password payload) as [raw|] eqn:Hpw.
    + destruct (72 <? Py.utf8_len raw) eqn:Hguard.
      * apply Z.ltb_lt in Hguard. do 2 eexists. simpl.
        repeat split; eauto.
        -- intros (_ & raw' & Hraw & Hlen). injection Hraw as <-. lia.
        -- congruence.
      * apply Z.ltb_ge in Hguard. simpl negb. cbv iota. rewrite Hid.
        world w.
        unfold bind at 1. rewrite db_execute_clean by reflexivity.
        cbn [in_txn with_session committed]. unfold select_hospital.
        rewrite Hx. do 2 eexists. simpl. repeat split; auto.
        -- congruence.
        -- intros _ [Hnone|(raw' & Hraw & Hlong)]; [discriminate|].
           injection Hraw as <-. lia.
    + do 2 eexists. simpl. repeat split; eauto.
      * intros (_ & raw & Hraw & _). discriminate.
      * congruence.
  - apply String.eqb_neq in Hsecret. do 2 eexists. simpl.
    repeat split; eauto; tauto.
Qed.

(** A well-formed registration whose external id is already taken. *)
Lemma register_hospital_conflict (w : World) (payload : HospitalCreate.t)
      (existing : Hospital.t) :
  uptime w = None ->
  well_formed_registration payload ->
  Pg.text (HospitalCreate.hospital_id payload) = true ->
  In existing (hospitals (committed w)) ->
  db_lower (Hospital.hospital_id existing)
  = Py.lower (Py.strip (HospitalCreate.hospital_id payload)) ->
  exists w',
    get_db (register_hospital payload) w
    = (Raise (HTTPException 409 "Hospital ID already exists"), w')
    /\ committed w' = committed w
    /\ uptime w' = None.
Proof.
  intros Hup Hwf Hid Hin Hsame.
  destruct (register_hospital_taken w payload existing Hup Hid Hin Hsame)
    as (e & w' & Hrun & Hstore & Hup' & H409 & _).
  exists w'. rewrite <- (H409 Hwf). auto.
Qed.

Lemma register_all_conflicts (payload : HospitalCreate.t)
      (existing : Hospital.t) (rest : list HospitalCreate.t) :
  Pg.text (HospitalCreate.hospital_id payload) = true ->
  db_lower (Hospital.hospital_id existing)
  = Py.lower (Py.strip (HospitalCreate.hospital_id payload)) ->
  Forall (fun q =>
            well_formed_registration q
            /\ Py.lower (Py.strip (HospitalCreate.hospital_id q))
               = Py.lower (Py.strip (HospitalCreate.hospital_id payload)))
         rest ->
  forall w,
    uptime w = None ->
    In existing (hospitals (committed w)) ->
    exists w',
      register_all rest w
      = (map (fun _ => Raise (HTTPException 409 "Hospital ID already exists"))
             rest, w')
      /\ committed w' = committed w.
Proof.
  intros Hid Hsame Hall.
  induction Hall as [|q rest [Hwf Hq] _ IH]; intros w Hup Hin.
  - exists w. simpl. auto.
  - destruct (register_hospital_conflict w q existing Hup Hwf)
      as (w1 & Hrun & Hstore & Hup1); [|exact Hin|congruence|].
    { rewrite <- text_normalized, Hq, text_normalized. exact Hid. }
    destruct (IH w1 Hup1) as (w2 & Hrest & Hstore2); [now rewrite Hstore|].
    exists w2. simpl. rewrite Hrun, Hrest. split; [reflexivity|congruence].
Qed.

(** C6 (as amended).  A registration under an external id that is taken
    (the datastore's lowercasing of a stored id is Python's lowercasing of
    the trimmed id sent, which holds no U+0000) fails and leaves every
    table as it was: with 403 when the bootstrap secret is wrong, with 400
    when the admin password is no string or longer than 72 bytes, and with
    409 "Hospital ID already exists" when the request passes these two
    gates.  Hence, for an id on which the two lowercasings agree: a
    registration that passes the gates succeeds when the id is free and
    hashing and both inserts go through, storing the hospital and its
    admin, and from then on every registration of the same id that passes
    the gates, in the same or another letter case, is answered 409 and
    stores nothing. *)
Theorem duplicate_hospital_id_conflicts (w : World) :
  uptime w = None ->
  (forall payload existing,
      Pg.text (HospitalCreate.hospital_id payload) = true ->
      In existing (hospitals (committed w)) ->
      db_lower (Hospital.hospital_id existing)
      = Py.lower (Py.strip (HospitalCreate.hospital_id payload)) ->
      exists e w',
        get_db (register_hospital payload) w = (Raise e, w')
        /\ committed w' = committed w
        /\ (well_formed_registration payload ->
            e = HTTPException 409 "Hospital ID already exists")
        /\ (HospitalCreate.register_secret payload
            <> settings_register_secret ->
            e = HTTPException 403 "Invalid register secret")
        /\ (HospitalCreate.register_secret payload
            = settings_register_secret ->
            HospitalCreate.admin_password payload = None
            \/ (exists raw,
                   HospitalCreate.admin_password payload = Some raw
                   /\ 72 < Py.utf8_len raw) ->
            exists detail, e = HTTPException 400 detail))
  /\
  (forall payload raw hashed later,
      HospitalCreate.register_secret payload = settings_register_secret ->
      HospitalCreate.admin_password payload = Some raw ->
      Py.utf8_len raw <= 72 ->
      first (select_hospital
               (Py.lower (Py.strip (HospitalCreate.hospital_id payload)))
               (committed w)) = None ->
      db_lower (Py.strip (HospitalCreate.hospital_id payload))
      = Py.lower (Py.strip (HospitalCreate.hospital_id payload)) ->
      pwd_hash raw = Some hashed ->
      Pg.hospital (hospital_row payload (hospitals_id_seq w)) = true ->
      hospital_insert_ok (hospitals (committed w))
        (hospital_row payload (hospitals_id_seq w)) = true ->
      Pg.user (admin_row payload hashed (users_id_seq w)
                 (hospitals_id_seq w)) = true ->
      user_insert_ok (users (committed w))
        (admin_row payload hashed (users_id_seq w) (hospitals_id_seq w))
      = true ->
      Forall (fun q =>
                well_formed_registration q
                /\ Py.lower (Py.strip (HospitalCreate.hospital_id q))
                   = Py.lower (Py.strip (HospitalCreate.hospital_id payload)))
             later ->
      exists r w1 w2,
        get_db (register_hospital payload) w = (Return r, w1)
        /\ committed w1
           = mkTables
               (hospitals (committed w)
                ++ [hospital_row payload (hospitals_id_seq w)])%list
               (users (committed w)
                ++ [admin_row payload hashed (users_id_seq w)
                      (hospitals_id_seq w)])%list
               (audit_logs (committed w))
        /\ register_all later w1
           = (map (fun _ =>
                     Raise (HTTPException 409 "Hospital ID already exists"))
                  later, w2)
        /\ committed w2 = committed w1).
Proof.
  intros Hup. split.
  - intros payload existing Hid Hin Hsame.
    destruct (register_hospital_taken w payload existing Hup Hid Hin Hsame)
      as (e & w' & Hrun & Hstore & _ & H409 & H403 & H400).
    exists e, w'. auto.
  - intros payload raw hashed later Hsecret Hpw Hlen Hnone Hlower Hhash
           Hhtext Hhosp Hutext Huser Hlater.
    destruct (register_hospital_succeeds w payload raw hashed)
      as (w1 & Hrun & Hstore & Hup1); auto.
    destruct (register_all_conflicts payload
                (hospital_row payload (hospitals_id_seq w)) later)
      with (w := w1) as (w2 & Hrest & Hstore2); auto.
    + exact (hospital_row_text _ _ Hhtext).
    + rewrite Hstore. simpl. apply in_or_app. right. left. reflexivity.
    + eexists. exists w1, w2. repeat split; eauto.
Qed.


(** ** Registration followed by login *)

Lemma select_hospital_registered (hs : list Hospital.t) (us : list User.t)
      (als : list AuditLog.t) (row : Hospital.t) (ident : string) :
  first (select_hospital ident (mkTables hs us als)) = None ->
  db_lower (Hospital.hospital_id row) = ident ->
  first (select_hospital ident (mkTables (hs ++ [row]) us als)) = Some row.
Proof.
  unfold select_hospital. simpl. intros Hnone Hrow.
  apply first_None in Hnone.
  rewrite filter_app, Hnone. simpl.
  apply String.eqb_eq in Hrow. now rewrite Hrow.
Qed.

Lemma select_user_registered (hs : list Hospital.t) (us : list User.t)
      (als : list AuditLog.t) (row : User.t) (name : string) (pk : Z) :
  Forall (fun u => User.hospital_id u < pk) us ->
  db_lower (User.username row) = name ->
  User.hospital_id row = pk ->
  first (select_user name pk (mkTables hs (us ++ [row]) als)) = Some row.
Proof.
  unfold select_user. simpl. intros Hfk Hname Hpk.
  rewrite filter_app, filter_none.
  - simpl. apply String.eqb_eq in Hname. apply Z.eqb_eq in Hpk.
    now rewrite Hname, Hpk.
  - eapply Forall_impl; [|exact Hfk]. simpl. intros u Hu.
    apply andb_false_iff. right. apply Z.eqb_neq. lia.
Qed.



(** ** [routers/users.py] *)

Lemma users_pk_split (l : list User.t) (user : User.t) :
  NoDup (map User.id l) -> In user l ->
  exists l1 l2,
    l = (l1 ++ user :: l2)%list
    /\ Forall (fun u => User.id u <> User.id user) l1
    /\ Forall (fun u => User.id u <> User.id user) l2.
Proof.
  intros Hnd Hin. destruct (in_split _ _ Hin) as (l1 & l2 & ->).
  exists l1, l2. split; [reflexivity|].
  rewrite map_app in Hnd. simpl in Hnd.
  apply NoDup_remove_2 in Hnd.
  split; apply Forall_forall; intros u Hu Heq; apply Hnd;
    apply in_or_app; [left|right]; rewrite <- Heq; now apply in_map.
Qed.

Lemma filter_split_one (f : User.t -> bool) (l1 l2 : list User.t)
      (user : User.t) :
  Forall (fun u => f u = false) l1 -> Forall (fun u => f u = false) l2 ->
  f user = true ->
  filter f (l1 ++ user :: l2) = [user].
Proof.
  intros H1 H2 Hu. rewrite filter_app. simpl.
  now rewrite Hu, (filter_none f l1 H1), (filter_none f l2 H2).
Qed.

Lemma map_split_one (g : User.t -> User.t) (pk : Z) (l1 l2 : list User.t)
      (user : User.t) :
  Forall (fun u => User.id u <> pk) l1 ->
  Forall (fun u => User.id u <> pk) l2 ->
  User.id user = pk ->
  map (fun u => if User.id u =? pk then g u else u) (l1 ++ user :: l2)
  = (l1 ++ g user :: l2)%list.
Proof.
  intros H1 H2 Hu.
  assert (Hid : forall l, Forall (fun u => User.id u <> pk) l ->
                          map (fun u => if User.id u =? pk then g u else u) l
                          = l).
  { induction 1 as [|a l Ha _ IH]; simpl; [reflexivity|].
    apply Z.eqb_neq in Ha. now rewrite Ha, IH. }
  rewrite map_app. simpl. apply Z.eqb_eq in Hu.
  now rewrite Hu, (Hid l1 H1), (Hid l2 H2).
Qed.

Lemma find_split_one (pk : Z) (l1 l2 : list User.t) (user : User.t) :
  Forall (fun u => User.id u <> pk) l1 ->
  User.id user = pk ->
  find (fun u => User.id u =? pk) (l1 ++ user :: l2) = Some user.
Proof.
  intros H1 Hu. induction H1 as [|a l Ha _ IH]; simpl.
  - apply Z.eqb_eq in Hu. now rewrite Hu.
  - apply Z.eqb_neq in Ha. now rewrite Ha.
Qed.

(** One toggle of a user the caller's hospital owns, the [users] table
    being split around the row. *)
Lemma toggle_user_status_split (w : World) (current_user user : User.t)
      (l1 l2 : list User.t) :
  uptime w = None ->
  id_column (User.id user) = true ->
  users (committed w) = (l1 ++ user :: l2)%list ->
  Forall (fun u => User.id u <> User.id user) l1 ->
  Forall (fun u => User.id u <> User.id user) l2 ->
  User.hospital_id user = User.hospital_id current_user ->
  exists w',
    get_db (toggle_user_status (User.id user) current_user) w
    = (Return (toggled user), w')
    /\ committed w'
       = set_users (l1 ++ toggled user :: l2) (committed w)
    /\ uptime w' = None.
Proof.
  intros Hup Hfit Hsplit H1 H2 Hhosp.
  unfold get_db, toggle_user_status, opened. rewrite Hfit.
  world w. destruct store as [hs us als]. simpl in *. subst us.
  unfold bind at 1. rewrite db_execute_clean by reflexivity.
  cbn [in_txn with_session committed users].
  rewrite filter_split_one.
  - cbn -[map find].
    rewrite (map_split_one _ (User.id user)); auto.
    rewrite find_split_one; auto.
    eexists. cbn. repeat split; reflexivity.
  - eapply Forall_impl; [|exact H1]. simpl. intros u Hu.
    apply andb_false_iff. left. now apply Z.eqb_neq.
  - eapply Forall_impl; [|exact H2]. simpl. intros u Hu.
    apply andb_false_iff. left. now apply Z.eqb_neq.
  - apply andb_true_iff. split; [apply Z.eqb_refl|now apply Z.eqb_eq].
Qed.

Lemma toggled_twice (user : User.t) (b : bool) :
  User.status user = Some b -> toggled (toggled user) = user.
Proof.
  destruct user as [pk hosp name mail hash role fname st ll]. simpl.
  intros ->. unfold toggled. simpl. now destruct b.
Qed.

(** C8 (as amended). For every user of the caller's hospital whose status
    flag is set, to true or to false, two toggles in a row give the flag
    its first value back: the first returns the user with the flag negated,
    the second returns the user as it was, and the tables are again what
    they were.  The datastore answers, [users.id] is a primary key and the
    id of the user, being stored, fits its column. *)
Theorem toggle_twice_restores_set_flag (w : World)
        (current_user user : User.t) (b : bool) :
  uptime w = None ->
  users_pk (committed w) ->
  id_column (User.id user) = true ->
  In user (users (committed w)) ->
  User.hospital_id user = User.hospital_id current_user ->
  User.status user = Some b ->
  exists once w1 w2,
    get_db (toggle_user_status (User.id user) current_user) w
    = (Return once, w1)
    /\ User.status once = Some (negb b)
    /\ get_db (toggle_user_status (User.id user) current_user) w1
       = (Return user, w2)
    /\ committed w2 = committed w.
Proof.
  intros Hup Hpk Hfit Hin Hhosp Hst.
  destruct (users_pk_split _ _ Hpk Hin) as (l1 & l2 & Hsplit & H1 & H2).
  destruct (toggle_user_status_split w current_user user l1 l2)
    as (w1 & Hrun1 & Hstore1 & Hup1); auto.
  destruct (toggle_user_status_split w1 current_user (toggled user) l1 l2)
    as (w2 & Hrun2 & Hstore2 & _); auto.
  { now rewrite Hstore1. }
  rewrite (toggled_twice user b Hst) in Hrun2, Hstore2.
  exists (toggled user), w1, w2. repeat split.
  - exact Hrun1.
  - unfold toggled. simpl. rewrite Hst. now destruct b.
  - exact Hrun2.
  - rewrite Hstore2, Hstore1. destruct (committed w) as [hs us als].
    simpl in *. now subst us.
Qed.

Lemma filter_singleton {A} (f : A -> bool) (l : list A) (a : A) :
  filter f l = [a] -> In a l /\ f a = true.
Proof.
  intros H. apply filter_In. rewrite H. now left.
Qed.

(** What a successful toggle has read and written. *)
Lemma toggle_user_status_Return (w w' : World) (user_id : Z)
      (current_user r : User.t) :
  users_pk (committed w) ->
  get_db (toggle_user_status user_id current_user) w = (Return r, w') ->
  exists l1 target l2,
    users (committed w) = (l1 ++ target :: l2)%list
    /\ Forall (fun u => User.id u <> user_id) l1
    /\ Forall (fun u => User.id u <> user_id) l2
    /\ User.id target = user_id
    /\ User.hospital_id target = User.hospital_id current_user
    /\ r = toggled target
    /\ committed w'
       = set_users (l1 ++ toggled target :: l2) (committed w).
Proof.
  unfold get_db, toggle_user_status, opened, users_pk. intros Hpk H.
  destruct w as [[hs us als] txn pend hseq useq aseq up calls now].
  simpl in Hpk.
  run_in H.
  repeat step_in H.
  all: injection H as <- <-.
  all: match goal with
       | E : filter _ _ = [?t] |- _ =>
           set (target := t) in *;
           apply filter_singleton in E; destruct E as [Hin Hcond];
           cbn in Hcond; apply andb_true_iff in Hcond;
           destruct Hcond as [Hid Hhosp];
           apply Z.eqb_eq in Hid; apply Z.eqb_eq in Hhosp;
           destruct (users_pk_split _ _ Hpk Hin)
             as (l1 & l2 & Hsplit & H1 & H2);
           exists l1, target, l2
       end.
  all: match goal with
       | E : find _ _ = Some ?t0 |- _ =>
           assert (Hfind :
                     find (fun x => User.id x =? User.id target)
                          (map (fun u =>
                                  if User.id u =? User.id target
                                  then User.set_status
                                         (Some (Py.not_ (User.status target)))
                                         u
                                  else u) us) = Some t0) by exact E;
           clear E
       end.
  all: rewrite Hsplit in Hfind.
  all: rewrite (map_split_one
                  (User.set_status (Some (Py.not_ (User.status target))))
                  (User.id target) l1 l2 target H1 H2 eq_refl) in Hfind.
  all: change (User.set_status (Some (Py.not_ (User.status target))) target)
         with (toggled target) in Hfind.
  all: rewrite (find_split_one (User.id target) l1 l2 (toggled target) H1
                  eq_refl) in Hfind.
  all: injection Hfind as <-.
  all: repeat split; auto.
  all: try (subst user_id; assumption).
  all: unfold set_users; cbn [committed users hospitals audit_logs]; f_equal.
  all: rewrite Hsplit.
  all: exact (map_split_one
                (User.set_status (Some (Py.not_ (User.status target))))
                (User.id target) l1 l2 target H1 H2 eq_refl).
Qed.


(** C10. A successful toggle rewrites one row of [users], the row whose id
    was given, and in that row only the status column: the rows before and
    after it, the [hospitals] table and the [audit_logs] table are what
    they were, and the id, hospital, username, email, password hash, role,
    full name and last login of the row are kept. *)
Theorem toggle_changes_only_the_status (w w' : World) (user_id : Z)
        (current_user r : User.t) :
  users_pk (committed w) ->
  get_db (toggle_user_status user_id current_user) w = (Return r, w') ->
  exists l1 target l2,
    users (committed w) = (l1 ++ target :: l2)%list
    /\ users (committed w') = (l1 ++ r :: l2)%list
    /\ hospitals (committed w') = hospitals (committed w)
    /\ audit_logs (committed w') = audit_logs (committed w)
    /\ User.id target = user_id
    /\ User.status r = Some (Py.not_ (User.status target))
    /\ User.id r = User.id target
    /\ User.hospital_id r = User.hospital_id target
    /\ User.username r = User.username target
    /\ User.email r = User.email target
    /\ User.password_hash r = User.password_hash target
    /\ User.role r = User.role target
    /\ User.full_name r = User.full_name target
    /\ User.last_login r = User.last_login target.
Proof.
  intros Hpk H.
  destruct (toggle_user_status_Return _ _ _ _ _ Hpk H)
    as (l1 & target & l2 & Hsplit & _ & _ & Hid & _ & -> & Hstore).
  exists l1, target, l2. rewrite Hstore. simpl.
  repeat split; auto.
Qed.

(** What a successful [create_user] has stored. *)
Lemma create_user_Return (w w' : World) (payload : UserCreate.t)
      (current_user u : User.t) :
  get_db (create_user payload current_user) w = (Return u, w') ->
  exists row,
    committed w' = set_users (users (committed w) ++ [row]) (committed w)
    /\ User.hospital_id row = User.hospital_id current_user
    /\ User.id row = users_id_seq w
    /\ (Forall (fun x => User.id x < users_id_seq w) (users (committed w)) ->
        u = row).
Proof.
  unfold get_db, create_user, opened. intros H.
  destruct (negb (valid_role (UserCreate.role payload))); [discriminate H|].
  destruct (UserCreate.password payload) as [raw|]; [|discriminate H].
  destruct (72 <? Py.utf8_len raw); [discriminate H|].
  remember (if Py.truthy (UserCreate.email payload)
            then option_map (fun e => Py.lower (Py.strip e))
                   (UserCreate.email payload)
            else None) as mail eqn:Email in *.
  remember (if Py.truthy (UserCreate.full_name payload)
            then option_map Py.strip (UserCreate.full_name payload)
            else None) as fname eqn:Efname in *.
  destruct w as [[hs us als] txn pend hseq useq aseq up calls now].
  run_in H.
  repeat step_in H.
  all: injection H as <- <-.
  all: eexists; split; [reflexivity|].
  all: split; [reflexivity|]; split; [reflexivity|].
  all: cbn [committed users users_id_seq]; intros Hfresh.
  all: match goal with
       | E : find _ (_ ?l [?row]) = Some ?t |- _ =>
           assert (Hfind : find (fun x => User.id x =? useq)
                                (l ++ [row])%list = Some t) by exact E;
           rewrite (find_split_one useq l [] row) in Hfind;
           [congruence| |reflexivity]
       end.
  all: eapply Forall_impl; [|exact Hfresh]; simpl; intros; lia.
Qed.


Lemma list_users_Return (w w' : World) (current_user : User.t)
      (l : list User.t) :
  get_db (list_users current_user) w = (Return l, w') ->
  l = filter (fun u => User.hospital_id u =? User.hospital_id current_user)
             (users (committed w))
  /\ committed w' = committed w.
Proof.
  unfold get_db, list_users, opened. intros H.
  destruct w as [[hs us als] txn pend hseq useq aseq up calls now].
  run_in H.
  repeat step_in H.
  all: injection H as <- <-; split; reflexivity.
Qed.

Lemma toggle_user_status_foreign (w : World) (user_id : Z)
      (current_user target : User.t) :
  uptime w = None ->
  users_pk (committed w) ->
  id_column user_id = true ->
  In target (users (committed w)) ->
  User.id target = user_id ->
  User.hospital_id target <> User.hospital_id current_user ->
  exists w',
    get_db (toggle_user_status user_id current_user) w
    = (Raise (HTTPException 404 "User not found"), w')
    /\ committed w' = committed w.
Proof.
  intros Hup Hpk Hfit Hin Hid Hhosp.
  destruct (users_pk_split _ _ Hpk Hin) as (l1 & l2 & Hsplit & H1 & H2).
  unfold get_db, toggle_user_status, opened. rewrite Hfit.
  world w. destruct store as [hs us als]. simpl in *. subst us.
  unfold bind at 1. rewrite db_execute_clean by reflexivity.
  cbn [in_txn with_session committed users].
  rewrite filter_none.
  - eexists. cbn. split; reflexivity.
  - apply Forall_app. split; [|constructor].
    + eapply Forall_impl; [|exact H1]. simpl. intros u Hu.
      apply andb_false_iff. left. apply Z.eqb_neq. congruence.
    + apply andb_false_iff. right. now apply Z.eqb_neq.
    + eapply Forall_impl; [|exact H2]. simpl. intros u Hu.
      apply andb_false_iff. left. apply Z.eqb_neq. congruence.
Qed.

(** C2. The three administration operations act on the caller's hospital
    only.  [list_users] returns exactly the stored users whose hospital is
    the caller's.  A [create_user] that succeeds stores one new row whose
    hospital is the caller's, whatever the payload, which carries no
    hospital; the user returned is that row once the sequence of [users] is
    ahead of the stored ids.  [toggle_user_status] on the id of a user of
    another hospital (an id that, being stored, fits its column) fails with
    404 "User not found" and leaves every table as it was. *)
Theorem user_administration_is_tenant_scoped (w : World)
        (current_user : User.t) :
  (forall l w',
      get_db (list_users current_user) w = (Return l, w') ->
      Forall (fun u => In u (users (committed w))
                       /\ User.hospital_id u = User.hospital_id current_user)
             l
      /\ committed w' = committed w)
  /\
  (forall payload u w',
      get_db (create_user payload current_user) w = (Return u, w') ->
      exists row,
        committed w' = set_users (users (committed w) ++ [row]) (committed w)
        /\ User.hospital_id row = User.hospital_id current_user
        /\ (Forall (fun x => User.id x < users_id_seq w)
                   (users (committed w)) -> u = row))
  /\
  (forall user_id target,
      uptime w = None ->
      users_pk (committed w) ->
      id_column user_id = true ->
      In target (users (committed w)) ->
      User.id target = user_id ->
      User.hospital_id target <> User.hospital_id current_user ->
      exists w',
        get_db (toggle_user_status user_id current_user) w
        = (Raise (HTTPException 404 "User not found"), w')
        /\ committed w' = committed w).
Proof.
  split; [|split].
  - intros l w' H. destruct (list_users_Return _ _ _ _ H) as [-> Hstore].
    split; [|exact Hstore].
    apply Forall_forall. intros u Hu. apply filter_In in Hu.
    destruct Hu as [Hin Heq]. split; [exact Hin|now apply Z.eqb_eq].
  - intros payload u w' H.
    destruct (create_user_Return _ _ _ _ _ H) as (row & Hs & Hh & _ & Hu).
    exists row. auto.
  - intros user_id target. apply toggle_user_status_foreign.
Qed.


(** ** Atomicity of [register_hospital] *)

(** X6. Whatever happens, the request either leaves the three tables as
    they were or adds the hospital together with its admin: a hospital
    without its admin is never committed. *)
Lemma register_hospital_atomic (w w' : World) (payload : HospitalCreate.t)
      (r : outcome Registered.t) :
  get_db (register_hospital payload) w = (r, w') ->
  committed w' = committed w
  \/ exists hashed,
      committed w'
      = mkTables
          (hospitals (committed w)
           ++ [hospital_row payload (hospitals_id_seq w)])%list
          (users (committed w)
           ++ [admin_row payload hashed (users_id_seq w)
                 (hospitals_id_seq w)])%list
          (audit_logs (committed w)).
Proof.
  unfold get_db, register_hospital, opened. intros H.
  unfold hospital_row, admin_row.
  remember (if Py.truthy (HospitalCreate.address payload)
            then option_map Py.strip (HospitalCreate.address payload)
            else None) as addr eqn:Eaddr in *.
  remember (if Py.truthy (HospitalCreate.admin_full_name payload)
            then option_map Py.strip (HospitalCreate.admin_full_name payload)
            else Some "Administrator") as fname eqn:Efname in *.
  destruct w as [[hs us als] txn pend hseq useq aseq up calls now].
  run_in H.
  repeat step_in H.
  all: injection H as <- <-.
  all: first [left; reflexivity | right; eexists; reflexivity].
Qed.


(** The datastore stops answering right after the COMMIT: the first
    [db.refresh] raises, the handler rolls back a transaction that is
    already committed and reports a 500, and both rows stay stored. *)
Lemma register_hospital_refresh_failure (w : World)
      (payload : HospitalCreate.t) (raw hashed : string) :
  uptime w = Some 4%nat ->
  HospitalCreate.register_secret payload = settings_register_secret ->
  HospitalCreate.admin_password payload = Some raw ->
  Py.utf8_len raw <= 72 ->
  first (select_hospital
           (Py.lower (Py.strip (HospitalCreate.hospital_id payload)))
           (committed w)) = None ->
  pwd_hash raw = Some hashed ->
  Pg.hospital (hospital_row payload (hospitals_id_seq w)) = true ->
  hospital_insert_ok (hospitals (committed w))
    (hospital_row payload (hospitals_id_seq w)) = true ->
  Pg.user (admin_row payload hashed (users_id_seq w) (hospitals_id_seq w))
  = true ->
  user_insert_ok (users (committed w))
    (admin_row payload hashed (users_id_seq w) (hospitals_id_seq w)) = true ->
  exists w',
    get_db (register_hospital payload) w
    = (Raise (HTTPException 500
         "An unexpected server error occurred during registration. Please verify field formatting."),
       w')
    /\ committed w'
       = mkTables
           (hospitals (committed w)
            ++ [hospital_row payload (hospitals_id_seq w)])%list
           (users (committed w)
            ++ [admin_row payload hashed (users_id_seq w)
                  (hospitals_id_seq w)])%list
           (audit_logs (committed w)).
Proof.
  intros Hup Hsecret Hpw Hlen Hnone Hhash Hhtext Hhosp Hutext Huser.
  pose proof (hospital_row_text _ _ Hhtext) as Hid.
  rewrite <- text_normalized in Hid.
  apply String.eqb_eq in Hsecret.
  assert (Hguard : (72 <? Py.utf8_len raw) = false) by (apply Z.ltb_ge; lia).
  apply first_None in Hnone.
  unfold get_db, register_hospital, opened.
  rewrite Hsecret, Hpw, Hguard, Hid. simpl negb. cbv iota.
  unfold hospital_row, admin_row in *.
  remember (if Py.truthy (HospitalCreate.address payload)
            then option_map Py.strip (HospitalCreate.address payload)
            else None) as addr eqn:Eaddr in *.
  remember (if Py.truthy (HospitalCreate.admin_full_name payload)
            then option_map Py.strip (HospitalCreate.admin_full_name payload)
            else Some "Administrator") as fname eqn:Efname in *.
  destruct w as [[hs us als] txn pend hseq useq aseq up calls now].
  simpl in Hup, Hnone, Hhosp, Huser, Hhtext, Hutext. subst up.
  run.
  rewrite Hnone. run. rewrite Hhash. run. accept Hhtext. run.
  rewrite Hhosp. run. accept Hutext. run. rewrite Huser. run.
  eexists. split; reflexivity.
Qed.


(** X8. While the datastore answers, a registration that fails leaves the
    three tables as they were, and it is reported as an HTTP error, 403,
    400, 409 or 500, but for one case: the duplicate lookup is made
    outside the [try], and when the datastore refuses its argument (the
    external id holds U+0000, in a request that has passed the gates) the
    error of the datastore leaves the handler as it is. *)
Lemma register_hospital_failure_answering (w w' : World)
      (payload : HospitalCreate.t) (e : exn) :
  uptime w = None ->
  get_db (register_hospital payload) w = (Raise e, w') ->
  committed w' = committed w
  /\ ((exists code detail,
          e = HTTPException code detail
          /\ (code = 403 \/ code = 400 \/ code = 409 \/ code = 500))
      \/ (e = DBAPIError
          /\ well_formed_registration payload
          /\ Pg.text (HospitalCreate.hospital_id payload) = false))
  /\ (well_formed_registration payload ->
      Pg.text (HospitalCreate.hospital_id payload) = false ->
      e = DBAPIError).
Proof.
  unfold get_db, register_hospital, opened, well_formed_registration.
  intros Hup H.
  rewrite <- (text_normalized (HospitalCreate.hospital_id payload)).
  remember (if Py.truthy (HospitalCreate.address payload)
            then option_map Py.strip (HospitalCreate.address payload)
            else None) as addr eqn:Eaddr in *.
  remember (if Py.truthy (HospitalCreate.admin_full_name payload)
            then option_map Py.strip (HospitalCreate.admin_full_name payload)
            else Some "Administrator") as fname eqn:Efname in *.
  destruct w as [[hs us als] txn pend hseq useq aseq up calls now].
  simpl in Hup. subst up.
  destruct (HospitalCreate.register_secret payload
            =? settings_register_secret)%string eqn:Hsecret;
    [apply String.eqb_eq in Hsecret|apply String.eqb_neq in Hsecret].
  2: { injection H as <- <-. split; [reflexivity|]. split.
       - left. do 2 eexists. split; [reflexivity|tauto].
       - intros [Hs _]. contradiction. }
  destruct (HospitalCreate.admin_password payload) as [raw|] eqn:Hpw.
  2: { injection H as <- <-. split; [reflexivity|]. split.
       - left. do 2 eexists. split; [reflexivity|tauto].
       - intros (_ & raw & Hraw & _). discriminate. }
  destruct (72 <? Py.utf8_len raw) eqn:Hlen;
    [apply Z.ltb_lt in Hlen|apply Z.ltb_ge in Hlen].
  { injection H as <- <-. split; [reflexivity|]. split.
    - left. do 2 eexists. split; [reflexivity|tauto].
    - intros (_ & raw' & Hraw & Hle). injection Hraw as <-. lia. }
  run_in H.
  repeat step_in H.
  all: injection H as <- <-.
  all: try (exfalso;
            match goal with
            | E : find _ (_ ?l [?row]) = None |- _ =>
                first [ exact (find_user_last l row E)
                      | exact (find_hospital_last l row E) ]
            end).
  all: split; [reflexivity|].
  all: split;
    [first [ left; do 2 eexists; split; [reflexivity|]; tauto
           | right; split; [reflexivity|]; split; [|reflexivity];
             split; [assumption|]; exists raw; split; [reflexivity|lia] ]
    |first [ reflexivity | intros _ Hno; congruence ]].
Qed.


(** X7. A uniqueness constraint firing on the admin row, after the
    hospital row has been flushed: the transaction is rolled back, the
    answer is a 409 and the hospital row is not stored either. *)
Lemma register_hospital_integrity_conflict (w : World)
      (payload : HospitalCreate.t) (raw hashed : string) :
  uptime w = None ->
  HospitalCreate.register_secret payload = settings_register_secret ->
  HospitalCreate.admin_password payload = Some raw ->
  Py.utf8_len raw <= 72 ->
  first (select_hospital
           (Py.lower (Py.strip (HospitalCreate.hospital_id payload)))
           (committed w)) = None ->
  pwd_hash raw = Some hashed ->
  Pg.hospital (hospital_row payload (hospitals_id_seq w)) = true ->
  hospital_insert_ok (hospitals (committed w))
    (hospital_row payload (hospitals_id_seq w)) = true ->
  Pg.user (admin_row payload hashed (users_id_seq w) (hospitals_id_seq w))
  = true ->
  user_insert_ok (users (committed w))
    (admin_row payload hashed (users_id_seq w) (hospitals_id_seq w)) = false ->
  exists w',
    get_db (register_hospital payload) w
    = (Raise (HTTPException 409
         "A record with these details already exists (check email or username)."),
       w')
    /\ committed w' = committed w
    /\ in_txn w' = committed w.
Proof.
  intros Hup Hsecret Hpw Hlen Hnone Hhash Hhtext Hhosp Hutext Huser.
  pose proof (hospital_row_text _ _ Hhtext) as Hid.
  rewrite <- text_normalized in Hid.
  apply String.eqb_eq in Hsecret.
  assert (Hguard : (72 <? Py.utf8_len raw) = false) by (apply Z.ltb_ge; lia).
  apply first_None in Hnone.
  unfold get_db, register_hospital, opened.
  rewrite Hsecret, Hpw, Hguard, Hid.
  unfold hospital_row, admin_row in *.
  remember (if Py.truthy (HospitalCreate.address payload)
            then option_map Py.strip (HospitalCreate.address payload)
            else None) as addr eqn:Eaddr in *.
  remember (if Py.truthy (HospitalCreate.admin_full_name payload)
            then option_map Py.strip (HospitalCreate.admin_full_name payload)
            else Some "Administrator") as fname eqn:Efname in *.
  destruct w as [[hs us als] txn pend hseq useq aseq up calls now].
  simpl in Hup, Hnone, Hhosp, Huser, Hhtext, Hutext. subst up.
  run.
  rewrite Hnone. run. rewrite Hhash. run. accept Hhtext. run.
  rewrite Hhosp. run. accept Hutext. run. rewrite Huser. run.
  eexists. repeat split; reflexivity.
Qed.



(** * Further properties of the handlers *)

(** ** Every way [login] can end *)

Lemma is_False_false (o : option bool) :
  Py.is_False o = false -> o <> Some false.
Proof. destruct o as [[|]|]; simpl; congruence. Qed.

(** Rewrites the term [t] of the goal with the stepping equation that
    gives its value. *)
Ltac settle t :=
  match goal with
  | E : _ = ?v |- _ =>
      let X := fresh "X" in
      assert (X : t = v) by exact E; rewrite X; clear X
  end.

Lemma login_cases (w w' : World) (payload : LoginRequest.t)
      (client_host : string) (r : outcome TokenResponse.t) :
  get_db (login payload client_host) w = (r, w') ->
  (hospitals_id_seq w' = hospitals_id_seq w
   /\ users_id_seq w' = users_id_seq w)
  /\
  (((r = Raise (HTTPException 401 "Invalid credentials")
     \/ r = Raise OperationalError \/ r = Raise DBAPIError)
    /\ committed w' = committed w /\ pwd_calls w' = pwd_calls w)
   \/ exists pw hospital,
      LoginRequest.password payload = Some pw
      /\ Py.utf8_len pw <= 72
      /\ Pg.text (LoginRequest.hospital_id payload) = true
      /\ Pg.text (LoginRequest.username payload) = true
      /\ first (select_hospital
                  (Py.lower (Py.strip (LoginRequest.hospital_id payload)))
                  (committed w)) = Some hospital
      /\ Hospital.is_active hospital <> Some false
      /\ pwd_calls w'
         = (pwd_calls w
            ++ match challenged payload hospital (committed w) with
               | Some user => [VerifyCall pw (User.password_hash user)]
               | None => []
               end)%list
      /\ ((committed w' = committed w
           /\ (r = Raise OperationalError
               \/ (r = Raise DBAPIError /\ Pg.text client_host = false)
               \/ (r = Raise HashingError
                   /\ exists user,
                       challenged payload hospital (committed w) = Some user
                       /\ pwd_verify pw (User.password_hash user) = None)))
          \/ (Pg.text client_host = true
              /\ match authenticated payload pw hospital (committed w) with
                 | None =>
                     r = Raise (HTTPException 401 "Invalid credentials")
                     /\ committed w'
                        = set_audit_logs
                            (audit_logs (committed w)
                             ++ [failed_row payload client_host
                                   (audit_logs_id_seq w) (utcnow w)])
                            (committed w)
                 | Some user =>
                     r = Return (token_response payload user)
                     /\ committed w'
                        = mkTables
                            (hospitals (committed w))
                            (map (fun u =>
                                    if User.id u =? User.id user
                                    then User.set_last_login
                                           (Some (utcnow w)) u
                                    else u)
                                 (users (committed w)))
                            (audit_logs (committed w)
                             ++ [success_row user client_host
                                   (audit_logs_id_seq w) (utcnow w)])
                 end))).
Proof.
  unfold get_db, login, opened. intros H.
  destruct w as [[hs us als] txn pend hseq useq aseq up calls now].
  run_in H.
  repeat step_in H.
  all: injection H as <- <-.
  all: split; [split; reflexivity|].
  all: try (left; split;
            [first [left; reflexivity | right; left; reflexivity
                   | right; right; reflexivity]
            |split; reflexivity]).
  all: right.
  all: repeat match goal with
         | E : Pg.text (Py.lower (Py.strip _)) = _ |- _ =>
             rewrite text_normalized in E
         | E : (if ?b then false else true) = _ |- _ =>
             destruct b; try discriminate E; clear E
         end.
  all: match goal with
       | Hp : LoginRequest.password _ = Some ?pw,
         Hh : _ = Some ?h |- _ =>
           match type of h with Hospital.t => exists pw, h end
       end.
  all: split; [reflexivity|].
  all: split; [apply Z.ltb_ge; assumption|].
  all: do 3 (split; [assumption|]).
  all: split; [apply is_False_false; assumption|].
  all: unfold challenged, authenticated, failed_row, success_row,
         token_response, failed_details.
  all: cbn [committed users hospitals audit_logs pwd_calls utcnow
            audit_logs_id_seq].
  all: repeat match goal with
         | |- context [first (select_user ?a ?b ?c)] =>
             settle (first (select_user a b c))
         | |- context [Py.is_False (User.status ?u)] =>
             settle (Py.is_False (User.status u))
         | |- context [pwd_verify ?a (User.password_hash ?u)] =>
             settle (pwd_verify a (User.password_hash u))
         | E : Pg.audit_log _ = ?b |- context [Pg.text ?h] =>
             replace (Pg.text h) with b by (symmetry; exact E)
         end.
  all: cbn [User.password_hash User.id User.role User.full_name User.status].
  all: cbv iota.
  all: split; [first [reflexivity | symmetry; apply app_nil_r]|].
  all: first
         [ left; split; [reflexivity|];
           first [ left; reflexivity
                 | right; left; split; reflexivity
                 | right; right; split; [reflexivity|];
                   eexists; split; [reflexivity|assumption] ]
         | right; split; [reflexivity|]; split; reflexivity ].
Qed.


Lemma first_filter_Some {A} (f : A -> bool) (l : list A) (a : A) :
  first (filter f l) = Some a -> In a l /\ f a = true.
Proof.
  intros H. apply filter_In. destruct (filter f l) as [|b l']; simpl in H.
  - discriminate.
  - injection H as ->. now left.
Qed.

Lemma challenged_Some (payload : LoginRequest.t) (hospital : Hospital.t)
      (t : Tables) (user : User.t) :
  challenged payload hospital t = Some user ->
  In user (users t)
  /\ User.hospital_id user = Hospital.id hospital
  /\ db_lower (User.username user)
     = Py.lower (Py.strip (LoginRequest.username payload))
  /\ User.status user <> Some false.
Proof.
  unfold challenged, select_user. intros H.
  destruct (first (filter _ (users t))) as [found|] eqn:Hfirst;
    [|discriminate].
  destruct (Py.is_False (User.status found)) eqn:Hst; [discriminate|].
  injection H as <-.
  apply first_filter_Some in Hfirst. destruct Hfirst as [Hin Hcond].
  apply andb_true_iff in Hcond. destruct Hcond as [Hname Hhosp].
  apply String.eqb_eq in Hname. apply Z.eqb_eq in Hhosp.
  repeat split; auto. now apply is_False_false.
Qed.

Lemma authenticated_challenged (payload : LoginRequest.t) (pw : string)
      (hospital : Hospital.t) (t : Tables) (user : User.t) :
  authenticated payload pw hospital t = Some user ->
  challenged payload hospital t = Some user
  /\ pwd_verify pw (User.password_hash user) = Some true.
Proof.
  unfold authenticated, challenged.
  destruct (first (select_user _ _ _)) as [found|]; [|discriminate].
  destruct (Py.is_False (User.status found)); [discriminate|].
  destruct (pwd_verify pw (User.password_hash found)) as [[|]|] eqn:Hv;
    try discriminate.
  intros H. injection H as <-. auto.
Qed.

(** ** What a token proves *)

(** X1. [login] returns a token only if every check has passed: the
    password is a string of at most 72 bytes, a stored hospital carries the
    tenant id up to case and surrounding whitespace (its id lowercased by
    the datastore is the id sent, trimmed and lowercased by Python) and is
    not switched off, a stored user of that very hospital carries the
    username in the same sense and is not disabled, and [pwd_ctx] verifies
    the password against that user's hash.  The body answered is built from
    that user and from the tenant id as the client typed it, trimmed.  This
    holds whether or not the datastore keeps answering. *)
Theorem login_Return_sound (w w' : World) (payload : LoginRequest.t)
        (client_host : string) (token : TokenResponse.t) :
  get_db (login payload client_host) w = (Return token, w') ->
  exists pw hospital user,
    LoginRequest.password payload = Some pw
    /\ Py.utf8_len pw <= 72
    /\ In hospital (hospitals (committed w))
    /\ db_lower (Hospital.hospital_id hospital)
       = Py.lower (Py.strip (LoginRequest.hospital_id payload))
    /\ Hospital.is_active hospital <> Some false
    /\ In user (users (committed w))
    /\ User.hospital_id user = Hospital.id hospital
    /\ db_lower (User.username user)
       = Py.lower (Py.strip (LoginRequest.username payload))
    /\ User.status user <> Some false
    /\ pwd_verify pw (User.password_hash user) = Some true
    /\ token = token_response payload user.
Proof.
  intros H. destruct (login_cases _ _ _ _ _ H) as [_ [Hstop|Hstage]].
  - destruct Hstop as [[Hr|[Hr|Hr]] _]; discriminate Hr.
  - destruct Hstage
      as (pw & hospital & Hpw & Hlen & _ & _ & Hhosp & Hact & _ & Hend).
    destruct Hend as [[_ [Hr|[[Hr _]|[Hr _]]]]|[_ Hend]];
      try discriminate Hr.
    destruct (authenticated payload pw hospital (committed w))
      as [user|] eqn:Hauth; [|destruct Hend as [Hr _]; discriminate Hr].
    destruct Hend as [Hr _]. injection Hr as ->.
    apply authenticated_challenged in Hauth. destruct Hauth as [Hch Hv].
    apply challenged_Some in Hch.
    destruct Hch as (Hin & Hown & Hname & Hst).
    unfold select_hospital in Hhosp. apply first_filter_Some in Hhosp.
    destruct Hhosp as [Hhin Hhid]. apply String.eqb_eq in Hhid.
    exists pw, hospital, user. repeat split; auto.
Qed.

(** X2. Whatever the request and the datastore, [login] never calls
    [pwd_ctx.hash] and calls [pwd_ctx.verify] at most once: either the log
    of calls is what it was, or one call has been added, made with the
    password sent (a string of at most 72 bytes) and the stored hash of the
    user the lookups lead to: the tenant id resolves to a stored hospital
    that is not switched off, and the user is the first user of that very
    hospital that carries the normalized username, and is not disabled.
    An unknown or inactive hospital, and an unknown or disabled user, are
    rejected without any hashing work. *)
Theorem login_verify_discipline (w w' : World) (payload : LoginRequest.t)
        (client_host : string) (r : outcome TokenResponse.t) :
  get_db (login payload client_host) w = (r, w') ->
  (pwd_calls w' = pwd_calls w
   \/ exists pw hospital user,
       LoginRequest.password payload = Some pw
       /\ Py.utf8_len pw <= 72
       /\ first (select_hospital
                   (Py.lower (Py.strip (LoginRequest.hospital_id payload)))
                   (committed w)) = Some hospital
       /\ Hospital.is_active hospital <> Some false
       /\ challenged payload hospital (committed w) = Some user
       /\ In user (users (committed w))
       /\ User.hospital_id user = Hospital.id hospital
       /\ db_lower (User.username user)
          = Py.lower (Py.strip (LoginRequest.username payload))
       /\ User.status user <> Some false
       /\ pwd_calls w'
          = (pwd_calls w ++ [VerifyCall pw (User.password_hash user)])%list)
  /\ (first (select_hospital
                (Py.lower (Py.strip (LoginRequest.hospital_id payload)))
                (committed w)) = None ->
      pwd_calls w' = pwd_calls w)
  /\ (forall hospital,
         first (select_hospital
                  (Py.lower (Py.strip (LoginRequest.hospital_id payload)))
                  (committed w)) = Some hospital ->
         Hospital.is_active hospital = Some false
         \/ challenged payload hospital (committed w) = None ->
         pwd_calls w' = pwd_calls w).
Proof.
  intros H. destruct (login_cases _ _ _ _ _ H) as [_ [Hstop|Hstage]].
  - split; [left; tauto|]. split; intros; tauto.
  - destruct Hstage
      as (pw & hospital & Hpw & Hlen & _ & _ & Hhosp & Hact & Hcalls & _).
    split; [|split].
    + destruct (challenged payload hospital (committed w))
        as [user|] eqn:Hch.
      * right. pose proof (challenged_Some _ _ _ _ Hch)
          as (Hin & Hown & Hname & Hst).
        exists pw, hospital, user. repeat split; auto.
      * left. rewrite Hcalls. apply app_nil_r.
    + intros Hnone. rewrite Hhosp in Hnone. discriminate.
    + intros found Hfound Hwhy. rewrite Hhosp in Hfound.
      injection Hfound as <-.
      destruct Hwhy as [Hoff|Hnone]; [contradiction|].
      rewrite Hcalls, Hnone. apply app_nil_r.
Qed.

(** X3. A login that raises ends in 401 "Invalid credentials", in an
    error of the datastore (it did not answer, or it refused a value) or in
    the error of [pwd_ctx.verify], which the handler does not catch; it
    leaves [hospitals] and [users] as they were (no last-login is written)
    and adds at most one row to the audit log, the LOGIN_FAILED row of the
    attempt, and then only with the 401. *)
Theorem login_failure_frame (w w' : World) (payload : LoginRequest.t)
        (client_host : string) (e : exn) :
  get_db (login payload client_host) w = (Raise e, w') ->
  (e = HTTPException 401 "Invalid credentials" \/ e = OperationalError
   \/ e = DBAPIError \/ e = HashingError)
  /\ hospitals (committed w') = hospitals (committed w)
  /\ users (committed w') = users (committed w)
  /\ (audit_logs (committed w') = audit_logs (committed w)
      \/ (e = HTTPException 401 "Invalid credentials"
          /\ audit_logs (committed w')
             = (audit_logs (committed w)
                ++ [failed_row payload client_host (audit_logs_id_seq w)
                      (utcnow w)])%list)).
Proof.
  intros H. destruct (login_cases _ _ _ _ _ H) as [_ [Hstop|Hstage]].
  - destruct Hstop as (Hr & Hstore & _). rewrite Hstore.
    repeat split; auto.
    destruct Hr as [Hr|[Hr|Hr]]; injection Hr as ->; auto.
  - destruct Hstage as (pw & hospital & _ & _ & _ & _ & _ & _ & _ & Hend).
    destruct Hend as [[Hstore Hr]|[_ Hend]].
    + rewrite Hstore. repeat split; auto.
      destruct Hr as [Hr|[[Hr _]|[Hr _]]]; injection Hr as ->; auto.
    + destruct (authenticated payload pw hospital (committed w));
        destruct Hend as [Hr Hstore]; [discriminate Hr|].
      injection Hr as ->. rewrite Hstore. simpl. repeat split; auto.
Qed.

(** X4. A login that succeeds, on a [users] table with its primary key,
    rewrites one row of [users], the row of the authenticated user, and in
    it the last-login column only, set to the current time; the rows around
    it and [hospitals] are what they were, and the audit log has gained
    exactly the LOGIN_SUCCESS row of that user. *)
Theorem login_success_frame (w w' : World) (payload : LoginRequest.t)
        (client_host : string) (token : TokenResponse.t) :
  users_pk (committed w) ->
  get_db (login payload client_host) w = (Return token, w') ->
  exists l1 user l2,
    users (committed w) = (l1 ++ user :: l2)%list
    /\ users (committed w')
       = (l1 ++ User.set_last_login (Some (utcnow w)) user :: l2)%list
    /\ hospitals (committed w') = hospitals (committed w)
    /\ audit_logs (committed w')
       = (audit_logs (committed w)
          ++ [success_row user client_host (audit_logs_id_seq w)
                (utcnow w)])%list
    /\ token = token_response payload user.
Proof.
  intros Hpk H. destruct (login_cases _ _ _ _ _ H) as [_ [Hstop|Hstage]].
  - destruct Hstop as [[Hr|[Hr|Hr]] _]; discriminate Hr.
  - destruct Hstage as (pw & hospital & _ & _ & _ & _ & _ & _ & _ & Hend).
    destruct Hend as [[_ [Hr|[[Hr _]|[Hr _]]]]|[_ Hend]];
      try discriminate Hr.
    destruct (authenticated payload pw hospital (committed w))
      as [user|] eqn:Hauth; [|destruct Hend as [Hr _]; discriminate Hr].
    destruct Hend as [Hr Hstore]. injection Hr as ->.
    apply authenticated_challenged in Hauth. destruct Hauth as [Hch _].
    apply challenged_Some in Hch. destruct Hch as (Hin & _).
    destruct (users_pk_split _ _ Hpk Hin) as (l1 & l2 & Hsplit & H1 & H2).
    exists l1, user, l2. rewrite Hstore. simpl.
    repeat split; auto.
    rewrite Hsplit. now apply map_split_one.
Qed.


(** ** Every way [register_hospital] can end *)

Lemma register_hospital_cases (w w' : World) (payload : HospitalCreate.t)
      (r : outcome Registered.t) :
  get_db (register_hospital payload) w = (r, w') ->
  (pwd_calls w' = pwd_calls w
   \/ exists raw,
       HospitalCreate.register_secret payload = settings_register_secret
       /\ HospitalCreate.admin_password payload = Some raw
       /\ Py.utf8_len raw <= 72
       /\ first (select_hospital
                   (Py.lower (Py.strip (HospitalCreate.hospital_id payload)))
                   (committed w)) = None
       /\ pwd_calls w' = (pwd_calls w ++ [HashCall raw])%list)
  /\ (hospitals_id_seq w <= hospitals_id_seq w'
      /\ users_id_seq w <= users_id_seq w')
  /\ (committed w' = committed w
      \/ exists hashed,
          committed w'
          = mkTables
              (hospitals (committed w)
               ++ [hospital_row payload (hospitals_id_seq w)])%list
              (users (committed w)
               ++ [admin_row payload hashed (users_id_seq w)
                     (hospitals_id_seq w)])%list
              (audit_logs (committed w))
          /\ hospitals_id_seq w' = hospitals_id_seq w + 1
          /\ users_id_seq w' = users_id_seq w + 1).
Proof.
  unfold get_db, register_hospital, opened. intros H.
  unfold hospital_row, admin_row.
  remember (if Py.truthy (HospitalCreate.address payload)
            then option_map Py.strip (HospitalCreate.address payload)
            else None) as addr eqn:Eaddr in *.
  remember (if Py.truthy (HospitalCreate.admin_full_name payload)
            then option_map Py.strip (HospitalCreate.admin_full_name payload)
            else Some "Administrator") as fname eqn:Efname in *.
  destruct w as [[hs us als] txn pend hseq useq aseq up calls now].
  destruct (HospitalCreate.register_secret payload
            =? settings_register_secret)%string eqn:Hsecret;
    [apply String.eqb_eq in Hsecret
    |injection H as <- <-; simpl; repeat split; auto; lia].
  destruct (HospitalCreate.admin_password payload) as [raw|] eqn:Hpw;
    [|injection H as <- <-; simpl; repeat split; auto; lia].
  destruct (72 <? Py.utf8_len raw) eqn:Hlen;
    [injection H as <- <-; simpl; repeat split; auto; lia|].
  apply Z.ltb_ge in Hlen.
  run_in H.
  repeat step_in H.
  all: injection H as <- <-.
  all: split; [|split; [cbn; lia|]].
  all: try (left; reflexivity).
  all: try (right; exists raw; repeat split; solve [auto | assumption]).
  all: right; eexists; repeat split; reflexivity.
Qed.

(** X5. The gates of [register_hospital] come before everything else and
    in a fixed order: a wrong bootstrap secret is answered 403, whatever
    the password is; with the right secret a password that is not a string
    is answered 400 with the message about its type, and a string longer
    than 72 bytes is answered 400 with the message about its length.  In
    the three cases the datastore has not been asked anything (the request
    is answered even when it is down), no id has been drawn and
    [pwd_ctx.hash] has not been called. *)
Theorem register_hospital_gates (w : World) (payload : HospitalCreate.t) :
  (HospitalCreate.register_secret payload <> settings_register_secret ->
   get_db (register_hospital payload) w
   = (Raise (HTTPException 403 "Invalid register secret"), opened w))
  /\ (HospitalCreate.register_secret payload = settings_register_secret ->
      HospitalCreate.admin_password payload = None ->
      get_db (register_hospital payload) w
      = (Raise (HTTPException 400
           "Invalid password type. Ensure 'admin_password' is included as a string."),
         opened w))
  /\ (forall raw,
         HospitalCreate.register_secret payload = settings_register_secret ->
         HospitalCreate.admin_password payload = Some raw ->
         72 < Py.utf8_len raw ->
         get_db (register_hospital payload) w
         = (Raise (HTTPException 400
              "Password too long. Maximum length is 72 bytes."),
            opened w)).
Proof.
  unfold get_db, register_hospital. split; [|split].
  - intros Hsecret. apply String.eqb_neq in Hsecret. now rewrite Hsecret.
  - intros Hsecret Hpw. apply String.eqb_eq in Hsecret.
    now rewrite Hsecret, Hpw.
  - intros raw Hsecret Hpw Hlong. apply String.eqb_eq in Hsecret.
    apply Z.ltb_lt in Hlong. now rewrite Hsecret, Hpw, Hlong.
Qed.

(** X9. [register_hospital] calls [pwd_ctx.hash] at most once and never
    calls [pwd_ctx.verify]: either the log of calls is what it was, or one
    call has been added, on the admin password as sent, and then the secret
    was the configured one, the password was a string of at most 72 bytes
    and no stored hospital carried the external id.  A request that is
    turned down by a gate or by the duplicate lookup costs no hashing. *)
Theorem register_hospital_hash_discipline (w w' : World)
        (payload : HospitalCreate.t) (r : outcome Registered.t) :
  get_db (register_hospital payload) w = (r, w') ->
  pwd_calls w' = pwd_calls w
  \/ exists raw,
      HospitalCreate.register_secret payload = settings_register_secret
      /\ HospitalCreate.admin_password payload = Some raw
      /\ Py.utf8_len raw <= 72
      /\ first (select_hospital
                  (Py.lower (Py.strip (HospitalCreate.hospital_id payload)))
                  (committed w)) = None
      /\ pwd_calls w' = (pwd_calls w ++ [HashCall raw])%list.
Proof.
  intros H. exact (proj1 (register_hospital_cases _ _ _ _ H)).
Qed.


(** ** Every way the handlers of [routers/users.py] can end *)

Lemma create_user_cases (w w' : World) (payload : UserCreate.t)
      (current_user : User.t) (r : outcome User.t) :
  get_db (create_user payload current_user) w = (r, w') ->
  (hospitals_id_seq w' = hospitals_id_seq w
   /\ users_id_seq w <= users_id_seq w'
   /\ (uptime w = None -> uptime w' = None))
  /\ (pwd_calls w' = pwd_calls w
      \/ exists raw,
          valid_role (UserCreate.role payload) = true
          /\ UserCreate.password payload = Some raw
          /\ Py.utf8_len raw <= 72
          /\ pwd_calls w' = (pwd_calls w ++ [HashCall raw])%list)
  /\ (((exists e, r = Raise e) /\ committed w' = committed w)
      \/ exists raw hashed,
          UserCreate.password payload = Some raw
          /\ Py.utf8_len raw <= 72
          /\ pwd_hash raw = Some hashed
          /\ committed w'
             = set_users
                 (users (committed w)
                  ++ [user_row payload hashed current_user (users_id_seq w)])
                 (committed w)
          /\ users_id_seq w' = users_id_seq w + 1
          /\ Pg.user (user_row payload hashed current_user (users_id_seq w))
             = true).
Proof.
  unfold get_db, create_user, opened. intros H.
  unfold user_row.
  remember (if Py.truthy (UserCreate.email payload)
            then option_map (fun e => Py.lower (Py.strip e))
                   (UserCreate.email payload)
            else None) as mail eqn:Email in *.
  remember (if Py.truthy (UserCreate.full_name payload)
            then option_map Py.strip (UserCreate.full_name payload)
            else None) as fname eqn:Efname in *.
  destruct w as [[hs us als] txn pend hseq useq aseq up calls now].
  destruct current_user as [cid chosp cname cmail chash crole cfull cst cll].
  destruct (valid_role (UserCreate.role payload)) eqn:Hrole;
    [|injection H as <- <-; simpl; repeat split; eauto; lia].
  destruct (UserCreate.password payload) as [raw|] eqn:Hpw;
    [|injection H as <- <-; simpl; repeat split; eauto; lia].
  destruct (72 <? Py.utf8_len raw) eqn:Hlen;
    [injection H as <- <-; simpl; repeat split; eauto; lia|].
  apply Z.ltb_ge in Hlen.
  run_in H.
  repeat step_in H.
  all: injection H as <- <-.
  all: split; [cbn; repeat split; solve [lia | auto | discriminate]|].
  all: split; [first [left; reflexivity
                     | right; exists raw; repeat split; solve [auto]]|].
  all: first [left; split; [eexists; reflexivity|reflexivity]
             | right; exists raw; eexists; repeat split;
               solve [eauto | reflexivity]].
Qed.

Lemma toggle_user_status_cases (w w' : World) (user_id : Z)
      (current_user : User.t) (r : outcome User.t) :
  get_db (toggle_user_status user_id current_user) w = (r, w') ->
  (hospitals_id_seq w' = hospitals_id_seq w
   /\ users_id_seq w' = users_id_seq w
   /\ pwd_calls w' = pwd_calls w
   /\ audit_logs_id_seq w' = audit_logs_id_seq w
   /\ utcnow w' = utcnow w)
  /\ (((exists e, r = Raise e) /\ committed w' = committed w)
      \/ exists target,
          In target (users (committed w))
          /\ User.id target = user_id
          /\ User.hospital_id target = User.hospital_id current_user
          /\ committed w'
             = set_users
                 (map (fun u =>
                         if User.id u =? user_id
                         then User.set_status
                                (Some (Py.not_ (User.status target))) u
                         else u)
                      (users (committed w)))
                 (committed w)).
Proof.
  unfold get_db, toggle_user_status, opened. intros H.
  destruct w as [[hs us als] txn pend hseq useq aseq up calls now].
  run_in H.
  repeat step_in H.
  all: injection H as <- <-.
  all: split; [repeat split|].
  all: try (left; split; [eexists; reflexivity|reflexivity]).
  all: right.
  all: match goal with
       | E : filter _ _ = [?t] |- _ =>
           set (target := t) in *;
           apply filter_singleton in E; destruct E as [Hin Hcond];
           cbn in Hcond; apply andb_true_iff in Hcond;
           destruct Hcond as [Hid Hhosp];
           apply Z.eqb_eq in Hid; apply Z.eqb_eq in Hhosp;
           exists target
       end.
  all: repeat split; auto.
  all: subst user_id; reflexivity.
Qed.

Lemma list_users_cases (w w' : World) (current_user : User.t)
      (r : outcome (list User.t)) :
  get_db (list_users current_user) w = (r, w') ->
  hospitals_id_seq w' = hospitals_id_seq w
  /\ users_id_seq w' = users_id_seq w
  /\ pwd_calls w' = pwd_calls w
  /\ committed w' = committed w.
Proof.
  unfold get_db, list_users, opened. intros H.
  destruct w as [[hs us als] txn pend hseq useq aseq up calls now].
  run_in H.
  repeat step_in H.
  all: injection H as <- <-; repeat split.
Qed.

(** ** What a request can do to the datastore *)

Lemma same_account_refl (u : User.t) : same_account u u.
Proof. unfold same_account. repeat split. Qed.

Lemma same_account_if (c : User.t -> bool) (f : User.t -> User.t) :
  (forall u, same_account u (f u)) ->
  forall u, same_account u (if c u then f u else u).
Proof. intros Hf u. destruct (c u); [apply Hf|apply same_account_refl]. Qed.

Lemma tables_unchanged (t : Tables) :
  t = mkTables (hospitals t) (map (fun u => u) (users t))
               (audit_logs t ++ []).
Proof. destruct t as [hs us als]. simpl. now rewrite map_id, app_nil_r. Qed.

(** The three shapes of the effect of one request: the rows of [users] are
    rewritten in place, each staying the same account, and audit rows are
    appended; or a hospital and its admin are appended; or one user of the
    caller's hospital is appended. *)
Lemma serve_effect (q : request) (w : World) :
  (hospitals_id_seq w <= hospitals_id_seq (serve q w)
   /\ users_id_seq w <= users_id_seq (serve q w))
  /\ ((exists g als,
          (forall u, same_account u (g u))
          /\ committed (serve q w)
             = mkTables (hospitals (committed w))
                        (map g (users (committed w)))
                        (audit_logs (committed w) ++ als))
      \/ (exists h u,
             committed (serve q w)
             = mkTables (hospitals (committed w) ++ [h])
                        (users (committed w) ++ [u])
                        (audit_logs (committed w))
             /\ Hospital.id h = hospitals_id_seq w
             /\ User.id u = users_id_seq w
             /\ User.hospital_id u = Hospital.id h
             /\ hospitals_id_seq (serve q w) = hospitals_id_seq w + 1
             /\ users_id_seq (serve q w) = users_id_seq w + 1)
      \/ (exists u payload current_user,
             q = CreateUser payload current_user
             /\ committed (serve q w)
                = set_users (users (committed w) ++ [u]) (committed w)
             /\ User.id u = users_id_seq w
             /\ User.hospital_id u = User.hospital_id current_user
             /\ users_id_seq (serve q w) = users_id_seq w + 1)).
Proof.
  destruct q as [payload host|payload|cu|payload cu|uid cu|cu];
    unfold serve.
  - destruct (get_db (login payload host) w) as [r w'] eqn:H. simpl.
    destruct (login_cases _ _ _ _ _ H) as [[Hh Hu] Hcases].
    split; [lia|]. left.
    destruct Hcases as [(_ & Hstore & _)|Hstage].
    + exists (fun u => u), []. split; [apply same_account_refl|].
      rewrite Hstore. apply tables_unchanged.
    + destruct Hstage
        as (pw & hospital & _ & _ & _ & _ & _ & _ & _ & Hend).
      destruct Hend as [[Hstore _]|[_ Hend]].
      * exists (fun u => u), []. split; [apply same_account_refl|].
        rewrite Hstore. apply tables_unchanged.
      * destruct (authenticated payload pw hospital (committed w))
          as [user|]; destruct Hend as [_ Hstore].
        -- eexists. eexists. split; [|exact Hstore].
           apply same_account_if. intros u. unfold same_account.
           repeat split.
        -- exists (fun u => u). eexists. split; [apply same_account_refl|].
           rewrite Hstore. unfold set_audit_logs. now rewrite map_id.
  - destruct (get_db (register_hospital payload) w) as [r w'] eqn:H. simpl.
    destruct (register_hospital_cases _ _ _ _ H) as (_ & Hseq & Hcases).
    split; [exact Hseq|].
    destruct Hcases as [Hstore|(hashed & Hstore & Hh & Hu)].
    + left. exists (fun u => u), []. split; [apply same_account_refl|].
      rewrite Hstore. apply tables_unchanged.
    + right. left. do 2 eexists. split; [exact Hstore|].
      repeat split; auto.
  - destruct (get_db (list_users cu) w) as [r w'] eqn:H. simpl.
    destruct (list_users_cases _ _ _ _ H) as (Hh & Hu & _ & Hstore).
    split; [lia|]. left.
    exists (fun u => u), []. split; [apply same_account_refl|].
    rewrite Hstore. apply tables_unchanged.
  - destruct (get_db (create_user payload cu) w) as [r w'] eqn:H. simpl.
    destruct (create_user_cases _ _ _ _ _ H) as ((Hh & Hu & _) & _ & Hcases).
    split; [lia|].
    destruct Hcases
      as [[_ Hstore]|(raw & hashed & _ & _ & _ & Hstore & Hseq & _)].
    + left. exists (fun u => u), []. split; [apply same_account_refl|].
      rewrite Hstore. apply tables_unchanged.
    + right. right. do 3 eexists. split; [reflexivity|].
      split; [exact Hstore|]. repeat split; auto.
  - destruct (get_db (toggle_user_status uid cu) w) as [r w'] eqn:H. simpl.
    destruct (toggle_user_status_cases _ _ _ _ _ H)
      as ((Hh & Hu & _) & Hcases).
    split; [lia|]. left.
    destruct Hcases as [[_ Hstore]|(target & _ & _ & _ & Hstore)].
    + exists (fun u => u), []. split; [apply same_account_refl|].
      rewrite Hstore. apply tables_unchanged.
    + exists (fun u => if User.id u =? uid
                       then User.set_status
                              (Some (Py.not_ (User.status target))) u
                       else u), [].
      split.
      * intros u. destruct (User.id u =? uid);
          unfold same_account; repeat split.
      * rewrite Hstore. unfold set_users. simpl. now rewrite app_nil_r.
  - unfold get_me, ret. simpl. split; [lia|]. left.
    exists (fun u => u), []. split; [apply same_account_refl|].
    apply tables_unchanged.
Qed.

Lemma Forall2_map_same (g : User.t -> User.t) (l : list User.t) :
  (forall u, same_account u (g u)) -> Forall2 same_account l (map g l).
Proof.
  intros Hg. induction l as [|u l IH]; simpl; constructor; auto.
Qed.

Lemma Forall2_same_refl (l : list User.t) : Forall2 same_account l l.
Proof.
  induction l as [|u l IH]; constructor; auto using same_account_refl.
Qed.

(** X16. No request rewrites history.  Whatever the request, the caller
    and the state of the datastore: the [hospitals] table is what it was,
    with at most one row appended; so is the audit log, rows appended only;
    and the [users] table holds the same accounts at the same places, each
    with the id, hospital, username, email, password hash, role and full
    name it had (only a status flag or a last login may differ), with at
    most one row appended.  Nothing is ever deleted, no password is ever
    changed and no user ever moves to another hospital. *)
Theorem no_request_rewrites_history (q : request) (w : World) :
  exists hs us1 us2 als,
    hospitals (committed (serve q w)) = (hospitals (committed w) ++ hs)%list
    /\ users (committed (serve q w)) = (us1 ++ us2)%list
    /\ Forall2 same_account (users (committed w)) us1
    /\ audit_logs (committed (serve q w))
       = (audit_logs (committed w) ++ als)%list
    /\ (List.length hs <= 1)%nat
    /\ (List.length us2 <= 1)%nat.
Proof.
  destruct (serve_effect q w) as [_ [Hin|[Hreg|Hnew]]].
  - destruct Hin as (g & als & Hg & Hstore).
    exists [], (map g (users (committed w))), [], als.
    rewrite Hstore. simpl. rewrite !app_nil_r.
    repeat split; auto using Forall2_map_same.
  - destruct Hreg as (h & u & Hstore & _).
    exists [h], (users (committed w)), [u], [].
    rewrite Hstore. simpl. rewrite app_nil_r.
    repeat split; auto using Forall2_same_refl.
  - destruct Hnew as (u & payload & cu & _ & Hstore & _).
    exists [], (users (committed w)), [u], [].
    rewrite Hstore. simpl. rewrite !app_nil_r.
    repeat split; auto using Forall2_same_refl.
Qed.

Lemma NoDup_snoc_fresh (l : list Z) (k : Z) :
  NoDup l -> Forall (fun x => x < k) l -> NoDup (l ++ [k]).
Proof.
  induction 1 as [|a l Ha Hnd IH]; simpl; intros Hlt.
  - constructor; [simpl; tauto|constructor].
  - inversion Hlt as [|? ? Hak Hl]; subst. constructor; [|now apply IH].
    intros Hin. apply in_app_or in Hin. destruct Hin as [Hin|[Heq|[]]].
    + contradiction.
    + lia.
Qed.

Lemma Forall_map_id_lt (l : list User.t) (k : Z) :
  Forall (fun u => User.id u < k) l -> Forall (fun x => x < k) (map User.id l).
Proof. induction 1; simpl; constructor; auto. Qed.

Lemma Forall_map_hid_lt (l : list Hospital.t) (k : Z) :
  Forall (fun h => Hospital.id h < k) l ->
  Forall (fun x => x < k) (map Hospital.id l).
Proof. induction 1; simpl; constructor; auto. Qed.

(** One request made by a known caller keeps the datastore consistent. *)
Lemma serve_consistent (q : request) (w : World) :
  consistent w -> caller_known q w -> consistent (serve q w).
Proof.
  intros (Hh & Hu & Hhpk & Hupk & Hfk) Hcaller.
  pose proof (serve_effect q w) as Heffect.
  remember (serve q w) as w' eqn:Ew. clear Ew.
  destruct Heffect as [[Hhseq Huseq] [Hin|[Hreg|Hnew]]].
  - destruct Hin as (g & als & Hg & Hstore).
    unfold consistent, users_pk. rewrite Hstore. simpl.
    assert (Hids : map User.id (map g (users (committed w)))
                   = map User.id (users (committed w))).
    { rewrite map_map. apply map_ext. intros u. apply (Hg u). }
    repeat split.
    + eapply Forall_impl; [|exact Hh]. simpl. intros; lia.
    + apply Forall_map. eapply Forall_impl; [|exact Hu]. simpl.
      intros u Hlt. destruct (Hg u) as (-> & _). lia.
    + exact Hhpk.
    + rewrite Hids. exact Hupk.
    + apply Forall_map. eapply Forall_impl; [|exact Hfk]. simpl.
      intros u Hmem. destruct (Hg u) as (_ & -> & _). exact Hmem.
  - destruct Hreg as (h & u & Hstore & Hhid & Huid & Hown & Hhs & Hus).
    unfold consistent, users_pk. rewrite Hstore, Hhs, Hus. simpl.
    rewrite !map_app. simpl. rewrite Hhid, Huid.
    repeat split.
    + apply Forall_app. split; [|constructor; [lia|constructor]].
      eapply Forall_impl; [|exact Hh]. simpl. intros; lia.
    + apply Forall_app. split; [|constructor; [lia|constructor]].
      eapply Forall_impl; [|exact Hu]. simpl. intros; lia.
    + apply NoDup_snoc_fresh; [exact Hhpk|now apply Forall_map_hid_lt].
    + apply NoDup_snoc_fresh; [exact Hupk|now apply Forall_map_id_lt].
    + apply Forall_app. split.
      * eapply Forall_impl; [|exact Hfk]. simpl. intros x Hmem.
        apply in_or_app. now left.
      * constructor; [|constructor]. rewrite Hown, Hhid.
        apply in_or_app. right. now left.
  - destruct Hnew as (u & payload & cu & -> & Hstore & Huid & Hown & Hus).
    simpl in Hcaller.
    unfold consistent, users_pk. rewrite Hstore, Hus. simpl.
    rewrite !map_app. simpl. rewrite Huid.
    repeat split.
    + eapply Forall_impl; [|exact Hh]. simpl. intros; lia.
    + apply Forall_app. split; [|constructor; [lia|constructor]].
      eapply Forall_impl; [|exact Hu]. simpl. intros; lia.
    + exact Hhpk.
    + apply NoDup_snoc_fresh; [exact Hupk|now apply Forall_map_id_lt].
    + apply Forall_app. split; [exact Hfk|].
      constructor; [|constructor]. rewrite Hown.
      rewrite Forall_forall in Hfk. now apply Hfk.
Qed.

(** X15. The integrity the statements about [toggle_user_status] and about
    login after registration rely on is kept by the handlers themselves.
    From a consistent datastore (the empty one, for instance), whatever
    requests are served, each on behalf of a stored user where the route
    has a current user, and whether or not the datastore keeps answering,
    the datastore stays consistent: ids are unique in [hospitals] and in
    [users] and behind their sequences, and every user belongs to a stored
    hospital; in particular [users] keeps its primary key and no user row
    refers to a hospital key not handed out yet. *)
Theorem consistency_is_invariant (w0 w : World) :
  consistent w0 ->
  reachable w0 w ->
  consistent w /\ users_pk (committed w) /\ foreign_keys_allocated w.
Proof.
  intros H0 Hreach.
  assert (Hc : consistent w).
  { induction Hreach as [|w q _ IH Hcaller]; [exact H0|].
    now apply serve_consistent. }
  split; [exact Hc|]. destruct Hc as (Hh & _ & _ & Hupk & Hfk).
  split; [exact Hupk|].
  unfold foreign_keys_allocated.
  eapply Forall_impl; [|exact Hfk]. simpl. intros u Hmem.
  apply in_map_iff in Hmem. destruct Hmem as (h & <- & Hin).
  rewrite Forall_forall in Hh. now apply Hh.
Qed.

(** ** [create_user] *)

(** X10. The gates of [create_user] come before any hashing and before the
    datastore, in a fixed order: a role that is not exactly "admin",
    "doctor" or "staff" is answered 400 "Invalid role" whatever the
    password is; with a valid role, a password that is not a string, or a
    string longer than 72 bytes, is answered 400 with the message about the
    length.  In each case the datastore has not been asked anything, no id
    has been drawn and [pwd_ctx.hash] has not been called. *)
Theorem create_user_gates (w : World) (payload : UserCreate.t)
        (current_user : User.t) :
  (UserCreate.role payload <> "admin" ->
   UserCreate.role payload <> "doctor" ->
   UserCreate.role payload <> "staff" ->
   get_db (create_user payload current_user) w
   = (Raise (HTTPException 400 "Invalid role"), opened w))
  /\ (valid_role (UserCreate.role payload) = true ->
      UserCreate.password payload = None ->
      get_db (create_user payload current_user) w
      = (Raise (HTTPException 400
           "Password too long. Maximum length is 72 bytes."), opened w))
  /\ (forall raw,
         valid_role (UserCreate.role payload) = true ->
         UserCreate.password payload = Some raw ->
         72 < Py.utf8_len raw ->
         get_db (create_user payload current_user) w
         = (Raise (HTTPException 400
              "Password too long. Maximum length is 72 bytes."), opened w)).
Proof.
  unfold get_db, create_user. split; [|split].
  - intros Ha Hd Hs. unfold valid_role.
    apply String.eqb_neq in Ha. apply String.eqb_neq in Hd.
    apply String.eqb_neq in Hs. now rewrite Ha, Hd, Hs.
  - intros Hrole Hpw. now rewrite Hrole, Hpw.
  - intros raw Hrole Hpw Hlong. apply Z.ltb_lt in Hlong.
    now rewrite Hrole, Hpw, Hlong.
Qed.

(** X12. [create_user] has no handler around its writes: when the hashing
    backend fails, when the datastore refuses a text of the new row, or
    when a constraint of [users] rejects the row, the exception leaves the
    handler as it is (it is not turned into a 500 or a 409 as in
    [register_hospital]) and nothing is stored. *)
Theorem create_user_errors_propagate (w : World) (payload : UserCreate.t)
        (current_user : User.t) (raw : string) :
  uptime w = None ->
  valid_role (UserCreate.role payload) = true ->
  UserCreate.password payload = Some raw ->
  Py.utf8_len raw <= 72 ->
  (pwd_hash raw = None ->
   exists w',
     get_db (create_user payload current_user) w = (Raise HashingError, w')
     /\ committed w' = committed w)
  /\ (forall hashed,
         pwd_hash raw = Some hashed ->
         Pg.user (user_row payload hashed current_user (users_id_seq w))
         = true ->
         user_insert_ok (users (committed w))
           (user_row payload hashed current_user (users_id_seq w)) = false ->
         exists w',
           get_db (create_user payload current_user) w
           = (Raise IntegrityError, w')
           /\ committed w' = committed w)
  /\ (forall hashed,
         pwd_hash raw = Some hashed ->
         Pg.user (user_row payload hashed current_user (users_id_seq w))
         = false ->
         exists w',
           get_db (create_user payload current_user) w
           = (Raise DBAPIError, w')
           /\ committed w' = committed w).
Proof.
  intros Hup Hrole Hpw Hlen.
  assert (Hguard : (72 <? Py.utf8_len raw) = false) by (apply Z.ltb_ge; lia).
  unfold get_db, create_user, opened, user_row.
  rewrite Hrole, Hpw, Hguard.
  remember (if Py.truthy (UserCreate.email payload)
            then option_map (fun e => Py.lower (Py.strip e))
                   (UserCreate.email payload)
            else None) as mail eqn:Email in *.
  remember (if Py.truthy (UserCreate.full_name payload)
            then option_map Py.strip (UserCreate.full_name payload)
            else None) as fname eqn:Efname in *.
  destruct w as [[hs us als] txn pend hseq useq aseq up calls now].
  destruct current_user as [cid chosp cname cmail chash crole cfull cst cll].
  simpl in Hup. subst up. split; [|split].
  - intros Hhash. run. rewrite Hhash. run.
    eexists. split; reflexivity.
  - intros hashed Hhash Htext Hbad. simpl in Hbad, Htext.
    run. rewrite Hhash. run. accept Htext. run. rewrite Hbad. run.
    eexists. split; reflexivity.
  - intros hashed Hhash Htext. simpl in Htext.
    run. rewrite Hhash. run. accept Htext. run.
    eexists. split; reflexivity.
Qed.

Lemma user_row_text (payload : UserCreate.t) (hashed : string)
      (current_user : User.t) (pk : Z) :
  Pg.user (user_row payload hashed current_user pk) = true ->
  Pg.text (UserCreate.username payload) = true.
Proof.
  unfold Pg.user, user_row. simpl. rewrite text_normalized.
  intros H. repeat (apply andb_true_iff in H; destruct H as [H _]).
  exact H.
Qed.

(** X11. A user created by an admin can log in.  After a [create_user]
    that succeeded, a login to the caller's hospital succeeds whenever the
    username sent equals the one created up to case and surrounding
    whitespace and the password is the one given, and the token carries the
    role given.  It is assumed that the datastore answers, that the tenant
    id sent (free of U+0000, as the client address) resolves to the
    caller's hospital and this one is not switched off, that the
    datastore's [lower()] leaves the stored username, lowercased by Python,
    as it is, that no older user of the hospital has the same username up
    to case, that the column default of the status is not false and that
    [pwd_ctx.verify] accepts what [pwd_ctx.hash] produced. *)
Theorem login_after_create_user (w w1 : World) (payload : UserCreate.t)
        (current_user created : User.t) (attempt : LoginRequest.t)
        (client_host : string) (hospital : Hospital.t) :
  uptime w = None ->
  default_status <> Some false ->
  (forall raw hashed, pwd_hash raw = Some hashed ->
                      pwd_verify raw hashed = Some true) ->
  Pg.text (LoginRequest.hospital_id attempt) = true ->
  Pg.text client_host = true ->
  db_lower (Py.lower (Py.strip (UserCreate.username payload)))
  = Py.lower (Py.strip (UserCreate.username payload)) ->
  first (select_hospital
           (Py.lower (Py.strip (LoginRequest.hospital_id attempt)))
           (committed w)) = Some hospital ->
  Hospital.id hospital = User.hospital_id current_user ->
  Hospital.is_active hospital <> Some false ->
  Forall (fun x => User.hospital_id x = User.hospital_id current_user ->
                   db_lower (User.username x)
                   <> Py.lower (Py.strip (UserCreate.username payload)))
         (users (committed w)) ->
  get_db (create_user payload current_user) w = (Return created, w1) ->
  Py.lower (Py.strip (LoginRequest.username attempt))
  = Py.lower (Py.strip (UserCreate.username payload)) ->
  LoginRequest.password attempt = UserCreate.password payload ->
  exists token w2,
    get_db (login attempt client_host) w1 = (Return token, w2)
    /\ TokenResponse.role token = UserCreate.role payload.
Proof.
  intros Hup Hstatus Hverify Hhid Hhost Hlower Hhosp Hown Hact Hfresh
         Hcreate Hname Hpw.
  destruct (create_user_cases _ _ _ _ _ Hcreate)
    as ((_ & _ & Hup1) & _ & Hcases).
  destruct Hcases
    as [[[e He] _]
       |(raw & hashed & Hraw & Hlen & Hhash & Hstore & _ & Htext)];
    [discriminate He|].
  set (row := user_row payload hashed current_user (users_id_seq w)).
  destruct (login_succeeds w1 attempt client_host raw hospital row)
    as (w2 & Hlogin & _); auto.
  - congruence.
  - rewrite <- text_normalized, Hname, text_normalized.
    exact (user_row_text _ _ _ _ Htext).
  - rewrite Hstore. unfold select_hospital in *. exact Hhosp.
  - unfold authenticated, select_user. rewrite Hstore, Hname. simpl.
    rewrite filter_app, filter_none.
    + simpl. rewrite Hlower, String.eqb_refl, Hown, Z.eqb_refl.
      simpl. rewrite (Hverify raw hashed Hhash). subst row.
      destruct default_status as [[|]|]; simpl; congruence.
    + eapply Forall_impl; [|exact Hfresh]. simpl. intros x Hx.
      apply andb_false_iff.
      destruct (Z.eq_dec (User.hospital_id x)
                         (User.hospital_id current_user)) as [Heq|Hne].
      * left. apply String.eqb_neq. auto.
      * right. apply Z.eqb_neq. rewrite Hown. exact Hne.
  - exists (token_response attempt row), w2.
    split; [exact Hlogin|reflexivity].
Qed.

(** ** [toggle_user_status] and [login] *)

(** A login that reaches the user stage and is turned down there. *)
Lemma login_rejects (w : World) (payload : LoginRequest.t)
      (client_host pw : string) (hospital : Hospital.t) :
  uptime w = None ->
  LoginRequest.password payload = Some pw -> Py.utf8_len pw <= 72 ->
  Pg.text (LoginRequest.hospital_id payload) = true ->
  Pg.text (LoginRequest.username payload) = true ->
  Pg.text client_host = true ->
  first (select_hospital
           (Py.lower (Py.strip (LoginRequest.hospital_id payload)))
           (committed w)) = Some hospital ->
  Hospital.is_active hospital <> Some false ->
  challenged payload hospital (committed w) = None ->
  exists w',
    get_db (login payload client_host) w
    = (Raise (HTTPException 401 "Invalid credentials"), w')
    /\ committed w'
       = set_audit_logs
           (audit_logs (committed w)
            ++ [failed_row payload client_host (audit_logs_id_seq w)
                  (utcnow w)])
           (committed w)
    /\ pwd_calls w' = pwd_calls w
    /\ uptime w' = None.
Proof.
  intros Hup Hpw Hlen Hhid Hname Hhost Hhosp Hact Hch.
  assert (Hguard : (72 <? Py.utf8_len pw) = false) by (apply Z.ltb_ge; lia).
  assert (Hflag : Py.is_False (Hospital.is_active hospital) = false).
  { destruct (Hospital.is_active hospital) as [[|]|]; simpl; congruence. }
  rewrite <- text_normalized in Hhid, Hname.
  unfold challenged in Hch.
  unfold get_db, login, opened, failed_row, failed_details.
  rewrite Hpw, Hguard, Hhid, Hname.
  world w.
  unfold bind at 1. rewrite db_execute_clean by reflexivity.
  cbn [in_txn with_session committed]. rewrite Hhosp, Hflag.
  unfold bind at 1. rewrite db_execute_clean by reflexivity.
  cbn [in_txn with_session committed].
  destruct store as [hs us als].
  destruct (first (select_user _ _ _)) as [found|].
  - destruct (Py.is_False (User.status found)); [|discriminate].
    run. rewrite audit_log_failed, Hhost. run.
    eexists. repeat split; reflexivity.
  - run. rewrite audit_log_failed, Hhost. run.
    eexists. repeat split; reflexivity.
Qed.

(** X13. While the datastore answers and [users] has its primary key:
    an id outside the type of the key column is refused by the datastore,
    whose error leaves the handler as it is; for an id of that type,
    [toggle_user_status] answers 404 "User not found" exactly when no
    stored user has both the id given and the caller's hospital (an id that
    is not stored and the id of another tenant's user are told in the same
    words), and a user that is found is toggled: the row is returned and
    stored with its flag negated. *)
Theorem toggle_not_found_iff (w : World) (user_id : Z)
        (current_user : User.t) :
  uptime w = None ->
  users_pk (committed w) ->
  (id_column user_id = false ->
   get_db (toggle_user_status user_id current_user) w
   = (Raise DBAPIError, opened w))
  /\ (id_column user_id = true ->
      (fst (get_db (toggle_user_status user_id current_user) w)
       = Raise (HTTPException 404 "User not found")
       <-> ~ exists user,
             In user (users (committed w))
             /\ User.id user = user_id
             /\ User.hospital_id user = User.hospital_id current_user)
      /\ (forall user,
             In user (users (committed w)) ->
             User.id user = user_id ->
             User.hospital_id user = User.hospital_id current_user ->
             exists l1 l2 w',
               users (committed w) = (l1 ++ user :: l2)%list
               /\ get_db (toggle_user_status user_id current_user) w
                  = (Return (toggled user), w')
               /\ users (committed w') = (l1 ++ toggled user :: l2)%list)).
Proof.
  intros Hup Hpk. split.
  - intros Hfit. unfold get_db, toggle_user_status. rewrite Hfit.
    unfold bind at 1.
    rewrite db_execute_refused; [reflexivity|reflexivity|].
    destruct w; exact Hup.
  - intros Hfit. split; [split|].
    + intros H404 (user & Hin & Hid & Hhosp).
      destruct (users_pk_split _ _ Hpk Hin) as (l1 & l2 & Hsplit & H1 & H2).
      destruct (toggle_user_status_split w current_user user l1 l2)
        as (w' & Hrun & _); auto; [congruence|].
      rewrite <- Hid in H404. rewrite Hrun in H404. discriminate.
    + intros Hnone.
      unfold get_db, toggle_user_status, opened. rewrite Hfit.
      world w. destruct store as [hs us als]. simpl in *.
      unfold bind at 1. rewrite db_execute_clean by reflexivity.
      cbn [in_txn with_session committed users].
      rewrite filter_none; [reflexivity|].
      apply Forall_forall. intros u Hu.
      destruct (User.id u =? user_id) eqn:Hid; [|reflexivity].
      destruct (User.hospital_id u =? User.hospital_id current_user) eqn:Hh;
        [|reflexivity].
      exfalso. apply Hnone. exists u.
      apply Z.eqb_eq in Hid. apply Z.eqb_eq in Hh. auto.
    + intros user Hin Hid Hhosp.
      destruct (users_pk_split _ _ Hpk Hin) as (l1 & l2 & Hsplit & H1 & H2).
      destruct (toggle_user_status_split w current_user user l1 l2)
        as (w' & Hrun & Hstore & _); auto; [congruence|].
      exists l1, l2, w'. rewrite <- Hid, Hstore. auto.
Qed.

Lemma first_filter_split (f : User.t -> bool) (l1 l2 : list User.t)
      (user : User.t) :
  first (filter f (l1 ++ user :: l2)) = Some user ->
  Forall (fun u => User.id u <> User.id user) l1 ->
  Forall (fun u => f u = false) l1.
Proof.
  induction l1 as [|a l1 IH]; simpl; intros Hfirst Hids; [constructor|].
  inversion Hids as [|? ? Ha Hrest]; subst.
  destruct (f a) eqn:Hfa.
  - simpl in Hfirst. injection Hfirst as ->. contradiction.
  - constructor; auto.
Qed.

(** X14. Disabling a user locks it out.  When a login with given
    credentials would succeed for a user whose status is true, and an admin
    of the same hospital toggles that user, the same login is then answered
    401 "Invalid credentials": a LOGIN_FAILED row is written and the
    password is not even checked.  It is assumed that the datastore
    answers, that [users] has its primary key, that the id of the user,
    being stored, fits its column, and that the tenant id, the username and
    the client address hold no U+0000. *)
Theorem toggle_locks_out (w : World) (payload : LoginRequest.t)
        (client_host pw : string) (hospital : Hospital.t)
        (user current_user : User.t) :
  uptime w = None ->
  users_pk (committed w) ->
  id_column (User.id user) = true ->
  Pg.text (LoginRequest.hospital_id payload) = true ->
  Pg.text (LoginRequest.username payload) = true ->
  Pg.text client_host = true ->
  LoginRequest.password payload = Some pw -> Py.utf8_len pw <= 72 ->
  first (select_hospital
           (Py.lower (Py.strip (LoginRequest.hospital_id payload)))
           (committed w)) = Some hospital ->
  Hospital.is_active hospital <> Some false ->
  authenticated payload pw hospital (committed w) = Some user ->
  User.status user = Some true ->
  User.hospital_id current_user = User.hospital_id user ->
  exists w1 w2,
    get_db (toggle_user_status (User.id user) current_user) w
    = (Return (User.set_status (Some false) user), w1)
    /\ get_db (login payload client_host) w1
       = (Raise (HTTPException 401 "Invalid credentials"), w2)
    /\ audit_logs (committed w2)
       = (audit_logs (committed w)
          ++ [failed_row payload client_host (audit_logs_id_seq w)
                (utcnow w)])%list
    /\ pwd_calls w2 = pwd_calls w.
Proof.
  intros Hup Hpk Hfit Hhid Hname Hhost Hpw Hlen Hhosp Hact Hauth Hst
         Hcaller.
  apply authenticated_challenged in Hauth. destruct Hauth as [Hch _].
  pose proof (challenged_Some _ _ _ _ Hch) as (Hin & Hown & _ & _).
  destruct (users_pk_split _ _ Hpk Hin) as (l1 & l2 & Hsplit & H1 & H2).
  destruct (toggle_user_status_split w current_user user l1 l2)
    as (w1 & Hrun & Hstore & Hup1); auto.
  assert (Htoggled : toggled user = User.set_status (Some false) user).
  { unfold toggled. now rewrite Hst. }
  rewrite Htoggled in Hrun, Hstore.
  destruct (toggle_user_status_cases _ _ _ _ _ Hrun)
    as ((_ & _ & Hcalls & Haseq & Hnow) & _).
  destruct (login_rejects w1 payload client_host pw hospital)
    as (w2 & Hlogin & Hstore2 & Hcalls2 & _); auto.
  - rewrite Hstore. unfold select_hospital in *. exact Hhosp.
  - unfold challenged, select_user in Hch |- *.
    rewrite Hstore. cbn [users set_users].
    rewrite Hsplit in Hch.
    destruct (first (filter _ (l1 ++ user :: l2))) as [found|] eqn:Hfirst;
      [|discriminate].
    destruct (Py.is_False (User.status found)); [discriminate|].
    injection Hch as ->.
    pose proof (first_filter_split _ _ _ _ Hfirst H1) as Hl1.
    apply first_filter_Some in Hfirst. destruct Hfirst as [_ Hmatch].
    rewrite filter_app, (filter_none _ l1 Hl1). simpl.
    simpl in Hmatch. rewrite Hmatch. reflexivity.
  - exists w1, w2. split; [exact Hrun|]. split; [exact Hlogin|].
    rewrite Hstore2, Hstore, Haseq, Hnow. simpl.
    split; [reflexivity|congruence].
Qed.

(** ** The datastore going down, and lookups after writes *)

(** X17. The password gate of [login] comes before the datastore: a
    password that is not a string is answered 401 "Invalid credentials"
    without a single exchange with the datastore, even when it is down.
    Behind the gate an outage is not dressed up as a wrong password: with a
    string of at most 72 bytes and a datastore that does not answer,
    [login] ends in the datastore error and nothing is written. *)
Theorem login_gate_and_outage (w : World) (payload : LoginRequest.t)
        (client_host : string) :
  (LoginRequest.password payload = None ->
   get_db (login payload client_host) w
   = (Raise (HTTPException 401 "Invalid credentials"), opened w))
  /\ (forall pw,
         LoginRequest.password payload = Some pw ->
         Py.utf8_len pw <= 72 ->
         uptime w = Some 0%nat ->
         get_db (login payload client_host) w
         = (Raise OperationalError, opened w)).
Proof.
  unfold get_db, login. split.
  - intros Hpw. now rewrite Hpw.
  - intros pw Hpw Hlen Hdown.
    assert (Hguard : (72 <? Py.utf8_len pw) = false)
      by (apply Z.ltb_ge; lia).
    rewrite Hpw, Hguard.
    destruct w as [store txn pend hseq useq aseq up calls now].
    simpl in Hdown. subst up. reflexivity.
Qed.

(** X18. What [create_user] stores, [list_users] shows.  After a
    [create_user] that succeeded, the caller's listing is the listing of
    before followed by the new user, while the datastore answers. *)
Theorem list_users_after_create_user (w w1 : World) (payload : UserCreate.t)
        (current_user created : User.t) :
  uptime w = None ->
  get_db (create_user payload current_user) w = (Return created, w1) ->
  exists before row w0 w2,
    get_db (list_users current_user) w = (Return before, w0)
    /\ get_db (list_users current_user) w1
       = (Return (before ++ [row])%list, w2)
    /\ User.hospital_id row = User.hospital_id current_user
    /\ User.username row
       = Py.lower (Py.strip (UserCreate.username payload))
    /\ User.role row = UserCreate.role payload.
Proof.
  intros Hup Hcreate.
  destruct (create_user_cases _ _ _ _ _ Hcreate)
    as ((_ & _ & Hup1) & _ & Hcases).
  destruct Hcases
    as [[[e He] _]|(raw & hashed & _ & _ & _ & Hstore & _)];
    [discriminate He|].
  specialize (Hup1 Hup).
  exists (filter (fun u => User.hospital_id u =? User.hospital_id current_user)
                 (users (committed w))).
  exists (user_row payload hashed current_user (users_id_seq w)).
  exists (opened w), (opened w1).
  unfold get_db, list_users.
  rewrite !db_execute_clean; try reflexivity; try assumption.
  cbn [in_txn opened with_session]. rewrite Hstore. cbn [users set_users].
  rewrite filter_app. simpl. rewrite Z.eqb_refl.
  repeat split.
Qed.

(** X19. A new tenant starts with one user, its admin.  After a
    registration that succeeded on a datastore where no user row refers to
    a hospital key not handed out yet, the listing of the new hospital, as
    its admin sees it, is the admin alone. *)
Theorem list_users_after_registration (w w1 : World)
        (payload : HospitalCreate.t) (r : Registered.t) :
  uptime w = None ->
  foreign_keys_allocated w ->
  get_db (register_hospital payload) w = (Return r, w1) ->
  exists admin w2,
    In admin (users (committed w1))
    /\ User.role admin = "admin"
    /\ User.username admin
       = Py.lower (Py.strip (HospitalCreate.admin_username payload))
    /\ get_db (list_users admin) w1 = (Return [admin], w2).
Proof.
  intros Hup Hfk Hreg.
  destruct (register_hospital_Return _ _ _ _ Hreg)
    as (raw & hashed & _ & _ & _ & _ & _ & Hstore & Hup1 & _).
  specialize (Hup1 Hup).
  set (admin := admin_row payload hashed (users_id_seq w)
                  (hospitals_id_seq w)).
  exists admin, (opened w1). rewrite Hstore. simpl.
  split; [apply in_or_app; right; now left|].
  split; [reflexivity|]. split; [reflexivity|].
  unfold get_db, list_users.
  rewrite db_execute_clean; try reflexivity; try assumption.
  cbn [in_txn opened with_session]. rewrite Hstore. cbn [users].
  rewrite filter_app, filter_none.
  - simpl. now rewrite Z.eqb_refl.
  - eapply Forall_impl; [|exact Hfk]. simpl. intros u Hu.
    apply Z.eqb_neq. lia.
Qed.
End Backend.

(** * The statements on the concrete deployment *)

Abbreviation demo_login :=
  (login Demo.verify Pg.lower_C Demo.hospital_ok Demo.user_ok Demo.token).
Abbreviation demo_register :=
  (register_hospital Demo.hash Pg.lower_C Demo.hospital_ok Demo.user_ok None
     None Demo.secret).
Abbreviation demo_create_user :=
  (create_user Demo.hash Demo.hospital_ok Demo.user_ok None).
Abbreviation demo_toggle :=
  (toggle_user_status Pg.int4 Demo.hospital_ok Demo.user_ok).
Abbreviation demo_list_users := (list_users Demo.hospital_ok Demo.user_ok).
Abbreviation unauthorized := (HTTPException 401 "Invalid credentials").

(** Serving [Demo.reg] on the empty datastore gives [Demo.registered]. *)
Example register_demo :
  get_db (demo_register Demo.reg) Demo.empty
  = (Return (Registered.mk "Hospital h1 registered successfully" "h1"),
     Demo.registered).
Proof. reflexivity. Qed.

(** ** C4 *)

Lemma long_password_witness :
  72 < Py.utf8_len Demo.long_password
  /\ (exists w',
         get_db (demo_login
                   (LoginRequest.mk "h1" "admin" (Some Demo.long_password))
                   "10.0.0.7") Demo.registered
         = (Raise unauthorized, w')
         /\ pwd_calls w' = pwd_calls Demo.registered
         /\ committed w' = committed Demo.registered)
  /\ (exists detail w',
         get_db (demo_create_user
                   (UserCreate.mk "nurse" None (Some Demo.long_password)
                      "staff" None)
                   Demo.admin1) Demo.registered
         = (Raise (HTTPException 400 detail), w')
         /\ pwd_calls w' = pwd_calls Demo.registered
         /\ committed w' = committed Demo.registered).
Proof.
  assert (Hlong : 72 < Py.utf8_len Demo.long_password) by reflexivity.
  destruct (long_password_never_reaches_pwd_ctx Demo.hash Demo.verify
              Pg.lower_C Demo.hospital_ok Demo.user_ok None Demo.token
              Demo.long_password Hlong) as [Hlogin Hcreate].
  split; [exact Hlong|]. split.
  - apply Hlogin. reflexivity.
  - apply Hcreate. reflexivity.
Defined.

(** ** C1 *)

(** Three attempts on a datastore without audit rows: an unknown hospital,
    a hospital switched off (with the right username and password) and a
    password of 73 bytes.  Each is answered 401 and the datastore, audit
    log included, is what it was: no LOGIN_FAILED row has been written. *)
Lemma login_attempts_without_audit_row :
  audit_logs (committed Demo.two_hospitals) = []
  /\ get_db (demo_login (LoginRequest.mk "nowhere" "root" (Some "hunter2"))
               "10.0.0.7") Demo.two_hospitals
     = (Raise unauthorized, Demo.two_hospitals)
  /\ get_db (demo_login (LoginRequest.mk "h2" "root" (Some "hunter2"))
               "10.0.0.7") Demo.two_hospitals
     = (Raise unauthorized, Demo.two_hospitals)
  /\ get_db (demo_login
               (LoginRequest.mk "h1" "admin" (Some Demo.long_password))
               "10.0.0.7") Demo.two_hospitals
     = (Raise unauthorized, Demo.two_hospitals).
Proof. repeat split. Qed.

(** Two attempts that pass the guard and are left out of the statement
    above.  A password that holds U+0000 reaches [pwd_ctx.verify], which
    raises; a username that holds it is refused by the datastore in the
    user lookup.  The error leaves the handler as it is and no audit row is
    written. *)
Example login_errors_without_audit_row :
  get_db (demo_login (LoginRequest.mk "h1" "admin" (Some Demo.with_nul))
            "10.0.0.7") Demo.registered
  = (Raise HashingError,
     with_pwd_calls
       [HashCall "correct horse"; VerifyCall Demo.with_nul "$2b$correct horse"]
       Demo.registered)
  /\ get_db (demo_login
               (LoginRequest.mk "h1" Demo.with_nul (Some "correct horse"))
               "10.0.0.7") Demo.registered
     = (Raise DBAPIError, Demo.registered).
Proof. split; reflexivity. Qed.

Lemma login_audit_rows_witness :
  uptime Demo.registered = None
  /\ (exists w',
         get_db (demo_login (LoginRequest.mk "h1" "admin" None) "10.0.0.7")
           Demo.registered
         = (Raise unauthorized, w')
         /\ audit_logs (committed w') = [])
  /\ (exists w',
         get_db (demo_login
                   (LoginRequest.mk "h1" "admin" (Some Demo.long_password))
                   "10.0.0.7") Demo.registered
         = (Raise unauthorized, w')
         /\ audit_logs (committed w') = [])
  /\ (exists r w' entry,
         get_db (demo_login (LoginRequest.mk "H1 " "Admin" (Some "guess"))
                   "10.0.0.7") Demo.registered = (r, w')
         /\ audit_logs (committed w') = [entry]
         /\ AuditLog.ip_address entry = "10.0.0.7"
         /\ r = Raise unauthorized
         /\ AuditLog.action entry = "LOGIN_FAILED"
         /\ AuditLog.details entry
            = Some [("username", "admin"); ("hospital_id", "H1")])
  /\ (exists r w' entry,
         get_db (demo_login
                   (LoginRequest.mk "H1 " "Admin" (Some "correct horse"))
                   "10.0.0.7") Demo.registered = (r, w')
         /\ audit_logs (committed w') = [entry]
         /\ (exists token, r = Return token)
         /\ AuditLog.action entry = "LOGIN_SUCCESS"
         /\ AuditLog.user_id entry = Some 1).
Proof.
  split; [reflexivity|]. split; [|split; [|split]].
  - destruct (login_audit_rows Demo.verify Pg.lower_C Demo.hospital_ok
                Demo.user_ok Demo.token Demo.registered
                (LoginRequest.mk "h1" "admin" None)
                "10.0.0.7" eq_refl) as [Hguard _].
    apply Hguard. left. reflexivity.
  - destruct (login_audit_rows Demo.verify Pg.lower_C Demo.hospital_ok
                Demo.user_ok Demo.token Demo.registered
                (LoginRequest.mk "h1" "admin" (Some Demo.long_password))
                "10.0.0.7" eq_refl) as [Hguard _].
    apply Hguard. right. exists Demo.long_password.
    split; reflexivity.
  - destruct (login_audit_rows Demo.verify Pg.lower_C Demo.hospital_ok
                Demo.user_ok Demo.token Demo.registered
                (LoginRequest.mk "H1 " "Admin" (Some "guess"))
                "10.0.0.7" eq_refl) as [_ Hrows].
    destruct (Hrows "guess" Demo.h1 eq_refl) as (r & w' & entry & H);
      [vm_compute; discriminate|reflexivity|reflexivity|reflexivity
      |reflexivity|discriminate| |].
    + intros user Huser. vm_compute in Huser. injection Huser as <-.
      vm_compute. discriminate.
    + destruct H as (Hrun & Hlog & Hip & Hr & Hact & _ & Hdet).
      exists r, w', entry. repeat split; assumption.
  - destruct (login_audit_rows Demo.verify Pg.lower_C Demo.hospital_ok
                Demo.user_ok Demo.token Demo.registered
                (LoginRequest.mk "H1 " "Admin" (Some "correct horse"))
                "10.0.0.7" eq_refl) as [_ Hrows].
    destruct (Hrows "correct horse" Demo.h1 eq_refl) as (r & w' & entry & H);
      [vm_compute; discriminate|reflexivity|reflexivity|reflexivity
      |reflexivity|discriminate| |].
    + intros user Huser. vm_compute in Huser. injection Huser as <-.
      vm_compute. discriminate.
    + destruct H as (Hrun & Hlog & Hip & Htok & Hact & Huid).
      exists r, w', entry. repeat split; assumption.
Defined.

(** ** C5 *)

Lemma inactive_hospital_witness :
  (exists w',
      get_db (demo_login (LoginRequest.mk " h2" "Root" (Some "hunter2"))
                "10.0.0.7") Demo.two_hospitals
      = (Raise unauthorized, w')
      /\ committed w' = committed Demo.two_hospitals)
  /\ (exists w',
         get_db (demo_login
                   (LoginRequest.mk "h1" "admin" (Some "correct horse"))
                   "10.0.0.7") Demo.registered
         = (Return (TokenResponse.mk "jwt.admin.h1" "admin"
                      (Some "Administrator") "h1"), w')).
Proof.
  split.
  - destruct (inactive_hospital_blocks_login Demo.verify Pg.lower_C
                Demo.hospital_ok Demo.user_ok Demo.token Demo.two_hospitals
                (LoginRequest.mk " h2" "Root" (Some "hunter2")) "10.0.0.7"
                Demo.h2 eq_refl eq_refl eq_refl) as [Hoff _].
    exact (Hoff eq_refl).
  - destruct (inactive_hospital_blocks_login Demo.verify Pg.lower_C
                Demo.hospital_ok Demo.user_ok Demo.token Demo.registered
                (LoginRequest.mk "h1" "admin" (Some "correct horse"))
                "10.0.0.7" Demo.h1 eq_refl eq_refl eq_refl) as [_ Hnull].
    apply (Hnull eq_refl "correct horse" Demo.admin1);
      [reflexivity|vm_compute; discriminate|reflexivity|reflexivity
      |reflexivity].
Defined.

(** ** C3 *)

Lemma demo_verify_hash (raw hashed : string) :
  Demo.hash raw = Some hashed -> Demo.verify raw hashed = Some true.
Proof.
  unfold Demo.hash, Demo.verify. destruct (Pg.text raw); [|discriminate].
  intros H. injection H as <-. now rewrite String.eqb_refl.
Defined.

(** The registration of a hospital whose external id starts with a capital
    letter that is not an ASCII one. *)
Abbreviation reg_accented :=
  (HospitalCreate.mk "vitasage-bootstrap-secret" Demo.accented_id
     "Clinique du Parc" "accueil@parc.example" None "admin"
     (Some "correct horse") None).



(** ** C6 *)

(** The id "h1" is taken, and a registration under it with a wrong
    bootstrap secret is answered 403, not 409; so is, with 400, one whose
    admin password is too long. *)
Lemma duplicate_with_wrong_secret_is_forbidden :
  map Hospital.hospital_id (hospitals (committed Demo.registered)) = ["h1"]
  /\ get_db (demo_register
               (HospitalCreate.mk "guess" "h1" "General Hospital"
                  "office@h1.example" None "admin" (Some "correct horse")
                  None)) Demo.registered
     = (Raise (HTTPException 403 "Invalid register secret"),
        Demo.registered)
  /\ get_db (demo_register
               (HospitalCreate.mk "vitasage-bootstrap-secret" "h1"
                  "General Hospital" "office@h1.example" None "admin"
                  (Some Demo.long_password) None)) Demo.registered
     = (Raise (HTTPException 400
          "Password too long. Maximum length is 72 bytes."),
        Demo.registered).
Proof. repeat split. Qed.

Lemma demo_reg_well_formed (hospital_id : string) :
  well_formed_registration Demo.secret
    (HospitalCreate.mk "vitasage-bootstrap-secret" hospital_id
       "General Hospital" "office@h1.example" None "admin"
       (Some "correct horse") None).
Proof.
  split; [reflexivity|]. exists "correct horse".
  split; [reflexivity|vm_compute; discriminate].
Defined.

Lemma duplicate_hospital_id_witness :
  uptime Demo.registered = None
  /\ (exists e w',
         get_db (demo_register
                   (HospitalCreate.mk "vitasage-bootstrap-secret" " H1 "
                      "General Hospital" "office@h1.example" None "admin"
                      (Some "correct horse") None)) Demo.registered
         = (Raise e, w')
         /\ committed w' = committed Demo.registered
         /\ e = HTTPException 409 "Hospital ID already exists")
  /\ (exists e w',
         get_db (demo_register
                   (HospitalCreate.mk "guess" " H1 "
                      "General Hospital" "office@h1.example" None "admin"
                      (Some "correct horse") None)) Demo.registered
         = (Raise e, w')
         /\ committed w' = committed Demo.registered
         /\ e = HTTPException 403 "Invalid register secret")
  /\ (exists r w1 w2,
         get_db (demo_register Demo.reg) Demo.empty = (Return r, w1)
         /\ committed w1 = mkTables [Demo.h1] [Demo.admin1] []
         /\ register_all Demo.hash Pg.lower_C Demo.hospital_ok Demo.user_ok
              None None Demo.secret
              [HospitalCreate.mk "vitasage-bootstrap-secret" "h1"
                 "General Hospital" "office@h1.example" None "admin"
                 (Some "correct horse") None;
               HospitalCreate.mk "vitasage-bootstrap-secret" "H1"
                 "General Hospital" "office@h1.example" None "admin"
                 (Some "correct horse") None]
              w1
            = ([Raise (HTTPException 409 "Hospital ID already exists");
                Raise (HTTPException 409 "Hospital ID already exists")], w2)
         /\ committed w2 = committed w1).
Proof.
  split; [reflexivity|]. split; [|split].
  - destruct (duplicate_hospital_id_conflicts Demo.hash Demo.verify
                Pg.lower_C Demo.hospital_ok Demo.user_ok None None
                Demo.secret Demo.registered eq_refl) as [Hdup _].
    destruct (Hdup (HospitalCreate.mk "vitasage-bootstrap-secret" " H1 "
                      "General Hospital" "office@h1.example" None "admin"
                      (Some "correct horse") None) Demo.h1)
      as (e & w' & Hrun & Hstore & H409 & _);
      [reflexivity|left; reflexivity|reflexivity|].
    exists e, w'. repeat split; try assumption.
    apply H409. apply demo_reg_well_formed.
  - destruct (duplicate_hospital_id_conflicts Demo.hash Demo.verify
                Pg.lower_C Demo.hospital_ok Demo.user_ok None None
                Demo.secret Demo.registered eq_refl) as [Hdup _].
    destruct (Hdup (HospitalCreate.mk "guess" " H1 "
                      "General Hospital" "office@h1.example" None "admin"
                      (Some "correct horse") None) Demo.h1)
      as (e & w' & Hrun & Hstore & _ & H403 & _);
      [reflexivity|left; reflexivity|reflexivity|].
    exists e, w'. repeat split; try assumption.
    apply H403. discriminate.
  - destruct (duplicate_hospital_id_conflicts Demo.hash Demo.verify
                Pg.lower_C Demo.hospital_ok Demo.user_ok None None
                Demo.secret Demo.empty eq_refl) as [_ Hlater].
    apply (Hlater Demo.reg "correct horse" "$2b$correct horse").
    + reflexivity.
    + reflexivity.
    + vm_compute. discriminate.
    + reflexivity.
    + reflexivity.
    + reflexivity.
    + reflexivity.
    + reflexivity.
    + reflexivity.
    + reflexivity.
    + repeat constructor; apply demo_reg_well_formed.
Defined.

(** ** C7 *)

(** C7. The datastore answers the lookup, the flush and the commit of
    [Demo.reg] and then stops answering: the first [db.refresh] raises
    inside the [try], the handler rolls back and reports the generic 500,
    although the hospital and its admin are committed.  A failed
    registration has changed the datastore. *)
Theorem register_hospital_reports_500_after_commit :
  exists w',
    get_db (demo_register Demo.reg) (with_uptime (Some 4%nat) Demo.empty)
    = (Raise (HTTPException 500
         "An unexpected server error occurred during registration. Please verify field formatting."),
       w')
    /\ committed Demo.empty = mkTables [] [] []
    /\ committed w' = mkTables [Demo.h1] [Demo.admin1] [].
Proof.
  exists (snd (get_db (demo_register Demo.reg)
                 (with_uptime (Some 4%nat) Demo.empty))).
  split; [|split]; vm_compute; reflexivity.
Qed.

(** ** C8 *)

(** The admin of [Demo.registered] has a null status.  Two toggles in a row
    return it with status true, then false: the flag does not come back to
    null, and the user, who could log in, no longer can. *)
Lemma toggle_twice_null_status :
  User.status Demo.admin1 = None
  /\ exists w1 w2,
      get_db (demo_toggle 1 Demo.admin1) Demo.registered
      = (Return (User.set_status (Some true) Demo.admin1), w1)
      /\ get_db (demo_toggle 1 Demo.admin1) w1
         = (Return (User.set_status (Some false) Demo.admin1), w2)
      /\ users (committed w2) = [User.set_status (Some false) Demo.admin1]
      /\ users (committed w2) <> users (committed Demo.registered).
Proof.
  split; [reflexivity|].
  exists (snd (get_db (demo_toggle 1 Demo.admin1) Demo.registered)).
  exists (snd (get_db (demo_toggle 1 Demo.admin1)
                 (snd (get_db (demo_toggle 1 Demo.admin1) Demo.registered)))).
  split; [|split; [|split]]; vm_compute; try reflexivity.
  discriminate.
Qed.

Lemma demo_users_pk : users_pk (committed Demo.two_hospitals).
Proof.
  unfold users_pk. simpl. repeat constructor; simpl;
    intuition discriminate.
Defined.

Lemma toggle_twice_witness :
  exists once w1 w2,
    get_db (demo_toggle 3 Demo.admin2) Demo.two_hospitals = (Return once, w1)
    /\ User.status once = Some false
    /\ get_db (demo_toggle 3 Demo.admin2) w1 = (Return Demo.doctor2, w2)
    /\ committed w2 = committed Demo.two_hospitals.
Proof.
  apply (toggle_twice_restores_set_flag Pg.int4 Demo.hospital_ok Demo.user_ok
           Demo.two_hospitals Demo.admin2 Demo.doctor2 true).
  - reflexivity.
  - exact demo_users_pk.
  - reflexivity.
  - simpl. auto.
  - reflexivity.
  - reflexivity.
Defined.

(** ** C9 *)

Lemma admin_email_witness :
  exists hospital admin,
    hospitals (committed Demo.registered) = [hospital]
    /\ users (committed Demo.registered) = [admin]
    /\ User.hospital_id admin = Hospital.id hospital
    /\ User.role admin = "admin"
    /\ Hospital.email hospital = "office@h1.example"
    /\ User.email admin = Some (Hospital.email hospital).
Proof.
  exact (admin_email_is_hospital_email Demo.hash Pg.lower_C Demo.hospital_ok
           Demo.user_ok None None Demo.secret Demo.empty Demo.registered
           Demo.reg (Registered.mk "Hospital h1 registered successfully" "h1")
           eq_refl).
Defined.

(** ** C10 *)

Lemma toggle_frame_witness :
  exists l1 target l2,
    users (committed Demo.two_hospitals) = (l1 ++ target :: l2)%list
    /\ users (committed
                (snd (get_db (demo_toggle 3 Demo.admin2) Demo.two_hospitals)))
       = (l1 ++ User.set_status (Some false) Demo.doctor2 :: l2)%list
    /\ hospitals (committed
                    (snd (get_db (demo_toggle 3 Demo.admin2)
                            Demo.two_hospitals)))
       = hospitals (committed Demo.two_hospitals)
    /\ audit_logs (committed
                     (snd (get_db (demo_toggle 3 Demo.admin2)
                             Demo.two_hospitals)))
       = audit_logs (committed Demo.two_hospitals)
    /\ User.id target = 3
    /\ User.status (User.set_status (Some false) Demo.doctor2)
       = Some (Py.not_ (User.status target))
    /\ User.id (User.set_status (Some false) Demo.doctor2) = User.id target
    /\ User.hospital_id (User.set_status (Some false) Demo.doctor2)
       = User.hospital_id target
    /\ User.username (User.set_status (Some false) Demo.doctor2)
       = User.username target
    /\ User.email (User.set_status (Some false) Demo.doctor2)
       = User.email target
    /\ User.password_hash (User.set_status (Some false) Demo.doctor2)
       = User.password_hash target
    /\ User.role (User.set_status (Some false) Demo.doctor2)
       = User.role target
    /\ User.full_name (User.set_status (Some false) Demo.doctor2)
       = User.full_name target
    /\ User.last_login (User.set_status (Some false) Demo.doctor2)
       = User.last_login target.
Proof.
  exact (toggle_changes_only_the_status Pg.int4 Demo.hospital_ok Demo.user_ok
           Demo.two_hospitals
           (snd (get_db (demo_toggle 3 Demo.admin2) Demo.two_hospitals))
           3 Demo.admin2 (User.set_status (Some false) Demo.doctor2)
           demo_users_pk eq_refl).
Defined.

(** ** C2 *)

Lemma tenant_scope_witness :
  (Forall (fun u => In u (users (committed Demo.two_hospitals))
                    /\ User.hospital_id u = User.hospital_id Demo.admin2)
          [Demo.admin2; Demo.doctor2]
   /\ committed Demo.two_hospitals = committed Demo.two_hospitals)
  /\ (exists row,
         committed
           (snd (get_db (demo_create_user
                           (UserCreate.mk " Nurse.Joy " (Some "Joy@H2.example")
                              (Some "pokeball") "staff" (Some "Nurse Joy"))
                           Demo.admin2) Demo.two_hospitals))
         = set_users (users (committed Demo.two_hospitals) ++ [row])
             (committed Demo.two_hospitals)
         /\ User.hospital_id row = User.hospital_id Demo.admin2
         /\ (Forall (fun x => User.id x < users_id_seq Demo.two_hospitals)
                    (users (committed Demo.two_hospitals)) ->
             User.mk 4 2 "nurse.joy" (Some "joy@h2.example") "$2b$pokeball"
               "staff" (Some "Nurse Joy") None None = row))
  /\ (exists w',
         get_db (demo_toggle 3 Demo.admin1) Demo.two_hospitals
         = (Raise (HTTPException 404 "User not found"), w')
         /\ committed w' = committed Demo.two_hospitals).
Proof.
  split; [|split].
  - destruct (user_administration_is_tenant_scoped Demo.hash Pg.int4
                Demo.hospital_ok Demo.user_ok None Demo.two_hospitals
                Demo.admin2)
      as (Hlist & _ & _).
    apply (Hlist [Demo.admin2; Demo.doctor2] Demo.two_hospitals).
    reflexivity.
  - destruct (user_administration_is_tenant_scoped Demo.hash Pg.int4
                Demo.hospital_ok Demo.user_ok None Demo.two_hospitals
                Demo.admin2)
      as (_ & Hcreate & _).
    apply (Hcreate
             (UserCreate.mk " Nurse.Joy " (Some "Joy@H2.example")
                (Some "pokeball") "staff" (Some "Nurse Joy"))).
    reflexivity.
  - destruct (user_administration_is_tenant_scoped Demo.hash Pg.int4
                Demo.hospital_ok Demo.user_ok None Demo.two_hospitals
                Demo.admin1)
      as (_ & _ & Htoggle).
    apply (Htoggle 3 Demo.doctor2).
    + reflexivity.
    + exact demo_users_pk.
    + reflexivity.
    + simpl. auto.
    + reflexivity.
    + discriminate.
Defined.

(** * [update_reqs.py] *)

Example rewritten_sample :
  UpdateReqs.rewritten
    (String.concat (String UpdateReqs.newline EmptyString)
       ["fastapi==0.110.0 "; ""; "BCrypt==3.2.0"; "passlib"; " uvicorn"])
  = String.concat (String UpdateReqs.newline EmptyString)
      ["fastapi==0.110.0"; "uvicorn"; "bcrypt==4.0.1";
       "passlib[bcrypt]==1.7.4"; ""].
Proof. reflexivity. Qed.

(** ** Python's [strip] leaves a stripped string alone *)

Lemma strip_as_chars (s : string) :
  Py.strip s = string_of_list_ascii (UpdateReqs.strip_chars (list_ascii_of_string s)).
Proof.
  unfold Py.strip, Py.rstrip, Py.lstrip, UpdateReqs.strip_chars.
  now rewrite list_ascii_of_string_of_list_ascii.
Qed.

Lemma lstrip_chars_head (l : list ascii) :
  Py.lstrip_chars l = []
  \/ exists c m, Py.lstrip_chars l = c :: m /\ Py.isspace c = false.
Proof.
  induction l as [|a l IH]; simpl; [now left|].
  destruct (Py.isspace a) eqn:Ha; [exact IH|].
  right. exists a, l. auto.
Qed.

Lemma lstrip_chars_idem (l : list ascii) :
  Py.lstrip_chars (Py.lstrip_chars l) = Py.lstrip_chars l.
Proof.
  destruct (lstrip_chars_head l) as [->|(c & m & -> & Hc)]; simpl;
    [reflexivity|now rewrite Hc].
Qed.

Lemma lstrip_chars_snoc (l : list ascii) (c : ascii) :
  Py.isspace c = false ->
  Py.lstrip_chars (l ++ [c]) = (Py.lstrip_chars l ++ [c])%list.
Proof.
  intros Hc. induction l as [|a l IH]; simpl; [now rewrite Hc|].
  now destruct (Py.isspace a).
Qed.

Lemma lstrip_chars_incl (l : list ascii) : incl (Py.lstrip_chars l) l.
Proof.
  induction l as [|a l IH]; simpl; [apply incl_refl|].
  destruct (Py.isspace a); [now apply incl_tl|apply incl_refl].
Qed.

Lemma strip_chars_incl (l : list ascii) : incl (UpdateReqs.strip_chars l) l.
Proof.
  unfold UpdateReqs.strip_chars. intros c Hc.
  apply in_rev in Hc. apply lstrip_chars_incl in Hc.
  apply in_rev in Hc. now apply lstrip_chars_incl in Hc.
Qed.

Lemma rstrip_chars_idem (l : list ascii) :
  rev (Py.lstrip_chars (rev (rev (Py.lstrip_chars (rev l)))))
  = rev (Py.lstrip_chars (rev l)).
Proof. now rewrite rev_involutive, lstrip_chars_idem. Qed.

Lemma lstrip_rstrip_head (c : ascii) (m : list ascii) :
  Py.isspace c = false ->
  Py.lstrip_chars (rev (Py.lstrip_chars (rev (c :: m))))
  = rev (Py.lstrip_chars (rev (c :: m))).
Proof.
  intros Hc. simpl rev. rewrite (lstrip_chars_snoc (rev m) c Hc).
  rewrite rev_app_distr. simpl. now rewrite Hc.
Qed.

Lemma strip_chars_idem (l : list ascii) :
  UpdateReqs.strip_chars (UpdateReqs.strip_chars l) = UpdateReqs.strip_chars l.
Proof.
  unfold UpdateReqs.strip_chars.
  destruct (lstrip_chars_head l) as [->|(c & m & -> & Hc)];
    [reflexivity|].
  rewrite (lstrip_rstrip_head c m Hc). apply rstrip_chars_idem.
Qed.

Lemma strip_idem (s : string) : Py.strip (Py.strip s) = Py.strip s.
Proof.
  rewrite !strip_as_chars, list_ascii_of_string_of_list_ascii.
  now rewrite strip_chars_idem.
Qed.

(** ** Characters that do not occur *)

Lemma free_of_In (c : ascii) (s : string) :
  UpdateReqs.free_of c s = true <-> ~ In c (list_ascii_of_string s).
Proof.
  induction s as [|a s IH]; simpl; [tauto|].
  rewrite andb_true_iff, negb_true_iff, IH, Ascii.eqb_neq. tauto.
Qed.

Lemma free_of_strip (c : ascii) (s : string) :
  UpdateReqs.free_of c s = true -> UpdateReqs.free_of c (Py.strip s) = true.
Proof.
  rewrite !free_of_In, strip_as_chars, list_ascii_of_string_of_list_ascii.
  intros Hfree Hin. apply Hfree. now apply strip_chars_incl.
Qed.

Lemma free_of_remove_nul (c : ascii) (s : string) :
  UpdateReqs.free_of c s = true ->
  UpdateReqs.free_of c (UpdateReqs.remove_nul s) = true.
Proof.
  induction s as [|a s IH]; simpl; [reflexivity|].
  rewrite andb_true_iff. intros [Ha Hs].
  destruct (a =? UpdateReqs.nul)%char; simpl; [auto|].
  now rewrite Ha, IH.
Qed.

Lemma remove_nul_free (s : string) :
  UpdateReqs.free_of UpdateReqs.nul (UpdateReqs.remove_nul s) = true.
Proof.
  induction s as [|a s IH]; simpl; [reflexivity|].
  destruct (a =? UpdateReqs.nul)%char eqn:Ha; simpl; [exact IH|].
  now rewrite Ha, IH.
Qed.

Lemma remove_nul_id (s : string) :
  UpdateReqs.free_of UpdateReqs.nul s = true -> UpdateReqs.remove_nul s = s.
Proof.
  induction s as [|a s IH]; simpl; [reflexivity|].
  rewrite andb_true_iff, negb_true_iff. intros [-> Hs]. now rewrite IH.
Qed.

(** ** Lines *)

Lemma split_lines_cons (s : string) :
  exists l ls, UpdateReqs.split_lines s = l :: ls.
Proof.
  induction s as [|a s (l & ls & IH)]; simpl; [eauto|].
  destruct (a =? UpdateReqs.newline)%char; [eauto|].
  rewrite IH. eauto.
Qed.

Lemma split_lines_free (c : ascii) (s : string) :
  UpdateReqs.free_of c s = true ->
  Forall (fun l => UpdateReqs.free_of c l = true) (UpdateReqs.split_lines s).
Proof.
  induction s as [|a s IH]; simpl.
  - intros _. repeat constructor.
  - rewrite andb_true_iff. intros [Ha Hs]. specialize (IH Hs).
    destruct (a =? UpdateReqs.newline)%char.
    + constructor; [reflexivity|exact IH].
    + destruct (UpdateReqs.split_lines s) as [|l ls]; simpl.
      * repeat constructor. simpl. now rewrite Ha.
      * inversion IH as [|? ? Hl Hls]; subst.
        constructor; [simpl; now rewrite Ha, Hl|exact Hls].
Qed.

Lemma split_lines_no_newline (s : string) :
  Forall (fun l => UpdateReqs.free_of UpdateReqs.newline l = true)
         (UpdateReqs.split_lines s).
Proof.
  induction s as [|a s IH]; simpl.
  - repeat constructor.
  - destruct (a =? UpdateReqs.newline)%char eqn:Ha.
    + constructor; [reflexivity|exact IH].
    + destruct (UpdateReqs.split_lines s) as [|l ls]; simpl.
      * repeat constructor. simpl. now rewrite Ha.
      * inversion IH as [|? ? Hl Hls]; subst.
        constructor; [simpl; now rewrite Ha, Hl|exact Hls].
Qed.

Lemma split_lines_line (l rest : string) :
  UpdateReqs.free_of UpdateReqs.newline l = true ->
  UpdateReqs.split_lines (l ++ String UpdateReqs.newline rest)
  = l :: UpdateReqs.split_lines rest.
Proof.
  induction l as [|a l IH]; simpl.
  - intros _. reflexivity.
  - rewrite andb_true_iff, negb_true_iff. intros [Ha Hl].
    now rewrite Ha, (IH Hl).
Qed.

Lemma append_assoc (a b c : string) : (a ++ b) ++ c = a ++ (b ++ c).
Proof. induction a as [|x a IH]; simpl; [reflexivity|now rewrite IH]. Qed.

(** Reading back a text written as lines joined by newlines, with a final
    newline. *)
Lemma split_lines_join (l : string) (ls : list string) :
  Forall (fun l => UpdateReqs.free_of UpdateReqs.newline l = true) (l :: ls) ->
  UpdateReqs.split_lines
    (String.concat (String UpdateReqs.newline EmptyString) (l :: ls)
     ++ String UpdateReqs.newline EmptyString)
  = (l :: ls ++ [EmptyString])%list.
Proof.
  revert l. induction ls as [|l' ls IH]; intros l Hfree;
    inversion Hfree as [|? ? Hl Hls]; subst.
  - simpl String.concat. now rewrite (split_lines_line l EmptyString Hl).
  - assert (E : String.concat (String UpdateReqs.newline EmptyString)
                  (l :: l' :: ls)
                ++ String UpdateReqs.newline EmptyString
                = l ++ String UpdateReqs.newline
                         (String.concat
                            (String UpdateReqs.newline EmptyString) (l' :: ls)
                          ++ String UpdateReqs.newline EmptyString)).
    { change (String.concat (String UpdateReqs.newline EmptyString)
                (l :: l' :: ls))
        with (l ++ String UpdateReqs.newline EmptyString
                ++ String.concat (String UpdateReqs.newline EmptyString)
                     (l' :: ls)).
      now rewrite append_assoc. }
    rewrite E, (split_lines_line l _ Hl). now rewrite (IH l' Hls).
Qed.

(** ** The lines that are kept *)

Lemma kept_lines_app (a b : list string) :
  UpdateReqs.kept_lines (a ++ b)
  = (UpdateReqs.kept_lines a ++ UpdateReqs.kept_lines b)%list.
Proof.
  induction a as [|l a IH]; simpl; [reflexivity|].
  destruct (_ =? "")%string; [exact IH|].
  destruct (prefix "bcrypt" _); [exact IH|].
  destruct (prefix "passlib" _); [exact IH|].
  simpl. now rewrite IH.
Qed.

Lemma kept_lines_spec (lines : list string) :
  Forall (fun l => UpdateReqs.kept l = true
                   /\ UpdateReqs.free_of UpdateReqs.nul l = true)
         (UpdateReqs.kept_lines lines).
Proof.
  induction lines as [|line rest IH]; simpl; [constructor|].
  destruct (_ =? "")%string eqn:He; [exact IH|].
  destruct (prefix "bcrypt" _) eqn:Hb; [exact IH|].
  destruct (prefix "passlib" _) eqn:Hp; [exact IH|].
  constructor; [|exact IH].
  unfold UpdateReqs.kept. rewrite He, Hb, Hp. split; [reflexivity|].
  apply remove_nul_free.
Qed.

Lemma kept_lines_no_newline (lines : list string) :
  Forall (fun l => UpdateReqs.free_of UpdateReqs.newline l = true) lines ->
  Forall (fun l => UpdateReqs.free_of UpdateReqs.newline l = true)
         (UpdateReqs.kept_lines lines).
Proof.
  induction 1 as [|line rest Hline _ IH]; simpl; [constructor|].
  destruct (_ =? "")%string; [exact IH|].
  destruct (prefix "bcrypt" _); [exact IH|].
  destruct (prefix "passlib" _); [exact IH|].
  constructor; [|exact IH].
  now apply free_of_remove_nul, free_of_strip.
Qed.

Lemma kept_lines_stripped (lines : list string) :
  Forall (fun l => UpdateReqs.free_of UpdateReqs.nul l = true) lines ->
  Forall (fun l => Py.strip l = l) (UpdateReqs.kept_lines lines).
Proof.
  induction 1 as [|line rest Hline _ IH]; simpl; [constructor|].
  destruct (_ =? "")%string; [exact IH|].
  destruct (prefix "bcrypt" _); [exact IH|].
  destruct (prefix "passlib" _); [exact IH|].
  constructor; [|exact IH].
  rewrite (remove_nul_id (Py.strip line)) by now apply free_of_strip.
  apply strip_idem.
Qed.

Lemma kept_lines_fixed (lines : list string) :
  Forall (fun l => UpdateReqs.kept l = true
                   /\ UpdateReqs.free_of UpdateReqs.nul l = true) lines ->
  Forall (fun l => Py.strip l = l) lines ->
  UpdateReqs.kept_lines lines = lines.
Proof.
  induction 1 as [|line rest [Hkept Hnul] _ IH]; intros Hstrip;
    [reflexivity|].
  inversion Hstrip as [|? ? Hline Hrest]; subst. simpl.
  rewrite Hline, (remove_nul_id line Hnul).
  unfold UpdateReqs.kept in Hkept.
  destruct (line =? "")%string; [discriminate|].
  destruct (prefix "bcrypt" _); [discriminate|].
  destruct (prefix "passlib" _); [discriminate|].
  now rewrite (IH Hrest).
Qed.

Lemma new_lines_no_newline (content : string) :
  Forall (fun l => UpdateReqs.free_of UpdateReqs.newline l = true)
         (UpdateReqs.new_lines content).
Proof.
  unfold UpdateReqs.new_lines. apply Forall_app. split.
  - apply kept_lines_no_newline, split_lines_no_newline.
  - repeat constructor.
Qed.

Lemma split_lines_rewritten (content : string) :
  UpdateReqs.split_lines (UpdateReqs.rewritten content)
  = (UpdateReqs.new_lines content ++ [EmptyString])%list.
Proof.
  unfold UpdateReqs.rewritten.
  pose proof (new_lines_no_newline content) as Hfree.
  destruct (UpdateReqs.new_lines content) as [|l ls] eqn:Hlines.
  - unfold UpdateReqs.new_lines in Hlines.
    apply app_eq_nil in Hlines. destruct Hlines as [_ Hpins]. discriminate.
  - now apply split_lines_join.
Qed.

(** X20. Whatever [requirements.txt] held, the lines written back contain
    exactly one line that starts, in lower case, with "bcrypt" and exactly
    one that starts with "passlib": the two pins the script appends.  Every
    older requirement on the two packages, in any letter case, is gone. *)
Theorem only_the_pins_remain (content : string) :
  filter (fun l => String.prefix "bcrypt" (Py.lower l))
         (UpdateReqs.new_lines content) = ["bcrypt==4.0.1"]
  /\ filter (fun l => String.prefix "passlib" (Py.lower l))
            (UpdateReqs.new_lines content) = ["passlib[bcrypt]==1.7.4"].
Proof.
  unfold UpdateReqs.new_lines. rewrite !filter_app.
  pose proof (kept_lines_spec (UpdateReqs.split_lines content)) as Hkept.
  split.
  - rewrite filter_none; [reflexivity|].
    eapply Forall_impl; [|exact Hkept]. simpl. intros l [Hl _].
    unfold UpdateReqs.kept in Hl.
    destruct (l =? "")%string; [discriminate|].
    destruct (prefix "bcrypt" (Py.lower l)); [discriminate|reflexivity].
  - rewrite filter_none; [reflexivity|].
    eapply Forall_impl; [|exact Hkept]. simpl. intros l [Hl _].
    unfold UpdateReqs.kept in Hl.
    destruct (l =? "")%string; [discriminate|].
    destruct (prefix "bcrypt" (Py.lower l)); [discriminate|].
    destruct (prefix "passlib" (Py.lower l)); [discriminate|reflexivity].
Qed.

(** X21. The text written back reads back as the lines that were written:
    splitting it at the newlines gives the new lines followed by one empty
    string, for the final newline.  None of the lines written is empty, and
    none contains a NUL or a newline. *)
Theorem rewritten_reads_back (content : string) :
  UpdateReqs.split_lines (UpdateReqs.rewritten content)
  = (UpdateReqs.new_lines content ++ [EmptyString])%list
  /\ Forall (fun l => l <> EmptyString
                      /\ UpdateReqs.free_of UpdateReqs.nul l = true
                      /\ UpdateReqs.free_of UpdateReqs.newline l = true)
            (UpdateReqs.new_lines content).
Proof.
  split; [apply split_lines_rewritten|].
  pose proof (new_lines_no_newline content) as Hnl.
  assert (Hclean : Forall (fun l => l <> EmptyString
                                    /\ UpdateReqs.free_of UpdateReqs.nul l
                                       = true)
                          (UpdateReqs.new_lines content)).
  { unfold UpdateReqs.new_lines. apply Forall_app. split.
    - pose proof (kept_lines_spec (UpdateReqs.split_lines content)) as Hkept.
      eapply Forall_impl; [|exact Hkept]. simpl. intros l [Hl Hnul].
      split; [|exact Hnul]. intros ->. discriminate Hl.
    - repeat constructor; discriminate. }
  rewrite Forall_forall in *. intros l Hl.
  destruct (Hclean l Hl). auto.
Qed.

(** X22. Running the script twice changes nothing more, provided the
    decoded file holds no NUL character: the text written from the text
    written is that text again. *)
Theorem rewritten_idempotent (content : string) :
  UpdateReqs.free_of UpdateReqs.nul content = true ->
  UpdateReqs.rewritten (UpdateReqs.rewritten content)
  = UpdateReqs.rewritten content.
Proof.
  intros Hnul.
  assert (Hlines : UpdateReqs.new_lines (UpdateReqs.rewritten content)
                   = UpdateReqs.new_lines content).
  { unfold UpdateReqs.new_lines at 1. rewrite split_lines_rewritten.
    unfold UpdateReqs.new_lines. rewrite <- app_assoc, kept_lines_app.
    change (UpdateReqs.kept_lines (UpdateReqs.pins ++ [EmptyString]))
      with (@nil string).
    rewrite app_nil_r, kept_lines_fixed.
    - reflexivity.
    - apply kept_lines_spec.
    - apply kept_lines_stripped, split_lines_free, Hnul. }
  unfold UpdateReqs.rewritten at 1. now rewrite Hlines.
Qed.

(** With a NUL in front of a blank the second run still changes the text:
    the blank the first run uncovers is stripped by the second. *)
Example rewritten_twice_with_nul :
  UpdateReqs.rewritten (String UpdateReqs.nul " uvicorn")
  = String.concat (String UpdateReqs.newline EmptyString)
      [" uvicorn"; "bcrypt==4.0.1"; "passlib[bcrypt]==1.7.4"; ""]
  /\ UpdateReqs.rewritten
       (UpdateReqs.rewritten (String UpdateReqs.nul " uvicorn"))
     = String.concat (String UpdateReqs.newline EmptyString)
         ["uvicorn"; "bcrypt==4.0.1"; "passlib[bcrypt]==1.7.4"; ""].
Proof. split; reflexivity. Qed.

Lemma rewritten_idempotent_witness :
  UpdateReqs.rewritten
    (UpdateReqs.rewritten
       (String.concat (String UpdateReqs.newline EmptyString)
          ["fastapi==0.110.0 "; ""; "BCrypt==3.2.0"; "passlib"; " uvicorn"]))
  = UpdateReqs.rewritten
      (String.concat (String UpdateReqs.newline EmptyString)
         ["fastapi==0.110.0 "; ""; "BCrypt==3.2.0"; "passlib"; " uvicorn"]).
Proof.
  apply (rewritten_idempotent
           (String.concat (String UpdateReqs.newline EmptyString)
              ["fastapi==0.110.0 "; ""; "BCrypt==3.2.0"; "passlib";
               " uvicorn"])).
  reflexivity.
Defined.

(** * The further properties on the concrete deployment *)

Abbreviation good_login :=
  (LoginRequest.mk "H1 " "Admin" (Some "correct horse")).
Abbreviation bad_login := (LoginRequest.mk "H1 " "Admin" (Some "guess")).
Abbreviation admin_token :=
  (TokenResponse.mk "jwt.admin.H1" "admin" (Some "Administrator") "H1").
Abbreviation demo_serve :=
  (serve Demo.hash Demo.verify Pg.lower_C Pg.int4 Demo.hospital_ok
     Demo.user_ok None None Demo.secret Demo.token).

Lemma login_Return_sound_witness :
  exists pw hospital user,
    In hospital (hospitals (committed Demo.registered))
    /\ In user (users (committed Demo.registered))
    /\ User.hospital_id user = Hospital.id hospital
    /\ Demo.verify pw (User.password_hash user) = Some true
    /\ admin_token = token_response Demo.token good_login user.
Proof.
  destruct (login_Return_sound Demo.verify Pg.lower_C Demo.hospital_ok
              Demo.user_ok Demo.token Demo.registered
              (snd (get_db (demo_login good_login "10.0.0.7")
                      Demo.registered))
              good_login "10.0.0.7" admin_token eq_refl)
    as (pw & hospital & user & _ & _ & Hh & _ & _ & Hu & Hown & _ & _ & Hv
        & Htok).
  exists pw, hospital, user. repeat split; assumption.
Defined.

Lemma login_verify_discipline_witness :
  (exists pw hospital user,
      LoginRequest.password bad_login = Some pw
      /\ first (select_hospital Pg.lower_C
                  (Py.lower (Py.strip (LoginRequest.hospital_id bad_login)))
                  (committed Demo.registered)) = Some hospital
      /\ User.hospital_id user = Hospital.id hospital
      /\ pwd_calls
           (snd (get_db (demo_login bad_login "10.0.0.7") Demo.registered))
         = (pwd_calls Demo.registered
            ++ [VerifyCall pw (User.password_hash user)])%list)
  /\ pwd_calls
       (snd (get_db (demo_login (LoginRequest.mk "nowhere" "admin"
                                   (Some "correct horse")) "10.0.0.7")
               Demo.registered))
     = pwd_calls Demo.registered.
Proof.
  split.
  - destruct (login_verify_discipline Demo.hash Demo.verify Pg.lower_C
                Demo.hospital_ok Demo.user_ok Demo.secret Demo.token
                Demo.registered
                (snd (get_db (demo_login bad_login "10.0.0.7")
                        Demo.registered))
                bad_login "10.0.0.7"
                (fst (get_db (demo_login bad_login "10.0.0.7")
                        Demo.registered))
                eq_refl) as [[Hsame|Hcall] _].
    + vm_compute in Hsame. discriminate Hsame.
    + destruct Hcall
        as (pw & hospital & user & Hpw & _ & Hhosp & _ & _ & _ & Hown & _
            & _ & Hcalls).
      exists pw, hospital, user. repeat split; assumption.
  - destruct (login_verify_discipline Demo.hash Demo.verify Pg.lower_C
                Demo.hospital_ok Demo.user_ok Demo.secret Demo.token
                Demo.registered
                (snd (get_db (demo_login (LoginRequest.mk "nowhere" "admin"
                                            (Some "correct horse"))
                                "10.0.0.7") Demo.registered))
                (LoginRequest.mk "nowhere" "admin" (Some "correct horse"))
                "10.0.0.7"
                (fst (get_db (demo_login (LoginRequest.mk "nowhere" "admin"
                                            (Some "correct horse"))
                                "10.0.0.7") Demo.registered))
                eq_refl) as (_ & Hunknown & _).
    apply Hunknown. reflexivity.
Defined.

Lemma login_failure_frame_witness :
  hospitals
    (committed
       (snd (get_db (demo_login bad_login "10.0.0.7") Demo.registered)))
  = hospitals (committed Demo.registered)
  /\ users
       (committed
          (snd (get_db (demo_login bad_login "10.0.0.7") Demo.registered)))
     = users (committed Demo.registered).
Proof.
  destruct (login_failure_frame Demo.verify Pg.lower_C Demo.hospital_ok
              Demo.user_ok Demo.token Demo.registered
              (snd (get_db (demo_login bad_login "10.0.0.7")
                      Demo.registered))
              bad_login "10.0.0.7" unauthorized eq_refl)
    as (_ & Hh & Hu & _).
  split; assumption.
Defined.

Lemma demo_registered_pk : users_pk (committed Demo.registered).
Proof. unfold users_pk. simpl. repeat constructor. simpl. tauto. Defined.

Lemma login_success_frame_witness :
  exists l1 user l2,
    users (committed Demo.registered) = (l1 ++ user :: l2)%list
    /\ users
         (committed
            (snd (get_db (demo_login good_login "10.0.0.7")
                    Demo.registered)))
       = (l1 ++ User.set_last_login (Some (utcnow Demo.registered)) user
             :: l2)%list
    /\ hospitals
         (committed
            (snd (get_db (demo_login good_login "10.0.0.7")
                    Demo.registered)))
       = hospitals (committed Demo.registered)
    /\ audit_logs
         (committed
            (snd (get_db (demo_login good_login "10.0.0.7")
                    Demo.registered)))
       = (audit_logs (committed Demo.registered)
          ++ [success_row user "10.0.0.7"
                (audit_logs_id_seq Demo.registered)
                (utcnow Demo.registered)])%list
    /\ admin_token = token_response Demo.token good_login user.
Proof.
  exact (login_success_frame Demo.verify Pg.lower_C Demo.hospital_ok
           Demo.user_ok Demo.token Demo.registered
           (snd (get_db (demo_login good_login "10.0.0.7") Demo.registered))
           good_login "10.0.0.7" admin_token demo_registered_pk eq_refl).
Defined.

Lemma register_hospital_gates_witness :
  get_db (demo_register
            (HospitalCreate.mk "guess" "h1" "General Hospital"
               "office@h1.example" None "admin" None None)) Demo.registered
  = (Raise (HTTPException 403 "Invalid register secret"),
     opened Demo.registered)
  /\ get_db (demo_register
               (HospitalCreate.mk "vitasage-bootstrap-secret" "h1"
                  "General Hospital" "office@h1.example" None "admin" None
                  None)) Demo.registered
     = (Raise (HTTPException 400
          "Invalid password type. Ensure 'admin_password' is included as a string."),
        opened Demo.registered)
  /\ get_db (demo_register
               (HospitalCreate.mk "vitasage-bootstrap-secret" "h1"
                  "General Hospital" "office@h1.example" None "admin"
                  (Some Demo.long_password) None)) Demo.registered
     = (Raise (HTTPException 400
          "Password too long. Maximum length is 72 bytes."),
        opened Demo.registered).
Proof.
  split; [|split].
  - apply (register_hospital_gates Demo.hash Pg.lower_C Demo.hospital_ok
             Demo.user_ok None None Demo.secret). discriminate.
  - apply (register_hospital_gates Demo.hash Pg.lower_C Demo.hospital_ok
             Demo.user_ok None None Demo.secret); reflexivity.
  - destruct (register_hospital_gates Demo.hash Pg.lower_C Demo.hospital_ok
                Demo.user_ok None None Demo.secret Demo.registered
                (HospitalCreate.mk "vitasage-bootstrap-secret" "h1"
                   "General Hospital" "office@h1.example" None "admin"
                   (Some Demo.long_password) None)) as (_ & _ & Hlong).
    apply (Hlong Demo.long_password); reflexivity.
Defined.

Lemma register_hospital_atomic_witness :
  committed Demo.registered = committed Demo.empty
  \/ exists hashed,
      committed Demo.registered
      = mkTables
          (hospitals (committed Demo.empty)
           ++ [hospital_row None Demo.reg (hospitals_id_seq Demo.empty)])
          (users (committed Demo.empty)
           ++ [admin_row None Demo.reg hashed (users_id_seq Demo.empty)
                 (hospitals_id_seq Demo.empty)])
          (audit_logs (committed Demo.empty)).
Proof.
  exact (register_hospital_atomic Demo.hash Pg.lower_C Demo.hospital_ok
           Demo.user_ok None None Demo.secret Demo.empty Demo.registered
           Demo.reg
           (Return (Registered.mk "Hospital h1 registered successfully" "h1"))
           eq_refl).
Defined.

(** The registration of a second hospital under the email of the first, on
    a datastore that keeps emails unique among users. *)
Abbreviation reg_same_email :=
  (HospitalCreate.mk "vitasage-bootstrap-secret" "h9" "Harbour Clinic"
     "office@h1.example" None "chief" (Some "anchor") None).

Lemma register_hospital_integrity_conflict_witness :
  exists w',
    get_db (register_hospital Demo.hash Pg.lower_C Demo.hospital_ok
              Demo.unique_email None None Demo.secret reg_same_email)
      Demo.registered
    = (Raise (HTTPException 409
         "A record with these details already exists (check email or username)."),
       w')
    /\ committed w' = committed Demo.registered
    /\ in_txn w' = committed Demo.registered.
Proof.
  apply (register_hospital_integrity_conflict Demo.hash Pg.lower_C
           Demo.hospital_ok Demo.unique_email None None Demo.secret
           Demo.registered reg_same_email "anchor" "$2b$anchor").
  - reflexivity.
  - reflexivity.
  - reflexivity.
  - vm_compute. discriminate.
  - reflexivity.
  - reflexivity.
  - reflexivity.
  - reflexivity.
  - reflexivity.
  - reflexivity.
Defined.

(** A registration that passes the gates under an external id that holds
    U+0000. *)
Abbreviation reg_nul :=
  (HospitalCreate.mk "vitasage-bootstrap-secret" Demo.with_nul
     "General Hospital" "office@h1.example" None "admin"
     (Some "correct horse") None).

Lemma register_hospital_failure_answering_witness :
  (committed (snd (get_db (demo_register Demo.reg) Demo.registered))
   = committed Demo.registered
   /\ exists code detail,
       HTTPException 409 "Hospital ID already exists"
       = HTTPException code detail
       /\ (code = 403 \/ code = 400 \/ code = 409 \/ code = 500))
  /\ fst (get_db (demo_register reg_nul) Demo.registered) = Raise DBAPIError.
Proof.
  split.
  - destruct (register_hospital_failure_answering Demo.hash Demo.verify
                Pg.lower_C Pg.int4 Demo.hospital_ok Demo.user_ok None None
                Demo.secret Demo.token Demo.registered
                (snd (get_db (demo_register Demo.reg) Demo.registered))
                Demo.reg (HTTPException 409 "Hospital ID already exists")
                eq_refl eq_refl) as (Hstore & [Hhttp|[Hraw _]] & _).
    + split; assumption.
    + discriminate Hraw.
  - destruct (get_db (demo_register reg_nul) Demo.registered)
      as [[r|e] w'] eqn:Hrun; [vm_compute in Hrun; discriminate Hrun|].
    destruct (register_hospital_failure_answering Demo.hash Demo.verify
                Pg.lower_C Pg.int4 Demo.hospital_ok Demo.user_ok None None
                Demo.secret Demo.token Demo.registered w' reg_nul e
                eq_refl Hrun) as (_ & _ & Hnul).
    simpl. f_equal. apply Hnul; [|reflexivity].
    split; [reflexivity|]. exists "correct horse".
    split; [reflexivity|vm_compute; discriminate].
Defined.

Lemma register_hospital_hash_discipline_witness :
  pwd_calls Demo.registered = pwd_calls Demo.empty
  \/ exists raw,
      HospitalCreate.register_secret Demo.reg = Demo.secret
      /\ HospitalCreate.admin_password Demo.reg = Some raw
      /\ Py.utf8_len raw <= 72
      /\ first (select_hospital Pg.lower_C
                  (Py.lower (Py.strip (HospitalCreate.hospital_id Demo.reg)))
                  (committed Demo.empty)) = None
      /\ pwd_calls Demo.registered
         = (pwd_calls Demo.empty ++ [HashCall raw])%list.
Proof.
  exact (register_hospital_hash_discipline Demo.hash Pg.lower_C
           Demo.hospital_ok Demo.user_ok None None Demo.secret Demo.empty
           Demo.registered Demo.reg
           (Return (Registered.mk "Hospital h1 registered successfully" "h1"))
           eq_refl).
Defined.

Abbreviation new_nurse :=
  (UserCreate.mk " Nurse.Joy " (Some "Joy@H1.example") (Some "pokeball")
     "staff" (Some "Nurse Joy")).
Abbreviation nurse_row :=
  (User.mk 2 1 "nurse.joy" (Some "joy@h1.example") "$2b$pokeball" "staff"
     (Some "Nurse Joy") None None).

Lemma create_user_gates_witness :
  get_db (demo_create_user
            (UserCreate.mk "joy" None (Some Demo.long_password) "Admin" None)
            Demo.admin1) Demo.registered
  = (Raise (HTTPException 400 "Invalid role"), opened Demo.registered)
  /\ get_db (demo_create_user
               (UserCreate.mk "joy" None None "staff" None) Demo.admin1)
       Demo.registered
     = (Raise (HTTPException 400
          "Password too long. Maximum length is 72 bytes."),
        opened Demo.registered)
  /\ get_db (demo_create_user
               (UserCreate.mk "joy" None (Some Demo.long_password) "staff"
                  None) Demo.admin1) Demo.registered
     = (Raise (HTTPException 400
          "Password too long. Maximum length is 72 bytes."),
        opened Demo.registered).
Proof.
  split; [|split].
  - apply (create_user_gates Demo.hash Demo.hospital_ok Demo.user_ok None);
      discriminate.
  - apply (create_user_gates Demo.hash Demo.hospital_ok Demo.user_ok None);
      reflexivity.
  - destruct (create_user_gates Demo.hash Demo.hospital_ok Demo.user_ok None
                Demo.registered
                (UserCreate.mk "joy" None (Some Demo.long_password) "staff"
                   None) Demo.admin1) as (_ & _ & Hlong).
    apply (Hlong Demo.long_password); reflexivity.
Defined.

Lemma login_after_create_user_witness :
  exists token w2,
    get_db (demo_login (LoginRequest.mk " h1" "NURSE.joy " (Some "pokeball"))
              "10.0.0.7")
      (snd (get_db (demo_create_user new_nurse Demo.admin1) Demo.registered))
    = (Return token, w2)
    /\ TokenResponse.role token = "staff".
Proof.
  apply (login_after_create_user Demo.hash Demo.verify Pg.lower_C
           Demo.hospital_ok Demo.user_ok None Demo.token Demo.registered
           (snd (get_db (demo_create_user new_nurse Demo.admin1)
                   Demo.registered))
           new_nurse Demo.admin1 nurse_row
           (LoginRequest.mk " h1" "NURSE.joy " (Some "pokeball")) "10.0.0.7"
           Demo.h1).
  - reflexivity.
  - discriminate.
  - exact demo_verify_hash.
  - reflexivity.
  - reflexivity.
  - reflexivity.
  - reflexivity.
  - reflexivity.
  - discriminate.
  - repeat constructor. intros _. vm_compute. discriminate.
  - reflexivity.
  - reflexivity.
  - reflexivity.
Defined.

Lemma create_user_errors_propagate_witness :
  (exists w',
      get_db (create_user Demo.broken_hash Demo.hospital_ok Demo.user_ok None
                new_nurse Demo.admin1) Demo.registered
      = (Raise HashingError, w')
      /\ committed w' = committed Demo.registered)
  /\ (exists w',
         get_db (demo_create_user
                   (UserCreate.mk "ADMIN" None (Some "pokeball") "staff" None)
                   Demo.admin1) Demo.registered
         = (Raise IntegrityError, w')
         /\ committed w' = committed Demo.registered)
  /\ (exists w',
         get_db (demo_create_user
                   (UserCreate.mk Demo.with_nul None (Some "pokeball") "staff"
                      None)
                   Demo.admin1) Demo.registered
         = (Raise DBAPIError, w')
         /\ committed w' = committed Demo.registered).
Proof.
  split; [|split].
  - destruct (create_user_errors_propagate Demo.broken_hash Demo.hospital_ok
                Demo.user_ok None Demo.registered new_nurse Demo.admin1
                "pokeball" eq_refl eq_refl eq_refl) as [Hhash _].
    + vm_compute. discriminate.
    + apply Hhash. reflexivity.
  - destruct (create_user_errors_propagate Demo.hash Demo.hospital_ok
                Demo.user_ok None Demo.registered
                (UserCreate.mk "ADMIN" None (Some "pokeball") "staff" None)
                Demo.admin1 "pokeball" eq_refl eq_refl eq_refl)
      as (_ & Hrow & _).
    + vm_compute. discriminate.
    + apply (Hrow "$2b$pokeball"); reflexivity.
  - destruct (create_user_errors_propagate Demo.hash Demo.hospital_ok
                Demo.user_ok None Demo.registered
                (UserCreate.mk Demo.with_nul None (Some "pokeball") "staff"
                   None)
                Demo.admin1 "pokeball" eq_refl eq_refl eq_refl)
      as (_ & _ & Htext).
    + vm_compute. discriminate.
    + apply (Htext "$2b$pokeball"); reflexivity.
Defined.

Lemma toggle_not_found_iff_witness :
  get_db (demo_toggle (2 ^ 63) Demo.admin1) Demo.two_hospitals
  = (Raise DBAPIError, opened Demo.two_hospitals)
  /\ (fst (get_db (demo_toggle 3 Demo.admin1) Demo.two_hospitals)
      = Raise (HTTPException 404 "User not found")
      <-> ~ exists user,
            In user (users (committed Demo.two_hospitals))
            /\ User.id user = 3
            /\ User.hospital_id user = User.hospital_id Demo.admin1)
  /\ (exists l1 l2 w',
         users (committed Demo.two_hospitals)
         = (l1 ++ Demo.doctor2 :: l2)%list
         /\ get_db (demo_toggle 3 Demo.admin2) Demo.two_hospitals
            = (Return (toggled Demo.doctor2), w')
         /\ users (committed w') = (l1 ++ toggled Demo.doctor2 :: l2)%list).
Proof.
  split; [|split].
  - destruct (toggle_not_found_iff Pg.int4 Demo.hospital_ok Demo.user_ok
                Demo.two_hospitals (2 ^ 63) Demo.admin1 eq_refl
                demo_users_pk) as [Hout _].
    apply Hout. reflexivity.
  - destruct (toggle_not_found_iff Pg.int4 Demo.hospital_ok Demo.user_ok
                Demo.two_hospitals 3 Demo.admin1 eq_refl demo_users_pk)
      as [_ Hin].
    destruct (Hin eq_refl) as [Hiff _]. exact Hiff.
  - destruct (toggle_not_found_iff Pg.int4 Demo.hospital_ok Demo.user_ok
                Demo.two_hospitals 3 Demo.admin2 eq_refl demo_users_pk)
      as [_ Hin].
    destruct (Hin eq_refl) as [_ Hfound].
    apply (Hfound Demo.doctor2); [simpl; auto|reflexivity|reflexivity].
Defined.

Lemma demo_staffed_pk : users_pk (committed Demo.staffed).
Proof.
  unfold users_pk. simpl. repeat constructor; simpl; intuition discriminate.
Defined.

Lemma toggle_locks_out_witness :
  exists w1 w2,
    get_db (demo_toggle 2 Demo.admin1) Demo.staffed
    = (Return (User.set_status (Some false) Demo.doctor1), w1)
    /\ get_db (demo_login (LoginRequest.mk "h1" "Dr.Jones" (Some "scalpel"))
                 "10.0.0.7") w1
       = (Raise unauthorized, w2)
    /\ audit_logs (committed w2)
       = (audit_logs (committed Demo.staffed)
          ++ [failed_row (LoginRequest.mk "h1" "Dr.Jones" (Some "scalpel"))
                "10.0.0.7" (audit_logs_id_seq Demo.staffed)
                (utcnow Demo.staffed)])%list
    /\ pwd_calls w2 = pwd_calls Demo.staffed.
Proof.
  apply (toggle_locks_out Demo.verify Pg.lower_C Pg.int4 Demo.hospital_ok
           Demo.user_ok Demo.token Demo.staffed
           (LoginRequest.mk "h1" "Dr.Jones" (Some "scalpel")) "10.0.0.7"
           "scalpel" Demo.h1 Demo.doctor1 Demo.admin1).
  - reflexivity.
  - exact demo_staffed_pk.
  - reflexivity.
  - reflexivity.
  - reflexivity.
  - reflexivity.
  - reflexivity.
  - vm_compute. discriminate.
  - reflexivity.
  - discriminate.
  - reflexivity.
  - reflexivity.
  - reflexivity.
Defined.

Lemma demo_empty_consistent : consistent Demo.empty.
Proof. unfold consistent, users_pk. simpl. repeat constructor. Defined.

Lemma consistency_is_invariant_witness :
  consistent
    (demo_serve (CreateUser new_nurse Demo.admin1)
       (demo_serve (RegisterHospital Demo.reg) Demo.empty))
  /\ users_pk
       (committed
          (demo_serve (CreateUser new_nurse Demo.admin1)
             (demo_serve (RegisterHospital Demo.reg) Demo.empty)))
  /\ foreign_keys_allocated
       (demo_serve (CreateUser new_nurse Demo.admin1)
          (demo_serve (RegisterHospital Demo.reg) Demo.empty)).
Proof.
  apply (consistency_is_invariant Demo.hash Demo.verify Pg.lower_C Pg.int4
           Demo.hospital_ok Demo.user_ok None None Demo.secret Demo.token
           Demo.empty).
  - exact demo_empty_consistent.
  - apply reachable_serve.
    + apply reachable_serve; [apply reachable_start|exact I].
    + simpl. left. reflexivity.
Defined.

Lemma login_gate_and_outage_witness :
  get_db (demo_login (LoginRequest.mk "h1" "admin" None) "10.0.0.7")
    (with_uptime (Some 0%nat) Demo.registered)
  = (Raise unauthorized, opened (with_uptime (Some 0%nat) Demo.registered))
  /\ get_db (demo_login good_login "10.0.0.7")
       (with_uptime (Some 0%nat) Demo.registered)
     = (Raise OperationalError,
        opened (with_uptime (Some 0%nat) Demo.registered)).
Proof.
  split.
  - apply (login_gate_and_outage Demo.verify Pg.lower_C Demo.hospital_ok
             Demo.user_ok Demo.token). reflexivity.
  - destruct (login_gate_and_outage Demo.verify Pg.lower_C Demo.hospital_ok
                Demo.user_ok Demo.token
                (with_uptime (Some 0%nat) Demo.registered) good_login
                "10.0.0.7") as [_ Hdown].
    apply (Hdown "correct horse"); [reflexivity|vm_compute; discriminate
                                   |reflexivity].
Defined.

Lemma list_users_after_create_user_witness :
  exists before row w0 w2,
    get_db (demo_list_users Demo.admin1) Demo.registered
    = (Return before, w0)
    /\ get_db (demo_list_users Demo.admin1)
         (snd (get_db (demo_create_user new_nurse Demo.admin1)
                 Demo.registered))
       = (Return (before ++ [row])%list, w2)
    /\ User.hospital_id row = User.hospital_id Demo.admin1
    /\ User.username row = "nurse.joy"
    /\ User.role row = "staff".
Proof.
  exact (list_users_after_create_user Demo.hash Demo.hospital_ok Demo.user_ok
           None Demo.registered
           (snd (get_db (demo_create_user new_nurse Demo.admin1)
                   Demo.registered))
           new_nurse Demo.admin1 nurse_row eq_refl eq_refl).
Defined.

Lemma list_users_after_registration_witness :
  exists admin w2,
    In admin (users (committed Demo.registered))
    /\ User.role admin = "admin"
    /\ User.username admin = "admin"
    /\ get_db (demo_list_users admin) Demo.registered = (Return [admin], w2).
Proof.
  apply (list_users_after_registration Demo.hash Pg.lower_C Demo.hospital_ok
           Demo.user_ok None None Demo.secret Demo.empty Demo.registered
           Demo.reg
           (Registered.mk "Hospital h1 registered successfully" "h1")).
  - reflexivity.
  - constructor.
  - reflexivity.
Defined.
